(** * Hotel management: the booking and availability engine of [HotelManager]

    A shallow embedding of the [HotelManager] class of [main.py] and the proofs
    of its booking properties.

    - The SQLite database is the state: one list of rows per table, kept in
      insertion (rowid) order.  [UPDATE ... WHERE] rewrites the matching
      rows in place, [INSERT] appends a row and raises [IntegrityError] when
      the primary key is already present, [SELECT COUNT] counts the rows a
      [WHERE] clause keeps.  SQLite does not enforce the [FOREIGN KEY]
      clauses (the pragma is never switched on), so neither does the model.
    - The methods run in a state monad over the database with one exception;
      a method is written as the Python reads, statement by statement.
    - A [datetime.date] is its proleptic ordinal ([date.toordinal()]), an
      integer: comparing dates is comparing ordinals, [(a - b).days] is the
      difference.  The database stores dates as [isoformat()] text,
      ["YYYY-MM-DD"] zero padded, which SQLite orders as the ordinals:
      [isoformat_compare] below.
    - Prices are [REAL] columns and Python floats: binary64, the kernel's
      [float].  The price of a room is [REAL NOT NULL]: a write of NaN,
      which SQLite binds as [NULL], raises [IntegrityError], and a zero is
      stored without its sign ([real_column]).
    - [random.randint] is an oracle: the drawn number is an argument of the
      method that asks for a fresh identifier; so is what [random.choice]
      picks for each sample room.
    - The customers table is a state of its own, a list of rows passed in
      and out: no method reads or writes it together with the other two.
    - The lists the pages of [main] compute before they call the manager
      (rooms on offer, bookings ready for an action) are written in the
      same monad, comprehension by comprehension. *)

From Stdlib Require Import ZArith Floats Uint63 Lia Ascii String.
From stdpp Require Import base decidable option list strings pretty sorting
  relations.

Open Scope Z_scope.

(** ** Dates as Python and SQLite have them *)

(** A date of the engine, as its ordinal. *)
Definition date : Type := Z.

(** A [datetime.date]: year, month and day. *)
Record ymd : Type := mk_ymd { year : Z; month : Z; day : Z }.

(** The calendar arithmetic of [datetime]. *)
Definition _is_leap (y : Z) : bool :=
  bool_decide (y mod 4 = 0 /\ (y mod 100 <> 0 \/ y mod 400 = 0)).

Definition _days_before_year (year : Z) : Z :=
  let y := year - 1 in y * 365 + y / 4 - y / 100 + y / 400.

Definition _days_in_month (year month : Z) : Z :=
  if bool_decide (month = 2) && _is_leap year then 29
  else nth (Z.to_nat month) [-1; 31; 28; 31; 30; 31; 30; 31; 31; 30; 31; 30; 31]
         0.

Definition _days_before_month (year month : Z) : Z :=
  nth (Z.to_nat month)
    [-1; 0; 31; 59; 90; 120; 151; 181; 212; 243; 273; 304; 334] 0
  + (if bool_decide (month > 2) && _is_leap year then 1 else 0).

(** [date.toordinal()]. *)
Definition toordinal (d : ymd) : Z :=
  _days_before_year (year d) + _days_before_month (year d) (month d) + day d.

(** What the constructor of [date] checks. *)
Definition valid_date (d : ymd) : Prop :=
  1 <= year d <= 9999 /\ 1 <= month d <= 12
  /\ 1 <= day d <= _days_in_month (year d) (month d).

(** A decimal digit and a number printed as ["%0wd"]. *)
Definition digit (n : Z) : ascii := ascii_of_N (48 + Z.to_N n).

Fixpoint zero_padded (width : nat) (n : Z) : string :=
  match width with
  | O => EmptyString
  | S w => String (digit (n / 10 ^ Z.of_nat w))
             (zero_padded w (n mod 10 ^ Z.of_nat w))
  end.

(** [date.isoformat()]: ["%04d-%02d-%02d"]. *)
Definition isoformat (d : ymd) : string :=
  zero_padded 4 (year d) +:+ "-" +:+ zero_padded 2 (month d)
  +:+ "-" +:+ zero_padded 2 (day d).

(** How two comparisons combine, the first one leading. *)
Definition lex (c1 c2 : comparison) : comparison :=
  match c1 with Eq => c2 | _ => c1 end.

(** ** Rows *)

Module Rooms.
Record row : Type := mk {
  room_number : string;
  type : string;
  price : float;
  status : string
}.
End Rooms.

Module Bookings.
Record row : Type := mk {
  booking_id : string;
  customer_id : string;
  room_number : string;
  check_in_date : date;
  check_out_date : date;
  status : string;
  price_per_night : float
}.
End Bookings.

(** The database behind [self.conn]. *)
Record DB : Type := mkDB {
  rooms : list Rooms.row;
  bookings : list Bookings.row
}.

(** ** The monad of the methods *)

Inductive exn : Type :=
| IntegrityError.

Inductive outcome (A : Type) : Type :=
| Returned (a : A)
| Raised (e : exn).
Arguments Returned {A} a.
Arguments Raised {A} e.

Definition M (A : Type) : Type := DB -> outcome A * DB.

Definition ret {A} (a : A) : M A := fun db => (Returned a, db).

Definition bind {A B} (m : M A) (k : A -> M B) : M B :=
  fun db =>
    match m db with
    | (Returned a, db') => k a db'
    | (Raised e, db') => (Raised e, db')
    end.

Definition raise {A} (e : exn) : M A := fun db => (Raised e, db).
Definition query {A} (q : DB -> A) : M A := fun db => (Returned (q db), db).
Definition execute (u : DB -> DB) : M unit := fun db => (Returned tt, u db).

Declare Scope db_scope.
Delimit Scope db_scope with db.
Notation "'let*' x ':=' m 'in' k" := (bind m (fun x => k))
  (at level 10, x name, m at level 100, k at level 200) : db_scope.
Notation "m ';;' k" := (bind m (fun _ => k))
  (at level 100, k at level 200, only parsing, right associativity) : db_scope.
Open Scope db_scope.

Definition result {A} (m : M A) (db : DB) : outcome A := fst (m db).
Definition final {A} (m : M A) (db : DB) : DB := snd (m db).

(** ** SQL statements over a table *)

Section Sql.
Context {R : Type}.

(** [SELECT * FROM t WHERE P], then [cursor.fetchone()]. *)
Definition select_one (P : R -> Prop) `{!forall r, Decision (P r)}
    (t : list R) : option R :=
  head (filter P t).

(** [SELECT COUNT( * ) FROM t WHERE P]. *)
Definition select_count (P : R -> Prop) `{!forall r, Decision (P r)}
    (t : list R) : Z :=
  Z.of_nat (length (filter P t)).

(** [UPDATE t SET ... WHERE P]. *)
Definition update_where (P : R -> Prop) `{!forall r, Decision (P r)}
    (set : R -> R) (t : list R) : list R :=
  (fun r => if decide (P r) then set r else r) <$> t.
End Sql.

(** ** Room management *)

Definition set_room_status (s : string) (r : Rooms.row) : Rooms.row :=
  Rooms.mk (Rooms.room_number r) (Rooms.type r) (Rooms.price r) s.

Definition set_room_details (ty : string) (p : float) (s : string)
    (r : Rooms.row) : Rooms.row :=
  Rooms.mk (Rooms.room_number r) ty p s.

(** What a [REAL NOT NULL] column takes from a Python float: SQLite binds
    NaN as [NULL], which the column refuses, and stores a zero without
    its sign, so that [-0.0] reads back as [0.0]. *)
Definition real_column (p : float) : option float :=
  if PrimFloat.is_nan p then None
  else if PrimFloat.is_zero p then Some 0%float
  else Some p.

Definition update_room_details (room_number new_type : string)
    (new_price : float) (new_status : string) : M bool :=
  match real_column new_price with
  | Some p =>
    execute (fun db =>
      mkDB (update_where (fun r => Rooms.room_number r = room_number)
              (set_room_details new_type p new_status) (rooms db))
           (bookings db)) ;;
    ret true
  | None =>
    (* the statement fails on the row it matches and writes nothing; it
       matches none when the room has no record *)
    let* matched :=
      query (fun db =>
        select_count (fun r => Rooms.room_number r = room_number)
          (rooms db)) in
    if decide (matched = 0) then ret true else raise IntegrityError
  end.

Definition update_room_status (room_number status : string) : M bool :=
  execute (fun db =>
    mkDB (update_where (fun r => Rooms.room_number r = room_number)
            (set_room_status status) (rooms db))
         (bookings db)) ;;
  ret true.

(** [INSERT INTO rooms], as [add_room] and [_load_sample_data] execute it:
    [room_number] is the primary key and [price] is [REAL NOT NULL]. *)
Definition insert_room (r : Rooms.row) : M unit :=
  fun db =>
    match real_column (Rooms.price r) with
    | None => (Raised IntegrityError, db)
    | Some p =>
      if decide (Rooms.room_number r ∈ Rooms.room_number <$> rooms db)
      then (Raised IntegrityError, db)
      else
        (Returned tt,
         mkDB (rooms db
               ++ [Rooms.mk (Rooms.room_number r) (Rooms.type r) p
                     (Rooms.status r)])
              (bookings db))
    end.

Definition get_room_by_number (room_number : string) : M (option Rooms.row) :=
  query (fun db =>
    select_one (fun r => Rooms.room_number r = room_number) (rooms db)).

Definition get_room_price (room_number : string) : M float :=
  let* room := get_room_by_number room_number in
  ret match room with
      | Some r => Rooms.price r
      | None => 0%float
      end.

(** ** Booking and availability *)

(** [_generate_id]: [draw] is what [random.randint] returned. *)
Definition _generate_id (prefix : string) (draw : Z) : option string :=
  if decide (prefix = "C") then Some ("C" +:+ pretty draw)
  else if decide (prefix = "R") then Some (pretty draw)
  else if decide (prefix = "B") then Some ("B" +:+ pretty draw)
  else None.

Definition get_booking_by_id (booking_id : string) : M (option Bookings.row) :=
  query (fun db =>
    select_one (fun b => Bookings.booking_id b = booking_id) (bookings db)).

(** [INSERT INTO bookings]: [booking_id] is the primary key. *)
Definition insert_booking (b : Bookings.row) : M unit :=
  fun db =>
    if decide (Bookings.booking_id b ∈ Bookings.booking_id <$> bookings db)
    then (Raised IntegrityError, db)
    else (Returned tt, mkDB (rooms db) (bookings db ++ [b])).

(** The [WHERE] clause of [is_room_available]. *)
Definition blocks (room_number : string) (new_check_in new_check_out : date)
    (b : Bookings.row) : Prop :=
  Bookings.room_number b = room_number
  /\ Bookings.status b ∈ ["Confirmed"; "CheckedIn"]
  /\ Bookings.check_out_date b > new_check_in
  /\ Bookings.check_in_date b < new_check_out.

#[global] Instance blocks_dec rn s e b : Decision (blocks rn s e b).
Proof. unfold blocks. apply _. Defined.

(** Python's truth value of an optional string argument. *)
Definition truthy (s : option string) : bool :=
  match s with
  | Some x => bool_decide (x <> "")
  | None => false
  end.

(** The query of [is_room_available] and the count it fetches. *)
Definition overlap_count (room_number : string)
    (new_check_in new_check_out : date)
    (booking_id_to_ignore : option string) (db : DB) : Z :=
  if truthy booking_id_to_ignore then
    select_count
      (fun b => blocks room_number new_check_in new_check_out b
                /\ Some (Bookings.booking_id b) <> booking_id_to_ignore)
      (bookings db)
  else
    select_count (blocks room_number new_check_in new_check_out)
      (bookings db).

Definition is_room_available (room_number : string)
    (new_check_in new_check_out : date)
    (booking_id_to_ignore : option string) : M bool :=
  let* overlap_count :=
    query (overlap_count room_number new_check_in new_check_out
             booking_id_to_ignore) in
  ret (bool_decide (overlap_count = 0)).

Definition default_status : string := "Confirmed".

Definition add_booking (draw : Z) (customer_id room_number : string)
    (check_in_date check_out_date : date) (status : string)
    : M (bool * string) :=
  if decide (check_in_date >= check_out_date) then
    ret (false, "Check-out date must be after check-in date.")
  else
    let* room := get_room_by_number room_number in
    match room with
    | None => ret (false, "Room not found.")
    | Some _ =>
      let* available :=
        is_room_available room_number check_in_date check_out_date None in
      if negb available then
        ret (false, "Room " +:+ room_number
                    +:+ " is already booked or occupied during this period.")
      else
        match _generate_id "B" draw with
        | None => raise IntegrityError (* not reached: the prefix is "B" *)
        | Some booking_id =>
          let* p := get_room_price room_number in
          insert_booking
            (Bookings.mk booking_id customer_id room_number
               check_in_date check_out_date status p) ;;
          ret (true, "Booking " +:+ booking_id +:+ " confirmed.")
        end
    end.

Definition set_booking (room_number : string) (check_in check_out : date)
    (status : string) (p : float) (b : Bookings.row) : Bookings.row :=
  Bookings.mk (Bookings.booking_id b) (Bookings.customer_id b) room_number
    check_in check_out status p.

Definition set_booking_status (status : string) (b : Bookings.row)
    : Bookings.row :=
  Bookings.mk (Bookings.booking_id b) (Bookings.customer_id b)
    (Bookings.room_number b) (Bookings.check_in_date b)
    (Bookings.check_out_date b) status (Bookings.price_per_night b).

(** [UPDATE bookings SET status = ? WHERE booking_id = ?]. *)
Definition update_booking_status (booking_id status : string) : M unit :=
  execute (fun db =>
    mkDB (rooms db)
         (update_where (fun b => Bookings.booking_id b = booking_id)
            (set_booking_status status) (bookings db))).

Definition update_booking (booking_id new_room_number : string)
    (new_check_in new_check_out : date) (new_status : string)
    : M (bool * string) :=
  let* booking_to_update := get_booking_by_id booking_id in
  match booking_to_update with
  | None => ret (false, "Booking not found.")
  | Some b =>
    if decide (new_check_in >= new_check_out) then
      ret (false, "Check-out date must be after check-in date.")
    else
      let* available :=
        is_room_available new_room_number new_check_in new_check_out
          (Some booking_id) in
      if negb available then
        ret (false, "Room " +:+ new_room_number
                    +:+ " is not available for the new dates/room.")
      else
        let old_room_number := Bookings.room_number b in
        let old_status := Bookings.status b in
        (if decide (old_status = "CheckedIn")
         then update_room_status old_room_number "Available" ;; ret tt
         else ret tt) ;;
        (if decide (new_status = "CheckedIn")
         then update_room_status new_room_number "Occupied" ;; ret tt
         else ret tt) ;;
        let* p := get_room_price new_room_number in
        execute (fun db =>
          mkDB (rooms db)
               (update_where (fun r => Bookings.booking_id r = booking_id)
                  (set_booking new_room_number new_check_in new_check_out
                     new_status p)
                  (bookings db))) ;;
        ret (true, "Booking " +:+ booking_id +:+ " successfully updated.")
  end.

(** ** Check-in, check-out, cancellation *)

Definition check_in (booking_id : string) : M bool :=
  let* booking := get_booking_by_id booking_id in
  match booking with
  | Some b =>
    if decide (Bookings.status b = "Confirmed") then
      update_booking_status booking_id "CheckedIn" ;;
      update_room_status (Bookings.room_number b) "Occupied" ;;
      ret true
    else ret false
  | None => ret false
  end.

Definition check_out (booking_id : string) : M bool :=
  let* booking := get_booking_by_id booking_id in
  match booking with
  | Some b =>
    if decide (Bookings.status b = "CheckedIn") then
      update_booking_status booking_id "CheckedOut" ;;
      update_room_status (Bookings.room_number b) "Available" ;;
      ret true
    else ret false
  | None => ret false
  end.

Definition cancel_booking (booking_id : string) : M bool :=
  let* booking := get_booking_by_id booking_id in
  match booking with
  | Some b =>
    if decide (Bookings.status b = "Confirmed") then
      update_booking_status booking_id "Cancelled" ;;
      ret true
    else ret false
  | None => ret false
  end.

(** ** Reporting *)

(** Python's conversion of an [int] to a [float] (exact below [2^53],
    which bounds every count of nights or rooms here). *)
Definition float_of_int (z : Z) : float :=
  if decide (z < 0) then PrimFloat.opp (PrimFloat.of_uint63 (Uint63.of_Z (- z)))
  else PrimFloat.of_uint63 (Uint63.of_Z z).

(** The four counters the loop of [get_reports] updates. *)
Record tally : Type := mkTally {
  total_revenue : float;
  occupied_nights : Z;
  completed_bookings : Z;
  cancelled_bookings : Z
}.

(** The dictionary [get_reports] returns. *)
Record report : Type := mkReport {
  counters : tally;
  total_nights : Z;
  occupancy_rate : float
}.

(** One iteration of [for booking in self.bookings]. *)
Definition report_step (start_date end_date : date) (r : tally)
    (booking : Bookings.row) : tally :=
  let b_in := Bookings.check_in_date booking in
  let b_out := Bookings.check_out_date booking in
  let status := Bookings.status booking in
  let price := Bookings.price_per_night booking in
  let start := Z.max b_in start_date in
  let end_ := Z.min b_out end_date in
  if decide (start < end_) then
    let duration := end_ - start in
    let r1 :=
      if decide (status = "CheckedOut") then
        mkTally (PrimFloat.add (total_revenue r)
                   (PrimFloat.mul (float_of_int duration) price))
                (occupied_nights r) (completed_bookings r + 1)
                (cancelled_bookings r)
      else r in
    let r2 :=
      if decide (status ∈ ["Confirmed"; "CheckedIn"; "CheckedOut"]) then
        mkTally (total_revenue r1) (occupied_nights r1 + duration)
                (completed_bookings r1) (cancelled_bookings r1)
      else r1 in
    if decide (status = "Cancelled" /\ b_in >= start_date /\ b_in <= end_date)
    then
      mkTally (total_revenue r2) (occupied_nights r2)
              (completed_bookings r2) (cancelled_bookings r2 + 1)
    else r2
  else r.

Definition get_reports (start_date end_date : date) : M report :=
  query (fun db =>
    let r := foldl (report_step start_date end_date)
               (mkTally 0%float 0 0 0) (bookings db) in
    (* [self.rooms] is ordered by room number; only its length is used *)
    let num_rooms := Z.of_nat (length (rooms db)) in
    let duration_days := end_date - start_date in
    let total_nights := num_rooms * duration_days in
    if decide (total_nights > 0) then
      mkReport r total_nights
        (PrimFloat.mul
           (PrimFloat.div (float_of_int (occupied_nights r))
                          (float_of_int total_nights))
           (float_of_int 100))
    else
      mkReport r total_nights 0%float).

(** ** Engine operations as data *)

Inductive op : Type :=
| AddBooking (draw : Z) (customer_id room_number : string)
    (check_in_date check_out_date : date) (status : string)
| UpdateBooking (booking_id new_room_number : string)
    (new_check_in new_check_out : date) (new_status : string)
| CheckIn (booking_id : string)
| CheckOut (booking_id : string)
| CancelBooking (booking_id : string).

(** Runs an operation and keeps the success flag of what it returns. *)
Definition run (o : op) : M bool :=
  match o with
  | AddBooking draw c rn i o s =>
    let* r := add_booking draw c rn i o s in ret (fst r)
  | UpdateBooking id rn i o s =>
    let* r := update_booking id rn i o s in ret (fst r)
  | CheckIn id => check_in id
  | CheckOut id => check_out id
  | CancelBooking id => cancel_booking id
  end.

Definition succeeds (o : op) (db db' : DB) : Prop :=
  run o db = (Returned true, db').

Definition fails (o : op) (db db' : DB) : Prop :=
  run o db = (Returned false, db').

(** [db'] is reached from [db] by running the operations in turn, each
    one returning success. *)
Inductive reaches : DB -> list op -> DB -> Prop :=
| reaches_nil db : reaches db [] db
| reaches_cons db o db1 os db2 :
    succeeds o db db1 -> reaches db1 os db2 -> reaches db (o :: os) db2.

(** Executable counterpart of [reaches]. *)
Fixpoint run_all (os : list op) (db : DB) : option DB :=
  match os with
  | [] => Some db
  | o :: os' =>
    match run o db with
    | (Returned true, db1) => run_all os' db1
    | _ => None
    end
  end.

(** ** Predicates on the database *)

Definition active (b : Bookings.row) : Prop :=
  Bookings.status b ∈ ["Confirmed"; "CheckedIn"].

(** The stays of two bookings, from check-in up to and without check-out,
    share a night. *)
Definition overlap (a b : Bookings.row) : Prop :=
  exists night : date,
    Bookings.check_in_date a <= night < Bookings.check_out_date a
    /\ Bookings.check_in_date b <= night < Bookings.check_out_date b.

(** No room is double booked: two active bookings of one room, with
    different identifiers, never overlap. *)
Definition no_double_booking (db : DB) : Prop :=
  forall a b : Bookings.row,
    a ∈ bookings db -> b ∈ bookings db ->
    Bookings.booking_id a <> Bookings.booking_id b ->
    Bookings.room_number a = Bookings.room_number b ->
    active a -> active b -> ~ overlap a b.

(** [booking_id] is the primary key of the bookings table. *)
Definition bookings_pk (db : DB) : Prop :=
  NoDup (Bookings.booking_id <$> bookings db).

(** No stored booking has the empty string as its identifier:
    [_generate_id] makes them all start with a letter. *)
Definition ids_nonempty (db : DB) : Prop :=
  Forall (fun b => Bookings.booking_id b <> "") (bookings db).

(** What SQLite and the engine guarantee of every database they build:
    primary keys are unique, a booking identifier is never the empty string
    and every stay ends after it starts. *)
Definition store_ok (db : DB) : Prop :=
  NoDup (Rooms.room_number <$> rooms db)
  /\ bookings_pk db
  /\ ids_nonempty db
  /\ Forall (fun b => Bookings.check_in_date b < Bookings.check_out_date b)
       (bookings db).

#[global] Instance bookings_pk_dec db : Decision (bookings_pk db).
Proof. unfold bookings_pk. apply _. Defined.

#[global] Instance ids_nonempty_dec db : Decision (ids_nonempty db).
Proof. unfold ids_nonempty. apply _. Defined.

#[global] Instance store_ok_dec db : Decision (store_ok db).
Proof. unfold store_ok. apply _. Defined.

(** The databases the manager builds: the empty one, then any room
    inserted, any room edited, any engine operation run. *)
Inductive built : DB -> Prop :=
| built_empty : built (mkDB [] [])
| built_insert_room r db : built db -> built (final (insert_room r) db)
| built_room_details rn ty p st db :
    built db -> built (final (update_room_details rn ty p st) db)
| built_run o db : built db -> built (final (run o) db).

(** ** The tables after a write *)

(** The rooms table after [update_room_status rn s]. *)
Definition with_room_status (rn s : string) (t : list Rooms.row)
    : list Rooms.row :=
  update_where (fun r => Rooms.room_number r = rn) (set_room_status s) t.

(** The bookings table after [UPDATE bookings SET status = s] on [id]. *)
Definition with_booking_status (id s : string) (t : list Bookings.row)
    : list Bookings.row :=
  update_where (fun b => Bookings.booking_id b = id) (set_booking_status s) t.

(** The rate [get_room_price] reads. *)
Definition room_price (rn : string) (t : list Rooms.row) : float :=
  match select_one (fun r => Rooms.room_number r = rn) t with
  | Some r => Rooms.price r
  | None => 0%float
  end.

(** The rooms table after the two status writes of [update_booking] on
    the booking [b]. *)
Definition moved_rooms (b : Bookings.row) (new_rn new_status : string)
    (t : list Rooms.row) : list Rooms.row :=
  let t1 := if decide (Bookings.status b = "CheckedIn")
            then with_room_status (Bookings.room_number b) "Available" t
            else t in
  if decide (new_status = "CheckedIn")
  then with_room_status new_rn "Occupied" t1
  else t1.

(** The rooms table a successful operation leaves. *)
Definition rooms_after (o : op) (db : DB) : list Rooms.row :=
  match o with
  | AddBooking _ _ _ _ _ _ | CancelBooking _ => rooms db
  | CheckIn id =>
    match select_one (fun b => Bookings.booking_id b = id) (bookings db) with
    | Some b => with_room_status (Bookings.room_number b) "Occupied" (rooms db)
    | None => rooms db
    end
  | CheckOut id =>
    match select_one (fun b => Bookings.booking_id b = id) (bookings db) with
    | Some b =>
      with_room_status (Bookings.room_number b) "Available" (rooms db)
    | None => rooms db
    end
  | UpdateBooking id rn _ _ s =>
    match select_one (fun b => Bookings.booking_id b = id) (bookings db) with
    | Some b => moved_rooms b rn s (rooms db)
    | None => rooms db
    end
  end.

(** The call that changes nothing of the booking [b]. *)
Definition noop_update (b : Bookings.row) : M (bool * string) :=
  update_booking (Bookings.booking_id b) (Bookings.room_number b)
    (Bookings.check_in_date b) (Bookings.check_out_date b)
    (Bookings.status b).

(** The operations that only move a booking along its life cycle. *)
Definition is_transition (o : op) : bool :=
  match o with
  | CheckIn _ | CheckOut _ | CancelBooking _ => true
  | AddBooking _ _ _ _ _ _ | UpdateBooking _ _ _ _ _ => false
  end.

(** The operation creates a booking that is CheckedIn from the start. *)
Definition creates_checked_in (o : op) : bool :=
  match o with
  | AddBooking _ _ _ _ _ s => bool_decide (s = "CheckedIn")
  | _ => false
  end.

(** ** Room status against the bookings *)

(** Some booking of room [rn] is CheckedIn. *)
Definition checked_in_on (db : DB) (rn : string) : Prop :=
  Exists (fun b => Bookings.room_number b = rn
                   /\ Bookings.status b = "CheckedIn") (bookings db).

(** The status of the room row [r] matches the bookings: Occupied exactly
    when a booking of the room is CheckedIn, otherwise Available or the
    manual Maintenance. *)
Definition room_ok (db : DB) (r : Rooms.row) : Prop :=
  (Rooms.status r = "Occupied" <-> checked_in_on db (Rooms.room_number r))
  /\ (Rooms.status r <> "Occupied" ->
      Rooms.status r = "Available" \/ Rooms.status r = "Maintenance").

Definition room_status_ok (db : DB) : Prop :=
  Forall (room_ok db) (rooms db).

#[global] Instance room_status_ok_dec db : Decision (room_status_ok db).
Proof. unfold room_status_ok, room_ok, checked_in_on. apply _. Defined.

(** A booking other than [id] is CheckedIn on room [rn]. *)
Definition others_checked_in (db : DB) (id rn : string) : Prop :=
  exists b, b ∈ bookings db /\ Bookings.booking_id b <> id
            /\ Bookings.room_number b = rn
            /\ Bookings.status b = "CheckedIn".

(** No room has two CheckedIn bookings. *)
Definition single_occupancy (db : DB) : Prop :=
  forall a b : Bookings.row,
    a ∈ bookings db -> b ∈ bookings db ->
    Bookings.status a = "CheckedIn" -> Bookings.status b = "CheckedIn" ->
    Bookings.room_number a = Bookings.room_number b ->
    Bookings.booking_id a = Bookings.booking_id b.

(** ** What a report counts *)

(** The sum of a list of integers. *)
Definition Zsum (l : list Z) : Z := foldr Z.add 0 l.

(** The nights of the stay of [b] that fall in the window. *)
Definition nights_in_window (S E : date) (b : Bookings.row) : Z :=
  Z.max 0 (Z.min (Bookings.check_out_date b) E
           - Z.max (Bookings.check_in_date b) S).

(** The bookings whose nights count as occupied. *)
Definition occupies (b : Bookings.row) : Prop :=
  Bookings.status b ∈ ["Confirmed"; "CheckedIn"; "CheckedOut"].

(** The cancelled bookings the loop of [get_reports] counts: the test sits
    under the test that the stay meets the window. *)
Definition counted_cancelled (S E : date) (b : Bookings.row) : Prop :=
  Z.max (Bookings.check_in_date b) S < Z.min (Bookings.check_out_date b) E
  /\ Bookings.status b = "Cancelled"
  /\ Bookings.check_in_date b >= S /\ Bookings.check_in_date b <= E.

#[global] Instance counted_cancelled_dec S E b :
  Decision (counted_cancelled S E b).
Proof. unfold counted_cancelled. apply _. Defined.



(** ** Example databases *)

(** Room 101 at rate 100 and room 102 at rate 150, no booking yet. *)
Definition db_empty : DB :=
  mkDB [Rooms.mk "101" "Standard" 100%float "Available";
        Rooms.mk "102" "Deluxe" 150%float "Available"]
       [].

(** Room 101 with one confirmed booking for nights 10 and 11. *)
Definition db_one : DB :=
  mkDB [Rooms.mk "101" "Standard" 100%float "Available";
        Rooms.mk "102" "Deluxe" 150%float "Available"]
       [Bookings.mk "B50001" "C1000" "101" 10 12 "Confirmed" 100%float].

(** A second stay right after the first, both checked in, the first
    checked out, then moved to room 102 and cancelled there. *)
Definition ops_stays : list op :=
  [AddBooking 50002 "C1001" "101" 12 14 "Confirmed";
   CheckIn "B50001";
   CheckOut "B50001";
   UpdateBooking "B50002" "102" 11 14 "Confirmed";
   CancelBooking "B50002"].

Definition db_after_stays : DB :=
  Eval vm_compute in default db_one (run_all ops_stays db_one).

(** A database with a cancelled, a checked-out and an adjacent booking of
    room 101, and one confirmed booking that blocks. *)
Definition db_history : DB :=
  mkDB [Rooms.mk "101" "Standard" 100%float "Available"]
       [Bookings.mk "B50001" "C1000" "101" 10 12 "Confirmed" 100%float;
        Bookings.mk "B50002" "C1000" "101" 12 14 "Cancelled" 100%float;
        Bookings.mk "B50003" "C1001" "101" 14 16 "CheckedOut" 100%float].

(** A cancelled booking of room 102 whose nights were booked again. *)
Definition ops_rebooked : list op :=
  [AddBooking 50002 "C1001" "102" 10 12 "Confirmed";
   CancelBooking "B50002";
   AddBooking 50003 "C1002" "102" 10 12 "Confirmed"].

Definition db_rebooked : DB :=
  Eval vm_compute in default db_one (run_all ops_rebooked db_one).

(** Booking B50001 moved to room 999, which has no record. *)
Definition ops_ghost_room : list op :=
  [AddBooking 50002 "C1001" "101" 12 14 "Confirmed";
   UpdateBooking "B50001" "999" 10 12 "Confirmed"].

Definition db_ghost_room : DB :=
  Eval vm_compute in default db_one (run_all ops_ghost_room db_one).

(** [db_one] after booking B50001 was moved to room 102. *)
Definition db_moved : DB :=
  Eval vm_compute in
    final (update_booking "B50001" "102" 10 12 "Confirmed") db_one.

(** Two guests checked in to room 101 for adjacent stays. *)
Definition ops_two_guests : list op :=
  [AddBooking 50002 "C1001" "101" 12 14 "Confirmed";
   CheckIn "B50001";
   CheckIn "B50002"].

Definition db_two_guests : DB :=
  Eval vm_compute in default db_one (run_all ops_two_guests db_one).

Definition db_first_out : DB :=
  Eval vm_compute in final (check_out "B50001") db_two_guests.

(** Room 101 put under maintenance by hand, then its booking checked in. *)
Definition db_maintenance : DB :=
  Eval vm_compute in
    final (update_room_details "101" "Standard" 100%float "Maintenance")
      db_one.

Definition db_maintenance_in : DB :=
  Eval vm_compute in final (check_in "B50001") db_maintenance.

(** [db_one] after its booking was checked in. *)
Definition db_checked_in : DB :=
  Eval vm_compute in final (check_in "B50001") db_one.

Definition db_checked_out : DB :=
  Eval vm_compute in final (check_out "B50001") db_checked_in.

(** [db_one] after its booking, which checks in on day 10, was cancelled. *)
Definition db_cancelled : DB :=
  Eval vm_compute in final (cancel_booking "B50001") db_one.

(** * The rest of the manager *)

(** ** Start-up *)

(** [CREATE TABLE IF NOT EXISTS]: the three tables exist from then on and no
    row changes; a database file that did not exist is the empty database. *)
Definition _create_tables : M unit := ret tt.

Definition _is_db_populated : M bool :=
  let* n := query (fun db => select_count (fun _ => True) (rooms db)) in
  ret (bool_decide (n > 0)).

(** The keys of [room_types], which [random.choice] draws from. *)
Inductive room_type_key : Type :=
| Standard
| Deluxe
| Suite.

Definition key_name (k : room_type_key) : string :=
  match k with
  | Standard => "Standard"
  | Deluxe => "Deluxe"
  | Suite => "Suite"
  end.

Definition room_types (k : room_type_key) : float :=
  match k with
  | Standard => 100%float
  | Deluxe => 150%float
  | Suite => 250%float
  end.

(** The loop of [_load_sample_data] over the room numbers; [pick i] is what
    [random.choice] returned for room [i]. *)
Fixpoint insert_sample_rooms (pick : Z -> room_type_key) (numbers : list Z)
    : M unit :=
  match numbers with
  | [] => ret tt
  | i :: rest =>
    insert_room (Rooms.mk (pretty i) (key_name (pick i))
                   (room_types (pick i)) "Available") ;;
    insert_sample_rooms pick rest
  end.

Definition _load_sample_data (pick : Z -> room_type_key) : M unit :=
  insert_sample_rooms pick (seqZ 101 10).

Definition __init__ (pick : Z -> room_type_key) : M unit :=
  _create_tables ;;
  let* populated := _is_db_populated in
  if negb populated then _load_sample_data pick else ret tt.

(** ** Adding a room *)

(** SQLite's [CAST(text AS INTEGER)]: leading spaces are skipped, then the
    longest prefix that reads as a signed integer is taken, 0 when there
    is none, and the value is kept within 64 bits. *)
Definition is_space (c : ascii) : bool :=
  let n := N_of_ascii c in
  bool_decide (n = 32 \/ (9 <= n /\ n <= 13))%N.

Definition digit_value (c : ascii) : option Z :=
  let n := Z.of_N (N_of_ascii c) in
  if decide (48 <= n <= 57) then Some (n - 48) else None.

Fixpoint skip_spaces (s : string) : string :=
  match s with
  | String c s' => if is_space c then skip_spaces s' else s
  | EmptyString => s
  end.

Fixpoint digits_prefix (acc : Z) (s : string) : Z :=
  match s with
  | String c s' =>
    match digit_value c with
    | Some d => digits_prefix (acc * 10 + d) s'
    | None => acc
    end
  | EmptyString => acc
  end.

Definition cast_integer (s : string) : Z :=
  let v :=
    match skip_spaces s with
    | String "-" s' => - digits_prefix 0 s'
    | String "+" s' => digits_prefix 0 s'
    | s' => digits_prefix 0 s'
    end in
  Z.max (- 2 ^ 63) (Z.min v (2 ^ 63 - 1)).

(** [SELECT MAX(CAST(room_number AS INTEGER)) FROM rooms]: [None] is the
    [NULL] of the empty table. *)
Definition max_room_number (t : list Rooms.row) : option Z :=
  match (fun r => cast_integer (Rooms.room_number r)) <$> t with
  | [] => None
  | n :: ns => Some (foldl Z.max n ns)
  end.

Definition add_room (room_type : string) (price : float) : M unit :=
  let* max_room := query (fun db => max_room_number (rooms db)) in
  let room_number :=
    match max_room with
    | Some m => if decide (m <> 0) then pretty (m + 1) else "101"
    | None => "101"
    end in
  insert_room (Rooms.mk room_number room_type price "Available").

(** ** The room list and the rooms on offer *)

(** [ORDER BY room_number]: texts compare byte by byte, and no two rows
    compare equal, [room_number] being the primary key. *)
Definition room_order (a b : Rooms.row) : Prop :=
  String.leb (Rooms.room_number a) (Rooms.room_number b) = true.

#[global] Instance room_order_dec a b : Decision (room_order a b).
Proof. unfold room_order. apply _. Defined.

(** The property [rooms] of the manager. *)
Definition rooms_property : M (list Rooms.row) :=
  query (fun db => merge_sort room_order (rooms db)).

(** The loop of [get_available_rooms] over the room list. *)
Fixpoint collect_available (check_in_date check_out_date : date)
    (rs : list Rooms.row) : M (list Rooms.row) :=
  match rs with
  | [] => ret []
  | room :: rest =>
    if decide (Rooms.status room = "Maintenance") then
      collect_available check_in_date check_out_date rest
    else
      let* free :=
        is_room_available (Rooms.room_number room) check_in_date
          check_out_date None in
      let* available_rooms :=
        collect_available check_in_date check_out_date rest in
      ret (if free then room :: available_rooms else available_rooms)
  end.

Definition get_available_rooms (check_in_date check_out_date : date)
    : M (list Rooms.row) :=
  let* rooms := rooms_property in
  collect_available check_in_date check_out_date rooms.

(** ** Sequences of calls *)

(** Runs the calls in turn, whatever each one returns, as the pages of the
    application do. *)
Definition run_each (os : list op) (db : DB) : DB :=
  foldl (fun db o => final (run o) db) db os.

(** One move of a booking along its life cycle. *)
Inductive lifecycle_step : string -> string -> Prop :=
| step_check_in : lifecycle_step "Confirmed" "CheckedIn"
| step_check_out : lifecycle_step "CheckedIn" "CheckedOut"
| step_cancel : lifecycle_step "Confirmed" "Cancelled".

(** The booking [b'] is the booking [b] further along its life cycle:
    every column but the status is the same. *)
Definition moved_on (b b' : Bookings.row) : Prop :=
  b' = set_booking_status (Bookings.status b') b
  /\ rtc lifecycle_step (Bookings.status b) (Bookings.status b').

(** What of a room no booking operation writes. *)
Definition room_record (r : Rooms.row) : string * string * float :=
  (Rooms.room_number r, Rooms.type r, Rooms.price r).


(** A text that starts with a decimal digit. *)
Definition starts_with_digit (s : string) : Prop :=
  match s with
  | String c _ => exists d, (d < 10)%N /\ c = pretty_N_char d
  | EmptyString => False
  end.

(** Every room number is the decimal numeral of a positive integer below
    the largest 64-bit one, as the numbers [_load_sample_data] and
    [add_room] write are. *)
Definition numbered (t : list Rooms.row) : Prop :=
  Forall (fun r =>
            Rooms.room_number r = pretty (cast_integer (Rooms.room_number r))
            /\ 0 < cast_integer (Rooms.room_number r) < 2 ^ 63 - 1) t.

#[global] Instance numbered_dec t : Decision (numbered t).
Proof. unfold numbered. apply _. Defined.

(** The rows [_load_sample_data] inserts. *)
Definition sample_rooms (pick : Z -> room_type_key) : list Rooms.row :=
  (fun i => Rooms.mk (pretty i) (key_name (pick i)) (room_types (pick i))
              "Available") <$> seqZ 101 10.


(** ** The lists the pages offer *)

(** The property [bookings] of the manager: the rows in table order, the
    two date texts parsed back to dates. *)
Definition bookings_property : M (list Bookings.row) :=
  query bookings.

Definition ready_for_check_in : M (list Bookings.row) :=
  let* bs := bookings_property in
  ret (filter (fun b => Bookings.status b = "Confirmed") bs).

Definition ready_for_check_out : M (list Bookings.row) :=
  let* bs := bookings_property in
  ret (filter (fun b => Bookings.status b = "CheckedIn") bs).

Definition cancelable : M (list Bookings.row) :=
  let* bs := bookings_property in
  ret (filter (fun b => Bookings.status b = "Confirmed") bs).

(** The comprehension of the modify form over [all_rooms]. *)
Fixpoint free_room_numbers (new_check_in new_check_out : date)
    (selected_booking_id : string) (all_rooms : list Rooms.row)
    : M (list string) :=
  match all_rooms with
  | [] => ret []
  | r :: rest =>
    let* free :=
      is_room_available (Rooms.room_number r) new_check_in new_check_out
        (Some selected_booking_id) in
    let* numbers :=
      free_room_numbers new_check_in new_check_out selected_booking_id rest in
    ret (if free then Rooms.room_number r :: numbers else numbers)
  end.

(** The room numbers the modify form offers for the booking
    [booking_to_modify], selected by its identifier. *)
Definition available_room_numbers (selected_booking_id : string)
    (booking_to_modify : Bookings.row) (new_check_in new_check_out : date)
    : M (list string) :=
  let* all_rooms := rooms_property in
  let* available :=
    free_room_numbers new_check_in new_check_out selected_booking_id
      all_rooms in
  let current_room := Bookings.room_number booking_to_modify in
  ret (if decide (current_room ∈ available) then available
       else current_room :: available).


(** ** Customer management *)

(** A row of the customers table.  No method reads or writes this table
    together with the other two, and the foreign keys of the bookings
    table are not enforced: the table is a state of its own. *)
Module Customers.
Record row : Type := mk {
  customer_id : string;
  name : string;
  email : string;
  phone : string
}.
End Customers.

(** [INSERT INTO customers]: [customer_id] is the primary key. *)
Definition insert_customer (c : Customers.row) (t : list Customers.row)
    : outcome unit * list Customers.row :=
  if decide (Customers.customer_id c ∈ Customers.customer_id <$> t)
  then (Raised IntegrityError, t)
  else (Returned tt, t ++ [c]).

Definition add_customer (draw : Z) (name email phone : string)
    (t : list Customers.row) : outcome string * list Customers.row :=
  match _generate_id "C" draw with
  | None => (Raised IntegrityError, t) (* not reached: the prefix is "C" *)
  | Some customer_id =>
    match insert_customer (Customers.mk customer_id name email phone) t with
    | (Returned _, t') => (Returned customer_id, t')
    | (Raised e, t') => (Raised e, t')
    end
  end.

Definition set_customer (new_name new_email new_phone : string)
    (c : Customers.row) : Customers.row :=
  Customers.mk (Customers.customer_id c) new_name new_email new_phone.

Definition update_customer (customer_id new_name new_email new_phone : string)
    (t : list Customers.row) : outcome bool * list Customers.row :=
  (Returned true,
   update_where (fun c => Customers.customer_id c = customer_id)
     (set_customer new_name new_email new_phone) t).

Definition get_customer_name (customer_id : string)
    (t : list Customers.row) : string :=
  match select_one (fun c => Customers.customer_id c = customer_id) t with
  | Some customer => Customers.name customer
  | None => "Unknown"
  end.

(** ** More on what a report counts *)

(** The bookings the loop of [get_reports] counts as completed: CheckedOut,
    with a night in the window. *)
Definition counted_completed (S E : date) (b : Bookings.row) : Prop :=
  Z.max (Bookings.check_in_date b) S < Z.min (Bookings.check_out_date b) E
  /\ Bookings.status b = "CheckedOut".

#[global] Instance counted_completed_dec S E b :
  Decision (counted_completed S E b).
Proof. unfold counted_completed. apply _. Defined.

(** The revenue a completed booking adds for its nights in the window. *)
Definition add_revenue (S E : date) (revenue : float) (b : Bookings.row)
    : float :=
  PrimFloat.add revenue
    (PrimFloat.mul (float_of_int (nights_in_window S E b))
       (Bookings.price_per_night b)).

(** ** The databases of the application *)

(** What the application builds from a new database file: the manager
    opened, rooms added and edited, and any booking operation run,
    whatever it returns. *)
Inductive managed : DB -> Prop :=
| managed_new : managed (mkDB [] [])
| managed_open pick db : managed db -> managed (final (__init__ pick) db)
| managed_add_room ty p db : managed db -> managed (final (add_room ty p) db)
| managed_room_details rn ty p st db :
    managed db -> managed (final (update_room_details rn ty p st) db)
| managed_run o db : managed db -> managed (final (run o) db).


(** ** The calls that write *)

(** A call of the application that writes to the rooms or the bookings:
    a booking operation, the room details form, the add room form. *)
Inductive call : Type :=
| Engine (o : op)
| RoomDetails (room_number new_type : string) (new_price : float)
    (new_status : string)
| AddRoom (room_type : string) (price : float).

Definition run_call (c : call) : M unit :=
  match c with
  | Engine o => run o ;; ret tt
  | RoomDetails rn ty p st => update_room_details rn ty p st ;; ret tt
  | AddRoom ty p => add_room ty p
  end.

(** Runs the calls in turn, whatever each one returns. *)
Definition run_calls (cs : list call) (db : DB) : DB :=
  foldl (fun db c => final (run_call c) db) db cs.

(** The call is an [update_booking] of the booking [id]. *)
Definition modifies (id : string) (c : call) : Prop :=
  match c with
  | Engine (UpdateBooking id' _ _ _ _) => id' = id
  | _ => False
  end.

(** A booking row without its status. *)
Definition without_status (b : Bookings.row) : Bookings.row :=
  set_booking_status "" b.


(** ** Prices as the columns hold them *)

(** The float is one a [REAL] column holds and reads back as it is: a
    number, and no zero with a sign. *)
Definition stored (p : float) : Prop := real_column p = Some p.

(** Every price of the database, of a room or stored with a booking, is
    as its column holds it. *)
Definition prices_stored (db : DB) : Prop :=
  Forall stored (Rooms.price <$> rooms db)
  /\ Forall stored (Bookings.price_per_night <$> bookings db).


(** * Proofs *)

(** ** Stored dates order as their ordinals *)

Lemma isoformat_example : isoformat (mk_ymd 2024 1 10) = "2024-01-10".
Proof. reflexivity. Qed.

Lemma toordinal_example : toordinal (mk_ymd 2024 1 10) = 738895.
Proof. reflexivity. Qed.

Lemma toordinal_min : toordinal (mk_ymd 1 1 1) = 1.
Proof. reflexivity. Qed.

Lemma toordinal_max : toordinal (mk_ymd 9999 12 31) = 3652059.
Proof. reflexivity. Qed.

(** Digits compare as their characters do. *)
Lemma digit_compare a b :
  0 <= a <= 9 -> 0 <= b <= 9 ->
  Ascii.compare (digit a) (digit b) = Z.compare a b.
Proof.
  intros Ha Hb. unfold Ascii.compare, digit.
  rewrite !N_ascii_embedding by lia.
  rewrite <- N2Z.inj_compare, !N2Z.inj_add, !Z2N.id by lia.
  apply Z.add_compare_mono_l.
Qed.

(** A number compares by its leading part, then by the rest. *)
Lemma split_compare (P a1 r1 a2 r2 : Z) :
  0 <= r1 < P -> 0 <= r2 < P ->
  Z.compare (a1 * P + r1) (a2 * P + r2)
  = lex (Z.compare a1 a2) (Z.compare r1 r2).
Proof.
  intros H1 H2. unfold lex.
  destruct (Z.compare_spec a1 a2) as [->|Hlt|Hgt].
  - destruct (Z.compare_spec r1 r2); [apply Z.compare_eq_iff
      | apply Z.compare_lt_iff | apply Z.compare_gt_iff]; lia.
  - apply Z.compare_lt_iff. nia.
  - apply Z.compare_gt_iff. nia.
Qed.

(** Numbers printed at one width compare as texts the way they compare
    as numbers. *)
Lemma zero_padded_compare (w : nat) (n m : Z) (s t : string) :
  0 <= n < 10 ^ Z.of_nat w -> 0 <= m < 10 ^ Z.of_nat w ->
  String.compare (zero_padded w n +:+ s) (zero_padded w m +:+ t)
  = lex (Z.compare n m) (String.compare s t).
Proof.
  revert n m. induction w as [|w IH]; intros n m Hn Hm.
  - simpl in *. assert (n = 0) by lia. assert (m = 0) by lia. subst.
    reflexivity.
  - rewrite Nat2Z.inj_succ, Z.pow_succ_r in Hn, Hm by lia.
    set (P := 10 ^ Z.of_nat w) in *.
    assert (HP : 0 < P) by (apply Z.pow_pos_nonneg; lia).
    pose proof (Z.div_mod n P ltac:(lia)) as En.
    pose proof (Z.div_mod m P ltac:(lia)) as Em.
    pose proof (Z.mod_pos_bound n P HP) as Bn.
    pose proof (Z.mod_pos_bound m P HP) as Bm.
    assert (Dn : 0 <= n / P <= 9).
    { split; [apply Z.div_pos; lia|].
      assert (n / P < 10) by (apply Z.div_lt_upper_bound; lia). lia. }
    assert (Dm : 0 <= m / P <= 9).
    { split; [apply Z.div_pos; lia|].
      assert (m / P < 10) by (apply Z.div_lt_upper_bound; lia). lia. }
    change (zero_padded (S w) n) with
      (String (digit (n / P)) (zero_padded w (n mod P))).
    change (zero_padded (S w) m) with
      (String (digit (m / P)) (zero_padded w (m mod P))).
    simpl. rewrite digit_compare by assumption.
    rewrite (IH (n mod P) (m mod P)) by assumption.
    assert (Hc : (n ?= m)
                 = (n / P * P + n mod P ?= m / P * P + m mod P))
      by (f_equal; lia).
    rewrite Hc, split_compare by assumption.
    unfold lex. destruct (n / P ?= m / P); reflexivity.
Qed.

Lemma month_cases (m : Z) :
  1 <= m <= 12 ->
  m = 1 \/ m = 2 \/ m = 3 \/ m = 4 \/ m = 5 \/ m = 6 \/ m = 7 \/ m = 8
  \/ m = 9 \/ m = 10 \/ m = 11 \/ m = 12.
Proof. lia. Qed.

Ltac each_month m H :=
  destruct (month_cases m H)
    as [->|[->|[->|[->|[->|[->|[->|[->|[->|[->|[->| ->]]]]]]]]]]].

Lemma _days_in_month_bounds y m :
  1 <= m <= 12 -> 28 <= _days_in_month y m <= 31.
Proof.
  intros H. unfold _days_in_month. destruct (_is_leap y);
    each_month m H; vm_compute; split; discriminate.
Qed.

Lemma _days_before_month_next y m1 m2 :
  1 <= m1 -> m1 < m2 -> m2 <= 12 ->
  _days_before_month y m1 + _days_in_month y m1 <= _days_before_month y m2.
Proof.
  intros H1 Hlt H2. unfold _days_before_month, _days_in_month.
  assert (Hm1 : 1 <= m1 <= 12) by lia. assert (Hm2 : 1 <= m2 <= 12) by lia.
  destruct (_is_leap y); each_month m1 Hm1; each_month m2 Hm2;
    try lia; vm_compute; discriminate.
Qed.

Lemma _days_before_month_last y m :
  1 <= m <= 12 ->
  _days_before_month y m + _days_in_month y m
  <= 365 + (if _is_leap y then 1 else 0).
Proof.
  intros H. unfold _days_before_month, _days_in_month.
  destruct (_is_leap y); each_month m H; vm_compute; discriminate.
Qed.

Lemma _days_before_month_nonneg y m :
  1 <= m <= 12 -> 0 <= _days_before_month y m.
Proof.
  intros H. unfold _days_before_month.
  destruct (_is_leap y); each_month m H; vm_compute; discriminate.
Qed.

Lemma _days_before_year_next y :
  _days_before_year (y + 1)
  = _days_before_year y + 365 + (if _is_leap y then 1 else 0).
Proof.
  unfold _days_before_year, _is_leap. replace (y + 1 - 1) with y by lia.
  case_bool_decide as Hl; Z.div_mod_to_equations; lia.
Qed.

Lemma _days_before_year_mono y1 y2 :
  y1 <= y2 -> _days_before_year y1 <= _days_before_year y2.
Proof.
  intros H. unfold _days_before_year. Z.div_mod_to_equations. lia.
Qed.

(** The ordinal orders dates by year, then month, then day. *)
Lemma toordinal_compare a b :
  valid_date a -> valid_date b ->
  Z.compare (toordinal a) (toordinal b)
  = lex (Z.compare (year a) (year b))
      (lex (Z.compare (month a) (month b)) (Z.compare (day a) (day b))).
Proof.
  destruct a as [y1 m1 d1], b as [y2 m2 d2]. unfold valid_date, toordinal.
  simpl. intros (Hy1 & Hm1 & Hd1) (Hy2 & Hm2 & Hd2).
  pose proof (_days_before_month_nonneg y1 m1 Hm1).
  pose proof (_days_before_month_nonneg y2 m2 Hm2).
  pose proof (_days_before_month_last y1 m1 Hm1).
  pose proof (_days_before_month_last y2 m2 Hm2).
  unfold lex.
  destruct (Z.compare_spec y1 y2) as [->|Hy|Hy].
  - destruct (Z.compare_spec m1 m2) as [->|Hm|Hm].
    + apply Z.add_compare_mono_l.
    + apply Z.compare_lt_iff.
      pose proof (_days_before_month_next y2 m1 m2 ltac:(lia) Hm ltac:(lia)).
      lia.
    + apply Z.compare_gt_iff.
      pose proof (_days_before_month_next y2 m2 m1 ltac:(lia) Hm ltac:(lia)).
      lia.
  - apply Z.compare_lt_iff.
    pose proof (_days_before_year_next y1).
    pose proof (_days_before_year_mono (y1 + 1) y2 ltac:(lia)). lia.
  - apply Z.compare_gt_iff.
    pose proof (_days_before_year_next y2).
    pose proof (_days_before_year_mono (y2 + 1) y1 ltac:(lia)). lia.
Qed.

Lemma append_empty_r (s : string) : s +:+ "" = s.
Proof.
  induction s as [|c s IH]; [reflexivity|].
  change (String c (s +:+ "") = String c s). by rewrite IH.
Qed.

(** The ISO texts of two dates compare as their ordinals. *)
Lemma isoformat_compare a b :
  valid_date a -> valid_date b ->
  String.compare (isoformat a) (isoformat b)
  = Z.compare (toordinal a) (toordinal b).
Proof.
  intros Ha Hb. rewrite toordinal_compare by assumption.
  destruct Ha as (Hy1 & Hm1 & Hd1), Hb as (Hy2 & Hm2 & Hd2).
  pose proof (_days_in_month_bounds (year a) (month a) Hm1).
  pose proof (_days_in_month_bounds (year b) (month b) Hm2).
  unfold isoformat.
  rewrite zero_padded_compare by (simpl; lia). f_equal.
  change (String.compare ("-" +:+ ?s) ("-" +:+ ?t))
    with (String.compare s t).
  rewrite zero_padded_compare by (simpl; lia). f_equal.
  change (String.compare ("-" +:+ ?s) ("-" +:+ ?t))
    with (String.compare s t).
  rewrite <- (append_empty_r (zero_padded 2 (day a))).
  rewrite <- (append_empty_r (zero_padded 2 (day b))).
  rewrite zero_padded_compare by (simpl; lia).
  unfold lex. destruct (day a ?= day b); reflexivity.
Qed.

(** SQLite compares the stored texts byte by byte: that is the comparison
    of the ordinals, which the engine's dates are. *)
Lemma isoformat_lt a b :
  valid_date a -> valid_date b ->
  String.compare (isoformat a) (isoformat b) = Lt <-> toordinal a < toordinal b.
Proof.
  intros Ha Hb. rewrite isoformat_compare by assumption.
  apply Z.compare_lt_iff.
Qed.

Lemma isoformat_gt a b :
  valid_date a -> valid_date b ->
  String.compare (isoformat a) (isoformat b) = Gt <-> toordinal a > toordinal b.
Proof.
  intros Ha Hb. rewrite isoformat_compare by assumption.
  rewrite Z.compare_gt_iff. lia.
Qed.

(** ** The SQL statements *)

Section SqlFacts.
Context {R : Type} (P : R -> Prop) `{Pdec : !forall r, Decision (P r)}.

Lemma select_count_zero (t : list R) :
  select_count P t = 0 <-> forall r, r ∈ t -> ~ P r.
Proof.
  unfold select_count. split.
  - intros H r Hr HP.
    assert (Hin : r ∈ filter P t) by (apply list_elem_of_filter; auto).
    destruct (filter P t); [by apply elem_of_nil in Hin | simpl in H; lia].
  - intros H. destruct (filter P t) as [|x l] eqn:E; [reflexivity|].
    assert (Hin : x ∈ filter P t) by (rewrite E; apply elem_of_cons; auto).
    apply list_elem_of_filter in Hin as [HP Hx]. destruct (H x Hx HP).
Qed.

Lemma select_one_Some (t : list R) (r : R) :
  select_one P t = Some r -> r ∈ t /\ P r.
Proof.
  unfold select_one. intros H. apply head_Some_elem_of in H.
  apply list_elem_of_filter in H. tauto.
Qed.

Lemma select_one_None (t : list R) :
  select_one P t = None <-> forall r, r ∈ t -> ~ P r.
Proof.
  unfold select_one. rewrite head_None. split.
  - intros H r Hr HP. eapply filter_nil_not_elem_of; eauto.
  - intros H. destruct (filter P t) as [|x l] eqn:E; [reflexivity|].
    assert (Hin : x ∈ filter P t) by (rewrite E; apply elem_of_cons; auto).
    apply list_elem_of_filter in Hin as [HP Hx]. destruct (H x Hx HP).
Qed.

Lemma elem_of_update_where (set : R -> R) (t : list R) (r' : R) :
  r' ∈ update_where P set t <->
  exists r, r ∈ t /\ r' = if decide (P r) then set r else r.
Proof.
  unfold update_where. rewrite list_elem_of_fmap. split.
  - intros (r & -> & Hr). eauto.
  - intros (r & Hr & ->). eauto.
Qed.

Lemma update_where_key {K} (key : R -> K) (set : R -> R) (t : list R) :
  (forall r, key (set r) = key r) ->
  key <$> update_where P set t = key <$> t.
Proof.
  intros Hk. unfold update_where. rewrite <- list_fmap_compose.
  apply list_fmap_ext. intros i r _. simpl. destruct (decide (P r)); auto.
Qed.

End SqlFacts.

(** A primary key names one row. *)
Lemma pk_row {R K} (key : R -> K) (t : list R) (a b : R) :
  NoDup (key <$> t) -> a ∈ t -> b ∈ t -> key a = key b -> a = b.
Proof.
  induction t as [|x t IH]; intros Hnd Ha Hb Hk.
  - by apply elem_of_nil in Ha.
  - rewrite fmap_cons in Hnd. apply NoDup_cons in Hnd as [Hx Hnd].
    apply elem_of_cons in Ha as [->|Ha]; apply elem_of_cons in Hb as [->|Hb];
      auto.
    + destruct Hx. rewrite Hk. by apply list_elem_of_fmap_2.
    + destruct Hx. rewrite <- Hk. by apply list_elem_of_fmap_2.
Qed.

(** ** Availability *)

Lemma overlap_count_zero rn s e x db :
  overlap_count rn s e x db = 0 <->
  forall b, b ∈ bookings db -> blocks rn s e b ->
            truthy x = true /\ Some (Bookings.booking_id b) = x.
Proof.
  unfold overlap_count. destruct (truthy x) eqn:Hx;
    rewrite select_count_zero; split; intros H b Hb.
  - intros Hbl. split; [reflexivity|]. specialize (H b Hb).
    destruct (decide (Some (Bookings.booking_id b) = x)); tauto.
  - intros [Hbl Hne]. destruct (H b Hb Hbl); auto.
  - intros Hbl. destruct (H b Hb Hbl).
  - intros Hbl. destruct (H b Hb Hbl); discriminate.
Qed.

Lemma is_room_available_eq rn s e x db :
  is_room_available rn s e x db
  = (Returned (bool_decide (overlap_count rn s e x db = 0)), db).
Proof. reflexivity. Qed.

Lemma is_room_available_true rn s e x db :
  is_room_available rn s e x db = (Returned true, db) <->
  forall b, b ∈ bookings db -> blocks rn s e b ->
            truthy x = true /\ Some (Bookings.booking_id b) = x.
Proof.
  rewrite is_room_available_eq, <- overlap_count_zero. split.
  - intros H. injection H as H. by apply bool_decide_eq_true in H.
  - intros H. do 2 f_equal. by apply bool_decide_eq_true.
Qed.

Lemma is_room_available_bool rn s e x db :
  exists v, is_room_available rn s e x db = (Returned v, db).
Proof. rewrite is_room_available_eq. eauto. Qed.

(** C2. [is_room_available room s e exclude] returns false exactly when
    some booking of the room is Confirmed or CheckedIn, is not the excluded
    one, checks out after [s] and checks in before [e].  So when every
    booking of the room ends on [s], starts on [e], or is Cancelled or
    CheckedOut, the room is available.  The source tests the truth value
    of the excluded identifier: the statement is for databases in which no
    booking has the empty identifier, as the engine builds them, or for an
    excluded identifier that is not the empty string. *)
Theorem is_room_available_iff (db : DB) (room : string) (s e : date)
    (exclude : option string) :
  ids_nonempty db \/ exclude <> Some "" ->
  (result (is_room_available room s e exclude) db = Returned false <->
   exists B, B ∈ bookings db
     /\ Bookings.room_number B = room
     /\ Bookings.status B ∈ ["Confirmed"; "CheckedIn"]
     /\ Some (Bookings.booking_id B) <> exclude
     /\ Bookings.check_out_date B > s
     /\ Bookings.check_in_date B < e)
  /\ ((forall B, B ∈ bookings db -> Bookings.room_number B = room ->
         Bookings.check_out_date B = s \/ Bookings.check_in_date B = e
         \/ Bookings.status B = "Cancelled"
         \/ Bookings.status B = "CheckedOut") ->
      result (is_room_available room s e exclude) db = Returned true).
Proof.
  intros Hids.
  assert (Hex : forall b, b ∈ bookings db ->
            truthy exclude = true /\ Some (Bookings.booking_id b) = exclude
            <-> Some (Bookings.booking_id b) = exclude).
  { intros b Hb. split; [tauto|]. intros Heq. split; [|exact Heq].
    rewrite <- Heq. simpl. apply bool_decide_eq_true.
    destruct Hids as [Hids|Hx].
    - unfold ids_nonempty in Hids. rewrite Forall_forall in Hids. auto.
    - intros Hempty. apply Hx. by rewrite <- Heq, Hempty. }
  split; [split|].
  - intros Hf.
    destruct (is_room_available_bool room s e exclude db) as [v Hv].
    unfold result in Hf. rewrite Hv in Hf. injection Hf as ->.
    destruct (decide (Exists (fun B => blocks room s e B
               /\ Some (Bookings.booking_id B) <> exclude) (bookings db)))
      as [Hyes|Hno].
    + apply Exists_exists in Hyes as (B & HB & (? & ? & ? & ?) & ?).
      exists B. tauto.
    + assert (Ht : is_room_available room s e exclude db
                   = (Returned true, db)).
      { apply is_room_available_true. intros b Hb Hbl. apply Hex; [done|].
        destruct (decide (Some (Bookings.booking_id b) = exclude)); [done|].
        destruct Hno. apply Exists_exists. eauto. }
      congruence.
  - intros (B & HB & Hr & Hs & Hx & Ho & Hi).
    destruct (is_room_available_bool room s e exclude db) as [[] Hv];
      unfold result; rewrite Hv; [|reflexivity].
    pose proof (proj1 (is_room_available_true _ _ _ _ _) Hv) as Ht.
    destruct (Ht B HB) as [_ Heq]; [by repeat split|]. by destruct Hx.
  - intros Hall.
    assert (Ht : is_room_available room s e exclude db = (Returned true, db)).
    { apply is_room_available_true. intros b Hb (Hr & Hs & Ho & Hi).
      destruct (Hall b Hb Hr) as [H|[H|[H|H]]]; try lia;
        rewrite H in Hs; exfalso; revert Hs; clear;
        rewrite !elem_of_cons, elem_of_nil; intros [|[|[]]]; discriminate. }
    unfold result. by rewrite Ht.
Qed.

Lemma is_room_available_iff_witness :
  result (is_room_available "101" 11 13 None) db_history = Returned false
  /\ result (is_room_available "101" 12 16 None) db_history = Returned true.
Proof.
  assert (Hok : ids_nonempty db_history \/ @None string <> Some "")
    by (left; apply (bool_decide_unpack _); vm_compute; exact I).
  split.
  - apply (is_room_available_iff db_history "101" 11 13 None Hok).
    exists (Bookings.mk "B50001" "C1000" "101" 10 12 "Confirmed" 100%float).
    repeat split; try lia; try discriminate; simpl;
      rewrite ?elem_of_cons; auto.
  - apply (is_room_available_iff db_history "101" 12 16 None Hok).
    intros B HB _. simpl in HB. rewrite !elem_of_cons, elem_of_nil in HB.
    destruct HB as [->|[->|[->|[]]]]; simpl; auto.
Defined.

(** Outside that statement: a booking stored under the empty identifier is
    not excluded by passing the empty identifier. *)
Lemma empty_id_excludes_nothing :
  result (is_room_available "101" 10 12 (Some ""))
    (mkDB [] [Bookings.mk "" "C1000" "101" 10 12 "Confirmed" 0%float])
  = Returned false.
Proof. vm_compute. reflexivity. Qed.

(** ** What each method computes *)

Lemma select_one_update_where {R K} `{EqDecision K} (key : R -> K) (k : K)
    (Q : R -> Prop) `{!forall r, Decision (Q r)} (set : R -> R) (t : list R) :
  (forall r, key (set r) = key r) ->
  select_one (fun r => key r = k) (update_where Q set t)
  = (fun r => if decide (Q r) then set r else r)
      <$> select_one (fun r => key r = k) t.
Proof.
  intros Hk. unfold select_one, update_where.
  induction t as [|x t IH]; [reflexivity|].
  rewrite fmap_cons, !filter_cons.
  assert (Hx : key (if decide (Q x) then set x else x) = key x)
    by (destruct (decide (Q x)); auto).
  rewrite Hx. destruct (decide (key x = k)); [reflexivity | exact IH].
Qed.

Lemma room_price_with_room_status rn rn' s t :
  room_price rn (with_room_status rn' s t) = room_price rn t.
Proof.
  unfold room_price, with_room_status.
  rewrite (select_one_update_where Rooms.room_number) by reflexivity.
  destruct (select_one _ t) as [r|]; [simpl|reflexivity].
  destruct (decide (Rooms.room_number r = rn')); reflexivity.
Qed.

Lemma room_price_moved_rooms rn b new_rn new_status t :
  room_price rn (moved_rooms b new_rn new_status t) = room_price rn t.
Proof.
  unfold moved_rooms.
  destruct (decide (new_status = "CheckedIn")),
           (decide (Bookings.status b = "CheckedIn"));
    rewrite ?room_price_with_room_status; reflexivity.
Qed.

Lemma get_room_price_eq rn db :
  get_room_price rn db = (Returned (room_price rn (rooms db)), db).
Proof. reflexivity. Qed.

Lemma check_in_eq id db :
  check_in id db =
  match select_one (fun b => Bookings.booking_id b = id) (bookings db) with
  | Some b =>
    if decide (Bookings.status b = "Confirmed") then
      (Returned true,
       mkDB (with_room_status (Bookings.room_number b) "Occupied" (rooms db))
            (with_booking_status id "CheckedIn" (bookings db)))
    else (Returned false, db)
  | None => (Returned false, db)
  end.
Proof.
  unfold check_in, get_booking_by_id, bind, query.
  destruct (select_one _ _) as [b|]; [|reflexivity].
  destruct (decide _); reflexivity.
Qed.

Lemma check_out_eq id db :
  check_out id db =
  match select_one (fun b => Bookings.booking_id b = id) (bookings db) with
  | Some b =>
    if decide (Bookings.status b = "CheckedIn") then
      (Returned true,
       mkDB (with_room_status (Bookings.room_number b) "Available" (rooms db))
            (with_booking_status id "CheckedOut" (bookings db)))
    else (Returned false, db)
  | None => (Returned false, db)
  end.
Proof.
  unfold check_out, get_booking_by_id, bind, query.
  destruct (select_one _ _) as [b|]; [|reflexivity].
  destruct (decide _); reflexivity.
Qed.

Lemma cancel_booking_eq id db :
  cancel_booking id db =
  match select_one (fun b => Bookings.booking_id b = id) (bookings db) with
  | Some b =>
    if decide (Bookings.status b = "Confirmed") then
      (Returned true,
       mkDB (rooms db) (with_booking_status id "Cancelled" (bookings db)))
    else (Returned false, db)
  | None => (Returned false, db)
  end.
Proof.
  unfold cancel_booking, get_booking_by_id, bind, query.
  destruct (select_one _ _) as [b|]; [|reflexivity].
  destruct (decide _); reflexivity.
Qed.

Lemma add_booking_eq draw c rn i o s db :
  add_booking draw c rn i o s db =
  if decide (i >= o) then
    (Returned (false, "Check-out date must be after check-in date."), db)
  else
    match select_one (fun r => Rooms.room_number r = rn) (rooms db) with
    | None => (Returned (false, "Room not found."), db)
    | Some r =>
      if bool_decide (overlap_count rn i o None db = 0) then
        if decide ("B" +:+ pretty draw ∈ Bookings.booking_id <$> bookings db)
        then (Raised IntegrityError, db)
        else
          (Returned (true, "Booking " +:+ ("B" +:+ pretty draw)
                           +:+ " confirmed."),
           mkDB (rooms db)
                (bookings db
                 ++ [Bookings.mk ("B" +:+ pretty draw) c rn i o s
                       (Rooms.price r)]))
      else
        (Returned (false, "Room " +:+ rn
            +:+ " is already booked or occupied during this period."), db)
    end.
Proof.
  unfold add_booking. destruct (decide (i >= o)); [reflexivity|].
  unfold bind at 1. unfold get_room_by_number, query.
  destruct (select_one _ (rooms db)) as [r|] eqn:Hr; [|reflexivity].
  unfold bind at 1. rewrite is_room_available_eq.
  destruct (bool_decide _); [|reflexivity]. cbn [negb]. cbv beta iota.
  change (_generate_id "B" draw) with (Some ("B" +:+ pretty draw)).
  unfold bind at 1. rewrite get_room_price_eq.
  unfold room_price. rewrite Hr.
  unfold bind, insert_booking. simpl Bookings.booking_id.
  destruct (decide _); reflexivity.
Qed.

Lemma update_booking_eq id rn i o s db :
  update_booking id rn i o s db =
  match select_one (fun b => Bookings.booking_id b = id) (bookings db) with
  | None => (Returned (false, "Booking not found."), db)
  | Some b =>
    if decide (i >= o) then
      (Returned (false, "Check-out date must be after check-in date."), db)
    else if bool_decide (overlap_count rn i o (Some id) db = 0) then
      (Returned (true, "Booking " +:+ id +:+ " successfully updated."),
       mkDB (moved_rooms b rn s (rooms db))
            (update_where (fun r => Bookings.booking_id r = id)
               (set_booking rn i o s (room_price rn (rooms db)))
               (bookings db)))
    else
      (Returned (false, "Room " +:+ rn
          +:+ " is not available for the new dates/room."), db)
  end.
Proof.
  unfold update_booking. unfold bind at 1. unfold get_booking_by_id, query.
  destruct (select_one _ (bookings db)) as [b|]; [|reflexivity].
  destruct (decide (i >= o)); [reflexivity|].
  unfold bind at 1. rewrite is_room_available_eq.
  destruct (bool_decide _); [|reflexivity]. cbn [negb]. cbv beta iota.
  rewrite <- (room_price_moved_rooms rn b rn s (rooms db)).
  unfold moved_rooms, bind, update_room_status, execute, ret,
    get_room_price, get_room_by_number, query, room_price, with_room_status.
  destruct (decide (Bookings.status b = "CheckedIn")),
           (decide (s = "CheckedIn")); reflexivity.
Qed.

(** Splits the goal along the tests a method makes, once its equation has
    been rewritten into the hypothesis [H]. *)
Ltac method_cases H :=
  repeat match type of H with
  | context [match select_one ?P ?t with _ => _ end] =>
      let E := fresh "Hsel" in destruct (select_one P t) eqn:E
  | context [decide ?P] => destruct (decide P)
  | context [bool_decide ?P] =>
      let E := fresh "Hav" in destruct (bool_decide P) eqn:E
  end.

Lemma run_eq o db :
  run o db =
  match o with
  | AddBooking draw c rn i o s =>
    match add_booking draw c rn i o s db with
    | (Returned r, db') => (Returned (fst r), db')
    | (Raised e, db') => (Raised e, db')
    end
  | UpdateBooking id rn i o s =>
    match update_booking id rn i o s db with
    | (Returned r, db') => (Returned (fst r), db')
    | (Raised e, db') => (Raised e, db')
    end
  | CheckIn id => check_in id db
  | CheckOut id => check_out id db
  | CancelBooking id => cancel_booking id db
  end.
Proof. destruct o; reflexivity. Qed.

(** ** Scenarios *)

(** A stay of nights 10 and 11 is booked at the room's rate; a stay that
    shares night 11 is refused; the stay that starts on day 12 is booked. *)
Lemma scenario_adjacent_stays :
  let db1 := final (add_booking 50001 "C1000" "101" 10 12 default_status)
               db_empty in
  result (add_booking 50001 "C1000" "101" 10 12 default_status) db_empty
    = Returned (true, "Booking B50001 confirmed.")
  /\ bookings db1
     = [Bookings.mk "B50001" "C1000" "101" 10 12 "Confirmed" 100%float]
  /\ add_booking 50002 "C1001" "101" 11 13 default_status db1
     = (Returned
          (false,
           "Room 101 is already booked or occupied during this period."),
        db1)
  /\ result (add_booking 50002 "C1001" "101" 12 14 default_status) db1
     = Returned (true, "Booking B50002 confirmed.")
  /\ result (is_room_available "101" 10 12 None) db1 = Returned false
  /\ result (is_room_available "101" 10 12 (Some "B50001")) db1
     = Returned true.
Proof. vm_compute. repeat split; reflexivity. Qed.

(** Check-in occupies the room; check-out frees it and the nights. *)
Lemma scenario_check_in_check_out :
  let db1 := final (check_in "B50001") db_one in
  let db2 := final (check_out "B50001") db1 in
  result (check_in "B50001") db_one = Returned true
  /\ room_price "101" (rooms db1) = 100%float
  /\ Rooms.status <$> rooms db1 = ["Occupied"; "Available"]
  /\ result (check_out "B50001") db1 = Returned true
  /\ Rooms.status <$> rooms db2 = ["Available"; "Available"]
  /\ Bookings.status <$> bookings db2 = ["CheckedOut"]
  /\ result (is_room_available "101" 10 12 None) db2 = Returned true.
Proof. vm_compute. repeat split; reflexivity. Qed.

(** A CheckedIn booking moved from room 101 to room 102 leaves room 102
    Occupied and room 101 Available, at the rate of room 102. *)
Lemma scenario_move_checked_in :
  let db1 := final (check_in "B50001") db_one in
  let db2 := final (update_booking "B50001" "102" 10 12 "CheckedIn") db1 in
  result (update_booking "B50001" "102" 10 12 "CheckedIn") db1
    = Returned (true, "Booking B50001 successfully updated.")
  /\ Rooms.status <$> rooms db2 = ["Available"; "Occupied"]
  /\ bookings db2
     = [Bookings.mk "B50001" "C1000" "102" 10 12 "CheckedIn" 150%float].
Proof. vm_compute. repeat split; reflexivity. Qed.

(** A drawn identifier that is already stored makes [INSERT] raise. *)
Lemma scenario_identifier_clash :
  add_booking 50001 "C1001" "102" 10 12 default_status db_one
  = (Raised IntegrityError, db_one).
Proof. vm_compute. reflexivity. Qed.

(** A report over days 0 to 20: two rooms and one finished stay of two
    nights at rate 100. *)
Lemma scenario_report :
  result (get_reports 0 20) db_checked_out
  = Returned
      (mkReport (mkTally 200%float 2 1 0) 40
         (PrimFloat.mul (PrimFloat.div 2%float 40%float) 100%float)).
Proof. vm_compute. reflexivity. Qed.

(** ** Failure changes nothing *)

Lemma fails_unchanged o db db' : fails o db db' -> db' = db.
Proof.
  unfold fails. rewrite run_eq. destruct o.
  - rewrite add_booking_eq. intros H. method_cases H; simpl in H; congruence.
  - rewrite update_booking_eq. intros H.
    method_cases H; simpl in H; congruence.
  - rewrite check_in_eq. intros H. method_cases H; congruence.
  - rewrite check_out_eq. intros H. method_cases H; congruence.
  - rewrite cancel_booking_eq. intros H. method_cases H; congruence.
Qed.

Lemma raised_unchanged o e db db' : run o db = (Raised e, db') -> db' = db.
Proof.
  rewrite run_eq. destruct o.
  - rewrite add_booking_eq. intros H. method_cases H; simpl in H; congruence.
  - rewrite update_booking_eq. intros H.
    method_cases H; simpl in H; congruence.
  - rewrite check_in_eq. intros H. method_cases H; congruence.
  - rewrite check_out_eq. intros H. method_cases H; congruence.
  - rewrite cancel_booking_eq. intros H. method_cases H; congruence.
Qed.

(** ** The engine keeps the database well formed *)

Lemma generated_id_nonempty (draw : Z) : "B" +:+ pretty draw <> "".
Proof. discriminate. Qed.

Lemma store_ok_rooms r t b :
  Rooms.room_number <$> t = Rooms.room_number <$> r ->
  store_ok (mkDB r b) -> store_ok (mkDB t b).
Proof.
  unfold store_ok, bookings_pk, ids_nonempty in *. simpl. intros ->. tauto.
Qed.

Lemma with_room_status_numbers rn s t :
  Rooms.room_number <$> with_room_status rn s t = Rooms.room_number <$> t.
Proof. apply update_where_key. reflexivity. Qed.

Lemma moved_rooms_numbers b rn s t :
  Rooms.room_number <$> moved_rooms b rn s t = Rooms.room_number <$> t.
Proof.
  unfold moved_rooms.
  destruct (decide (s = "CheckedIn")),
           (decide (Bookings.status b = "CheckedIn"));
    rewrite ?with_room_status_numbers; reflexivity.
Qed.

Lemma bookings_pk_run o db :
  bookings_pk db -> bookings_pk (final (run o) db).
Proof.
  intros Hpk. unfold final.
  destruct (run o db) as [[[]|e] db'] eqn:Hrun; simpl.
  - revert Hrun. rewrite run_eq. unfold bookings_pk, with_booking_status in *.
    destruct o.
    + rewrite add_booking_eq. intros H.
      method_cases H; simpl in H; try congruence.
      injection H as <-. simpl. rewrite fmap_app. simpl.
      apply NoDup_app. repeat split; auto.
      * intros x Hx Hx'. apply list_elem_of_singleton in Hx'. congruence.
      * apply NoDup_singleton.
    + rewrite update_booking_eq. intros H.
      method_cases H; simpl in H; try congruence.
      injection H as <-. simpl. unfold with_booking_status.
      by rewrite update_where_key.
    + rewrite check_in_eq. intros H. method_cases H; try congruence.
      injection H as <-. simpl. unfold with_booking_status.
      by rewrite update_where_key.
    + rewrite check_out_eq. intros H. method_cases H; try congruence.
      injection H as <-. simpl. unfold with_booking_status.
      by rewrite update_where_key.
    + rewrite cancel_booking_eq. intros H. method_cases H; try congruence.
      injection H as <-. simpl. unfold with_booking_status.
      by rewrite update_where_key.
  - by rewrite (fails_unchanged o db db' Hrun).
  - by rewrite (raised_unchanged o e db db' Hrun).
Qed.

Lemma store_ok_update_bookings db (Q : Bookings.row -> Prop)
    `{!forall r, Decision (Q r)} (set : Bookings.row -> Bookings.row) :
  (forall b, Bookings.booking_id (set b) = Bookings.booking_id b) ->
  (forall b, b ∈ bookings db ->
     Bookings.check_in_date (set b) < Bookings.check_out_date (set b)) ->
  store_ok db -> store_ok (mkDB (rooms db) (update_where Q set (bookings db))).
Proof.
  intros Hid Hd (Hr & Hpk & Hne & Hdt). unfold ids_nonempty in Hne.
  unfold store_ok, bookings_pk, ids_nonempty in *. simpl.
  rewrite Forall_forall in Hne, Hdt.
  rewrite (update_where_key _ Bookings.booking_id) by exact Hid.
  repeat split; auto; apply Forall_forall; intros b' Hb';
    apply elem_of_update_where in Hb' as (b & Hb & ->);
    destruct (decide (Q b)); auto. rewrite Hid. auto.
Qed.

Lemma store_ok_with_booking_status id s db :
  store_ok db ->
  store_ok (mkDB (rooms db) (with_booking_status id s (bookings db))).
Proof.
  intros H. apply store_ok_update_bookings; auto.
  intros b Hb. simpl. destruct H as (_ & _ & _ & Hdt).
  rewrite Forall_forall in Hdt. auto.
Qed.

Lemma store_ok_run o db : store_ok db -> store_ok (final (run o) db).
Proof.
  intros Hok. unfold final.
  destruct (run o db) as [[[]|e] db'] eqn:Hrun.
  - simpl. revert Hrun. rewrite run_eq. destruct o.
    + rewrite add_booking_eq. intros H.
      method_cases H; simpl in H; try congruence.
      injection H as <-. destruct Hok as (Hr & Hpk & Hne & Hdt).
      unfold store_ok, bookings_pk, ids_nonempty in *. simpl.
      rewrite fmap_app, !Forall_app. simpl.
      repeat split; auto.
      * apply NoDup_app. repeat split; auto.
        -- intros x Hx Hx'. apply list_elem_of_singleton in Hx'. congruence.
        -- apply NoDup_singleton.
      * repeat constructor. simpl. lia.
    + rewrite update_booking_eq. intros H.
      method_cases H; simpl in H; try congruence.
      injection H as <-.
      eapply store_ok_rooms; [apply moved_rooms_numbers|].
      apply store_ok_update_bookings; auto. intros; simpl; lia.
    + rewrite check_in_eq. intros H. method_cases H; try congruence.
      injection H as <-.
      eapply store_ok_rooms; [apply with_room_status_numbers|].
      by apply store_ok_with_booking_status.
    + rewrite check_out_eq. intros H. method_cases H; try congruence.
      injection H as <-.
      eapply store_ok_rooms; [apply with_room_status_numbers|].
      by apply store_ok_with_booking_status.
    + rewrite cancel_booking_eq. intros H. method_cases H; try congruence.
      injection H as <-. by apply store_ok_with_booking_status.
  - simpl. by rewrite (fails_unchanged o db db' Hrun).
  - simpl. by rewrite (raised_unchanged o e db db' Hrun).
Qed.

Lemma store_ok_no_bookings t :
  NoDup (Rooms.room_number <$> t) -> store_ok (mkDB t []).
Proof.
  intros H. unfold store_ok, bookings_pk, ids_nonempty. simpl.
  repeat split; auto using NoDup_nil_2.
Qed.

Lemma update_room_details_eq rn ty p st db :
  update_room_details rn ty p st db =
  match real_column p with
  | Some q =>
    (Returned true,
     mkDB (update_where (fun r => Rooms.room_number r = rn)
             (set_room_details ty q st) (rooms db))
          (bookings db))
  | None =>
    if decide (select_count (fun r => Rooms.room_number r = rn) (rooms db)
               = 0)
    then (Returned true, db)
    else (Raised IntegrityError, db)
  end.
Proof.
  unfold update_room_details. destruct (real_column p); [reflexivity|].
  unfold bind, query. by destruct (decide _).
Qed.

Lemma update_room_details_bookings rn ty p st db :
  bookings (final (update_room_details rn ty p st) db) = bookings db.
Proof.
  unfold final. rewrite update_room_details_eq.
  destruct (real_column p); [reflexivity|]. by destruct (decide _).
Qed.

Lemma store_ok_update_room_details rn ty p s db :
  store_ok db -> store_ok (final (update_room_details rn ty p s) db).
Proof.
  intros H. unfold final. rewrite update_room_details_eq.
  destruct (real_column p) as [q|]; [|by destruct (decide _)].
  destruct db as [r b]. eapply store_ok_rooms; [|exact H].
  apply update_where_key. reflexivity.
Qed.

Lemma store_ok_insert_room r db :
  store_ok db -> store_ok (final (insert_room r) db).
Proof.
  intros Hok. unfold final, insert_room.
  destruct (real_column (Rooms.price r)) as [q|]; [|exact Hok].
  destruct (decide _) as [Hin|Hnew]; [exact Hok|].
  destruct Hok as (Hr & Hrest). split; [|exact Hrest]. simpl.
  rewrite fmap_app. apply NoDup_app. repeat split; auto.
  - intros x Hx Hx'. simpl in Hx'. apply list_elem_of_singleton in Hx'.
    congruence.
  - apply NoDup_singleton.
Qed.

(** Every database the manager builds is well formed. *)
Lemma built_store_ok db : built db -> store_ok db.
Proof.
  induction 1.
  - apply store_ok_no_bookings, NoDup_nil_2.
  - by apply store_ok_insert_room.
  - by apply store_ok_update_room_details.
  - by apply store_ok_run.
Qed.

Lemma store_ok_reaches db os db' :
  reaches db os db' -> store_ok db -> store_ok db'.
Proof.
  induction 1 as [|db o db1 os db2 Hstep _ IH]; [auto|].
  intros Hok. apply IH. pose proof (store_ok_run o db Hok) as H.
  unfold final in H. unfold succeeds in Hstep. by rewrite Hstep in H.
Qed.

(** ** No room is double booked *)

Lemma active_iff b :
  active b <->
  Bookings.status b = "Confirmed" \/ Bookings.status b = "CheckedIn".
Proof.
  unfold active. rewrite !elem_of_cons, elem_of_nil. tauto.
Qed.

Lemma blocks_iff rn s e b :
  blocks rn s e b <->
  Bookings.room_number b = rn /\ active b
  /\ Bookings.check_out_date b > s /\ Bookings.check_in_date b < e.
Proof. reflexivity. Qed.

(** A status write that activates no booking keeps rooms single booked. *)
Lemma no_double_booking_status id s db r :
  (forall b, b ∈ bookings db -> Bookings.booking_id b = id ->
             active (set_booking_status s b) -> active b) ->
  no_double_booking db ->
  no_double_booking (mkDB r (with_booking_status id s (bookings db))).
Proof.
  intros Hact Hinv a' b' Ha' Hb'. simpl in Ha', Hb'.
  apply elem_of_update_where in Ha' as (a & Ha & ->).
  apply elem_of_update_where in Hb' as (b & Hb & ->).
  intros Hne Hroom Haa Hab Hov.
  apply (Hinv a b Ha Hb).
  - destruct (decide (Bookings.booking_id a = id)),
             (decide (Bookings.booking_id b = id)); simpl in Hne; congruence.
  - destruct (decide (Bookings.booking_id a = id)),
             (decide (Bookings.booking_id b = id)); simpl in Hroom; congruence.
  - destruct (decide (Bookings.booking_id a = id)); auto.
  - destruct (decide (Bookings.booking_id b = id)); auto.
  - destruct (decide (Bookings.booking_id a = id)),
             (decide (Bookings.booking_id b = id)); exact Hov.
Qed.

(** For stays that end after they start, sharing a night is the test of
    the availability query. *)
Lemma overlap_iff a b :
  Bookings.check_in_date a < Bookings.check_out_date a ->
  Bookings.check_in_date b < Bookings.check_out_date b ->
  overlap a b <->
  Bookings.check_out_date a > Bookings.check_in_date b
  /\ Bookings.check_in_date a < Bookings.check_out_date b.
Proof.
  intros Ha Hb. unfold overlap. split.
  - intros (n & Hn1 & Hn2). lia.
  - intros [H1 H2].
    exists (Z.max (Bookings.check_in_date a) (Bookings.check_in_date b)). lia.
Qed.

Lemma selected_row id db b b' :
  bookings_pk db ->
  select_one (fun r => Bookings.booking_id r = id) (bookings db) = Some b ->
  b' ∈ bookings db -> Bookings.booking_id b' = id -> b' = b.
Proof.
  intros Hpk Hsel Hb' Hid.
  apply select_one_Some in Hsel as [Hb Hidb].
  apply (pk_row Bookings.booking_id (bookings db)); auto. congruence.
Qed.

Lemma no_double_booking_add db rn i o new :
  overlap_count rn i o None db = 0 ->
  Bookings.room_number new = rn ->
  Bookings.check_in_date new = i ->
  Bookings.check_out_date new = o ->
  no_double_booking db ->
  no_double_booking (mkDB (rooms db) (bookings db ++ [new])).
Proof.
  intros Hav Hrn Hi Ho Hinv a b Ha Hb Hne Hroom Haa Hab (n & Hov1 & Hov2).
  simpl in Ha, Hb.
  assert (Hfree : forall x, x ∈ bookings db -> ~ blocks rn i o x).
  { intros x Hx Hbl.
    destruct (proj1 (overlap_count_zero rn i o None db) Hav x Hx Hbl).
    discriminate. }
  apply elem_of_app in Ha as [Ha|Ha]; apply elem_of_app in Hb as [Hb|Hb];
    rewrite ?list_elem_of_singleton in *; subst.
  - apply (Hinv a b); auto. by exists n.
  - apply (Hfree a Ha). apply blocks_iff. repeat split; auto; lia.
  - apply (Hfree b Hb). apply blocks_iff. repeat split; auto; lia.
  - congruence.
Qed.

Lemma no_double_booking_update db id rn i o s p r :
  overlap_count rn i o (Some id) db = 0 ->
  no_double_booking db ->
  no_double_booking
    (mkDB r (update_where (fun b => Bookings.booking_id b = id)
               (set_booking rn i o s p) (bookings db))).
Proof.
  intros Hav Hinv a' b' Ha' Hb'. simpl in Ha', Hb'.
  assert (Hfree : forall x, x ∈ bookings db -> blocks rn i o x ->
                            Bookings.booking_id x = id).
  { intros x Hx Hbl.
    destruct (proj1 (overlap_count_zero rn i o (Some id) db) Hav x Hx Hbl).
    congruence. }
  apply elem_of_update_where in Ha' as (a & Ha & ->).
  apply elem_of_update_where in Hb' as (b & Hb & ->).
  destruct (decide (Bookings.booking_id a = id)) as [Hia|Hia],
           (decide (Bookings.booking_id b = id)) as [Hib|Hib];
    simpl; intros Hne Hroom Haa Hab (n & Hov1 & Hov2); simpl in *.
  - congruence.
  - apply Hib, (Hfree b Hb). apply blocks_iff. repeat split; auto; lia.
  - apply Hia, (Hfree a Ha). apply blocks_iff. repeat split; auto; lia.
  - apply (Hinv a b); auto. by exists n.
Qed.

Lemma no_double_booking_step o db db' :
  bookings_pk db -> no_double_booking db -> succeeds o db db' ->
  no_double_booking db'.
Proof.
  intros Hpk Hinv. unfold succeeds. rewrite run_eq. destruct o.
  - rewrite add_booking_eq. intros H.
    method_cases H; simpl in H; try congruence.
    injection H as <-. apply bool_decide_eq_true in Hav.
    by apply (no_double_booking_add db room_number check_in_date
                check_out_date).
  - rewrite update_booking_eq. intros H.
    method_cases H; simpl in H; try congruence.
    injection H as <-. apply bool_decide_eq_true in Hav.
    by apply no_double_booking_update.
  - rewrite check_in_eq. intros H. method_cases H; try congruence.
    injection H as <-. apply no_double_booking_status; [|done].
    intros b Hb Hid _. rewrite (selected_row _ _ _ _ Hpk Hsel Hb Hid).
    apply active_iff. auto.
  - rewrite check_out_eq. intros H. method_cases H; try congruence.
    injection H as <-. apply no_double_booking_status; [|done].
    intros b Hb Hid Hact. apply active_iff in Hact. simpl in Hact.
    destruct Hact; discriminate.
  - rewrite cancel_booking_eq. intros H. method_cases H; try congruence.
    injection H as <-. apply no_double_booking_status; [|done].
    intros b Hb Hid Hact. apply active_iff in Hact. simpl in Hact.
    destruct Hact; discriminate.
Qed.

(** Under the primary key, bookings with different identifiers are the
    rows at different positions of the table. *)
Lemma no_double_booking_rows db :
  bookings_pk db ->
  no_double_booking db <->
  forall (i j : nat) (a b : Bookings.row),
    bookings db !! i = Some a -> bookings db !! j = Some b -> i <> j ->
    Bookings.room_number a = Bookings.room_number b ->
    active a -> active b -> ~ overlap a b.
Proof.
  intros Hpk. unfold no_double_booking. split.
  - intros Hinv i j a b Hi Hj Hne. apply Hinv.
    + by eapply list_elem_of_lookup_2.
    + by eapply list_elem_of_lookup_2.
    + intros Hid. apply Hne.
      apply (NoDup_lookup _ i j (Bookings.booking_id a) Hpk).
      * by rewrite list_lookup_fmap, Hi.
      * by rewrite list_lookup_fmap, Hj, Hid.
  - intros Hrows a b Ha Hb Hne.
    apply list_elem_of_lookup in Ha as [i Hi].
    apply list_elem_of_lookup in Hb as [j Hj].
    apply (Hrows i j a b Hi Hj). intros ->. congruence.
Qed.

(** C1. From a database in which no two active bookings of one room
    overlap, any sequence of successful [add_booking], [update_booking],
    [check_in], [check_out] and [cancel_booking] calls leads to a database
    in which none do.  The bookings table has [booking_id] as its primary
    key. *)
Theorem no_double_booking_preserved (db : DB) (os : list op) (db' : DB) :
  bookings_pk db ->
  no_double_booking db ->
  reaches db os db' ->
  no_double_booking db'.
Proof.
  intros Hpk Hinv Hreach. revert Hpk Hinv.
  induction Hreach as [|db o db1 os db2 Hstep _ IH]; [auto|].
  intros Hpk Hinv. apply IH.
  - pose proof (bookings_pk_run o db Hpk) as H.
    unfold final in H. unfold succeeds in Hstep. by rewrite Hstep in H.
  - by apply (no_double_booking_step o db db1).
Qed.

Lemma run_all_reaches os db db' :
  run_all os db = Some db' -> reaches db os db'.
Proof.
  revert db. induction os as [|o os IH]; simpl; intros db H.
  - injection H as <-. constructor.
  - destruct (run o db) as [[[]|e] db1] eqn:Hrun; try discriminate.
    econstructor; [exact Hrun | by apply IH].
Qed.

Lemma db_one_ok : store_ok db_one.
Proof. apply (bool_decide_unpack _). vm_compute. exact I. Qed.

Lemma db_one_single : no_double_booking db_one.
Proof.
  intros a b Ha Hb Hne. simpl in Ha, Hb.
  apply list_elem_of_singleton in Ha, Hb. congruence.
Qed.

Lemma no_double_booking_preserved_witness : no_double_booking db_after_stays.
Proof.
  apply (no_double_booking_preserved db_one ops_stays db_after_stays).
  - apply (bool_decide_unpack _). vm_compute. exact I.
  - exact db_one_single.
  - apply run_all_reaches. vm_compute. reflexivity.
Defined.

(** ** Modifying a booking to what it already is *)

Lemma truthy_id db id b :
  store_ok db ->
  select_one (fun r => Bookings.booking_id r = id) (bookings db) = Some b ->
  truthy (Some id) = true.
Proof.
  intros (_ & _ & Hne & _) Hsel. unfold ids_nonempty in Hne.
  rewrite Forall_forall in Hne.
  apply select_one_Some in Hsel as [Hb <-].
  simpl. apply bool_decide_eq_true. by apply Hne.
Qed.

(** With a real identifier to ignore, the count is zero exactly when no
    other booking blocks. *)
Lemma overlap_count_others db id b rn i o :
  store_ok db ->
  select_one (fun r => Bookings.booking_id r = id) (bookings db) = Some b ->
  overlap_count rn i o (Some id) db = 0 <->
  forall x, x ∈ bookings db -> Bookings.booking_id x <> id ->
            ~ blocks rn i o x.
Proof.
  intros Hok Hsel. rewrite overlap_count_zero. split.
  - intros H x Hx Hne Hbl. destruct (H x Hx Hbl). congruence.
  - intros H x Hx Hbl. split; [by eapply truthy_id|].
    destruct (decide (Bookings.booking_id x = id)) as [->|Hne];
      [reflexivity|]. destruct (H x Hx Hne Hbl).
Qed.

(** C3, counterexample.  Booking B50002 of room 102 was cancelled and its
    nights booked again by B50003: modifying B50002 to its own room, dates
    and status is refused. *)
Lemma noop_update_blocked :
  run_all ops_rebooked db_one = Some db_rebooked
  /\ store_ok db_rebooked
  /\ exists B,
       result (get_booking_by_id "B50002") db_rebooked = Returned (Some B)
       /\ noop_update B db_rebooked
          = (Returned
               (false, "Room 102 is not available for the new dates/room."),
             db_rebooked).
Proof.
  split; [vm_compute; reflexivity|].
  split; [apply (bool_decide_unpack _); vm_compute; exact I|].
  eexists. split; vm_compute; reflexivity.
Qed.

(** C3, amended.  In a database the engine built, modifying an existing
    booking to its own room, dates and status succeeds exactly when no
    other booking blocks its room for its nights; the booking itself never
    blocks.  It always succeeds for a Confirmed or CheckedIn booking when
    no room is double booked. *)
Theorem noop_update_succeeds (db : DB) (id : string) (B : Bookings.row) :
  store_ok db ->
  result (get_booking_by_id id) db = Returned (Some B) ->
  (result (noop_update B) db
     = Returned (true, "Booking " +:+ id +:+ " successfully updated.")
   <-> forall x, x ∈ bookings db -> Bookings.booking_id x <> id ->
         ~ blocks (Bookings.room_number B) (Bookings.check_in_date B)
             (Bookings.check_out_date B) x)
  /\ (active B -> no_double_booking db ->
      result (noop_update B) db
      = Returned (true, "Booking " +:+ id +:+ " successfully updated.")).
Proof.
  intros Hok Hget.
  assert (Hsel : select_one (fun r => Bookings.booking_id r = id)
                   (bookings db) = Some B).
  { unfold result, get_booking_by_id, query in Hget. simpl in Hget.
    congruence. }
  destruct (select_one_Some _ _ _ Hsel) as [HB Hid].
  assert (Hdates : ~ Bookings.check_in_date B >= Bookings.check_out_date B).
  { destruct Hok as (_ & _ & _ & Hd). rewrite Forall_forall in Hd.
    specialize (Hd B HB). lia. }
  assert (Hiff : result (noop_update B) db
     = Returned (true, "Booking " +:+ id +:+ " successfully updated.")
   <-> forall x, x ∈ bookings db -> Bookings.booking_id x <> id ->
         ~ blocks (Bookings.room_number B) (Bookings.check_in_date B)
             (Bookings.check_out_date B) x).
  { rewrite <- (overlap_count_others db id B) by assumption.
    unfold result, noop_update. rewrite update_booking_eq, Hid, Hsel.
    rewrite decide_False by exact Hdates.
    destruct (bool_decide _) eqn:Hav; simpl.
    - apply bool_decide_eq_true in Hav. tauto.
    - apply bool_decide_eq_false in Hav. split; [discriminate|tauto]. }
  split; [exact Hiff|].
  intros Hact Hinv. apply Hiff. intros x Hx Hne (Hr & Hs & Ho & Hi).
  apply (Hinv x B Hx HB); auto. { congruence. }
  destruct Hok as (_ & _ & _ & Hd). rewrite Forall_forall in Hd.
  apply overlap_iff; [by apply Hd | by apply Hd | split; lia].
Qed.

Lemma noop_update_succeeds_witness :
  result (noop_update
            (Bookings.mk "B50001" "C1000" "101" 10 12 "Confirmed" 100%float))
         db_one
  = Returned (true, "Booking B50001 successfully updated.").
Proof.
  apply (noop_update_succeeds db_one "B50001"
           (Bookings.mk "B50001" "C1000" "101" 10 12 "Confirmed" 100%float)).
  - apply (bool_decide_unpack _). vm_compute. exact I.
  - vm_compute. reflexivity.
  - apply (bool_decide_unpack _). vm_compute. exact I.
  - intros a b Ha Hb Hne. simpl in Ha, Hb.
    apply list_elem_of_singleton in Ha, Hb. congruence.
Defined.

(** ** The price a booking carries *)

Lemma get_booking_by_id_Some id db b :
  result (get_booking_by_id id) db = Returned (Some b) <->
  select_one (fun r => Bookings.booking_id r = id) (bookings db) = Some b.
Proof.
  unfold result, get_booking_by_id, query. simpl. split; congruence.
Qed.

Lemma get_room_by_number_eq rn db :
  result (get_room_by_number rn) db
  = Returned (select_one (fun r => Rooms.room_number r = rn) (rooms db)).
Proof. reflexivity. Qed.

(** The row a booking identifier selects after an [UPDATE] on it. *)
Lemma select_updated id set t b :
  (forall r, Bookings.booking_id (set r) = Bookings.booking_id r) ->
  select_one (fun r => Bookings.booking_id r = id) t = Some b ->
  select_one (fun r => Bookings.booking_id r = id)
    (update_where (fun r => Bookings.booking_id r = id) set t)
  = Some (set b).
Proof.
  intros Hk Hsel.
  rewrite (select_one_update_where Bookings.booking_id) by exact Hk.
  rewrite Hsel. simpl.
  apply select_one_Some in Hsel as [_ Hid]. by rewrite decide_True.
Qed.

(** A successful [update_booking] and the row it leaves. *)
Lemma update_booking_success id rn i o s db msg db' :
  update_booking id rn i o s db = (Returned (true, msg), db') ->
  exists B,
    select_one (fun r => Bookings.booking_id r = id) (bookings db) = Some B
    /\ i < o
    /\ overlap_count rn i o (Some id) db = 0
    /\ db' = mkDB (moved_rooms B rn s (rooms db))
               (update_where (fun r => Bookings.booking_id r = id)
                  (set_booking rn i o s (room_price rn (rooms db)))
                  (bookings db))
    /\ select_one (fun r => Bookings.booking_id r = id) (bookings db')
       = Some (set_booking rn i o s (room_price rn (rooms db)) B).
Proof.
  rewrite update_booking_eq. intros H. method_cases H; try congruence.
  injection H as _ <-. apply bool_decide_eq_true in Hav.
  eexists. repeat split; eauto; [lia|]. simpl. by apply select_updated.
Qed.

Lemma update_booking_available id rn i o s db B :
  select_one (fun r => Bookings.booking_id r = id) (bookings db) = Some B ->
  i < o ->
  overlap_count rn i o (Some id) db = 0 ->
  update_booking id rn i o s db
  = (Returned (true, "Booking " +:+ id +:+ " successfully updated."),
     mkDB (moved_rooms B rn s (rooms db))
          (update_where (fun r => Bookings.booking_id r = id)
             (set_booking rn i o s (room_price rn (rooms db)))
             (bookings db))).
Proof.
  intros Hsel Hlt Hav. rewrite update_booking_eq, Hsel.
  rewrite decide_False by lia. by rewrite bool_decide_eq_true_2.
Qed.

Lemma update_booking_unavailable id rn i o s db B :
  select_one (fun r => Bookings.booking_id r = id) (bookings db) = Some B ->
  i < o ->
  overlap_count rn i o (Some id) db <> 0 ->
  update_booking id rn i o s db
  = (Returned (false, "Room " +:+ rn
        +:+ " is not available for the new dates/room."), db).
Proof.
  intros Hsel Hlt Hav. rewrite update_booking_eq, Hsel.
  rewrite decide_False by lia. by rewrite bool_decide_eq_false_2.
Qed.

(** C10, counterexample.  Room 999 has no record and booking B50001 was
    moved to it; moving B50002 to room 999 for the same nights is refused. *)
Lemma update_to_missing_room_blocked :
  run_all ops_ghost_room db_one = Some db_ghost_room
  /\ store_ok db_ghost_room
  /\ result (get_room_by_number "999") db_ghost_room = Returned None
  /\ (exists B, result (get_booking_by_id "B50002") db_ghost_room
                = Returned (Some B))
  /\ 10 < 12
  /\ update_booking "B50002" "999" 10 12 "Confirmed" db_ghost_room
     = (Returned
          (false, "Room 999 is not available for the new dates/room."),
        db_ghost_room).
Proof.
  split; [vm_compute; reflexivity|].
  split; [apply (bool_decide_unpack _); vm_compute; exact I|].
  split; [vm_compute; reflexivity|].
  split; [eexists; vm_compute; reflexivity|].
  split; [lia | vm_compute; reflexivity].
Qed.

(** C10, amended.  [update_booking] never looks the new room up.  For an
    existing booking, dates with [i < o] and a room number without a room
    record, the call succeeds exactly when no other booking blocks that
    room number for those nights, as when no booking refers to it, and
    then stores the booking with price 0; when another booking blocks, it
    fails as unavailable, not as a missing room. *)
Theorem update_to_missing_room (db : DB) (id : string) (B : Bookings.row)
    (rn : string) (i o : date) (s : string) :
  store_ok db ->
  result (get_booking_by_id id) db = Returned (Some B) ->
  i < o ->
  result (get_room_by_number rn) db = Returned None ->
  ((forall x, x ∈ bookings db -> Bookings.booking_id x <> id ->
              ~ blocks rn i o x) ->
   result (update_booking id rn i o s) db
     = Returned (true, "Booking " +:+ id +:+ " successfully updated.")
   /\ result (get_booking_by_id id) (final (update_booking id rn i o s) db)
      = Returned (Some (set_booking rn i o s 0%float B)))
  /\ ((forall x, x ∈ bookings db -> Bookings.room_number x <> rn) ->
      result (update_booking id rn i o s) db
        = Returned (true, "Booking " +:+ id +:+ " successfully updated.")
      /\ result (get_booking_by_id id)
           (final (update_booking id rn i o s) db)
         = Returned (Some (set_booking rn i o s 0%float B)))
  /\ ((exists x, x ∈ bookings db /\ Bookings.booking_id x <> id
                 /\ blocks rn i o x) ->
      update_booking id rn i o s db
      = (Returned (false, "Room " +:+ rn
            +:+ " is not available for the new dates/room."), db)).
Proof.
  intros Hok Hget Hlt Hroom.
  apply get_booking_by_id_Some in Hget.
  rewrite get_room_by_number_eq in Hroom. injection Hroom as Hroom.
  assert (Hprice : room_price rn (rooms db) = 0%float)
    by (unfold room_price; by rewrite Hroom).
  assert (Hfree : (forall x, x ∈ bookings db -> Bookings.booking_id x <> id ->
              ~ blocks rn i o x) ->
   result (update_booking id rn i o s) db
     = Returned (true, "Booking " +:+ id +:+ " successfully updated.")
   /\ result (get_booking_by_id id) (final (update_booking id rn i o s) db)
      = Returned (Some (set_booking rn i o s 0%float B))).
  { intros Hothers.
    apply (overlap_count_others db id B rn i o Hok Hget) in Hothers.
    unfold result, final.
    rewrite (update_booking_available id rn i o s db B) by assumption.
    split; [reflexivity|]. apply get_booking_by_id_Some. simpl.
    rewrite Hprice. by apply select_updated. }
  split; [exact Hfree|]. split.
  - intros Hnone. apply Hfree. intros x Hx _ (Hr & _). by apply (Hnone x).
  - intros (x & Hx & Hne & Hbl).
    apply (update_booking_unavailable id rn i o s db B); auto.
    rewrite (overlap_count_others db id B rn i o Hok Hget). eauto.
Qed.

Lemma update_to_missing_room_witness :
  result (update_booking "B50001" "999" 10 12 "Confirmed") db_one
  = Returned (true, "Booking B50001 successfully updated.")
  /\ result (get_booking_by_id "B50001")
       (final (update_booking "B50001" "999" 10 12 "Confirmed") db_one)
     = Returned
         (Some (Bookings.mk "B50001" "C1000" "999" 10 12 "Confirmed" 0%float)).
Proof.
  apply (update_to_missing_room db_one "B50001"
           (Bookings.mk "B50001" "C1000" "101" 10 12 "Confirmed" 100%float)
           "999" 10 12 "Confirmed").
  - apply (bool_decide_unpack _). vm_compute. exact I.
  - vm_compute. reflexivity.
  - lia.
  - vm_compute. reflexivity.
  - intros x Hx. simpl in Hx. apply list_elem_of_singleton in Hx. subst x.
    simpl. discriminate.
Defined.

Lemma add_booking_success draw c rn i o s db msg db' :
  add_booking draw c rn i o s db = (Returned (true, msg), db') ->
  exists r,
    select_one (fun r => Rooms.room_number r = rn) (rooms db) = Some r
    /\ i < o
    /\ overlap_count rn i o None db = 0
    /\ ("B" +:+ pretty draw ∉ Bookings.booking_id <$> bookings db)
    /\ db' = mkDB (rooms db)
               (bookings db
                ++ [Bookings.mk ("B" +:+ pretty draw) c rn i o s
                      (Rooms.price r)]).
Proof.
  rewrite add_booking_eq. intros H. method_cases H; try congruence.
  injection H as _ <-. apply bool_decide_eq_true in Hav.
  eexists. repeat split; eauto. lia.
Qed.

Lemma with_booking_status_prices id s t :
  Bookings.price_per_night <$> with_booking_status id s t
  = Bookings.price_per_night <$> t.
Proof. apply update_where_key. reflexivity. Qed.

Lemma transition_prices o db :
  is_transition o = true ->
  Bookings.price_per_night <$> bookings (final (run o) db)
  = Bookings.price_per_night <$> bookings db.
Proof.
  unfold final. rewrite run_eq. destruct o; try discriminate; intros _.
  - rewrite check_in_eq.
    destruct (select_one _ _); [destruct (decide _)|]; simpl;
      by rewrite ?with_booking_status_prices.
  - rewrite check_out_eq.
    destruct (select_one _ _); [destruct (decide _)|]; simpl;
      by rewrite ?with_booking_status_prices.
  - rewrite cancel_booking_eq.
    destruct (select_one _ _); [destruct (decide _)|]; simpl;
      by rewrite ?with_booking_status_prices.
Qed.

Lemma Forall2_update_where {R} (Q : R -> R -> Prop) (P : R -> Prop)
    `{Pdec : !forall r, Decision (P r)} (set : R -> R) (t : list R) :
  (forall r, r ∈ t -> Q r (if decide (P r) then set r else r)) ->
  Forall2 Q t (update_where P set t).
Proof.
  unfold update_where. induction t as [|x t IH]; intros H.
  - constructor.
  - rewrite fmap_cons. constructor.
    + apply H. apply elem_of_cons. by left.
    + apply IH. intros r Hr. apply H. apply elem_of_cons. by right.
Qed.

Lemma without_status_update_where id (Q : Bookings.row -> Prop)
    `{Qdec : !forall r, Decision (Q r)} (set : Bookings.row -> Bookings.row)
    (t : list Bookings.row) :
  (forall r, Bookings.booking_id (set r) = Bookings.booking_id r) ->
  (forall r, Q r -> Bookings.booking_id r = id ->
             without_status (set r) = without_status r) ->
  without_status
    <$> filter (fun r => Bookings.booking_id r = id) (update_where Q set t)
  = without_status <$> filter (fun r => Bookings.booking_id r = id) t.
Proof.
  intros Hid Hset. unfold update_where.
  induction t as [|x t IH]; [reflexivity|].
  rewrite fmap_cons, !filter_cons.
  assert (Hx : Bookings.booking_id (if decide (Q x) then set x else x)
               = Bookings.booking_id x)
    by (destruct (decide (Q x)); auto).
  rewrite Hx. destruct (decide (Bookings.booking_id x = id)) as [Hi|Hi];
    [|exact IH].
  rewrite !fmap_cons, IH. f_equal.
  destruct (decide (Q x)); auto.
Qed.

Lemma without_status_with_booking_status id id' s t :
  without_status
    <$> filter (fun r => Bookings.booking_id r = id)
          (with_booking_status id' s t)
  = without_status <$> filter (fun r => Bookings.booking_id r = id) t.
Proof. apply without_status_update_where; reflexivity. Qed.

(** The rows of the booking [id], status apart, after an engine operation
    that is not an [update_booking] of it. *)
Lemma run_keeps_rows id o db :
  id ∈ Bookings.booking_id <$> bookings db ->
  ~ modifies id (Engine o) ->
  id ∈ Bookings.booking_id <$> bookings (final (run o) db)
  /\ without_status
       <$> filter (fun r => Bookings.booking_id r = id)
             (bookings (final (run o) db))
     = without_status
         <$> filter (fun r => Bookings.booking_id r = id) (bookings db).
Proof.
  intros Hin Hmod. unfold final. rewrite run_eq.
  destruct o as [draw c rn i o s | id' rn i o s | id' | id' | id'].
  - rewrite add_booking_eq.
    destruct (decide _); [done|]. destruct (select_one _ _); [|done].
    destruct (bool_decide _); [|done].
    destruct (decide _) as [Hold|Hnew]; [done|]. simpl. split.
    + rewrite fmap_app. apply elem_of_app. by left.
    + rewrite filter_app, fmap_app, filter_cons. simpl.
      rewrite decide_False by (intros Heq; destruct Hnew; by rewrite Heq).
      rewrite filter_nil. apply app_nil_r.
  - simpl in Hmod. rewrite update_booking_eq.
    destruct (select_one _ _); [|done]. destruct (decide _); [done|].
    destruct (bool_decide _); [|done]. simpl. split.
    + by rewrite update_where_key.
    + apply without_status_update_where; [reflexivity|].
      intros x Hx Hid. destruct Hmod. congruence.
  - rewrite check_in_eq. destruct (select_one _ _); [|done].
    destruct (decide _); [|done]. simpl. split.
    + unfold with_booking_status. by rewrite update_where_key.
    + apply without_status_with_booking_status.
  - rewrite check_out_eq. destruct (select_one _ _); [|done].
    destruct (decide _); [|done]. simpl. split.
    + unfold with_booking_status. by rewrite update_where_key.
    + apply without_status_with_booking_status.
  - rewrite cancel_booking_eq. destruct (select_one _ _); [|done].
    destruct (decide _); [|done]. simpl. split.
    + unfold with_booking_status. by rewrite update_where_key.
    + apply without_status_with_booking_status.
Qed.

Lemma final_then_ret {A} (m : M A) db : final (m ;; ret tt) db = final m db.
Proof. unfold final, bind, ret. by destruct (m db) as [[a|e] db']. Qed.

Lemma insert_room_bookings r db :
  bookings (final (insert_room r) db) = bookings db.
Proof.
  unfold final, insert_room. destruct (real_column _); [|done].
  by destruct (decide _).
Qed.

Lemma run_call_keeps_rows id c db :
  id ∈ Bookings.booking_id <$> bookings db ->
  ~ modifies id c ->
  id ∈ Bookings.booking_id <$> bookings (final (run_call c) db)
  /\ without_status
       <$> filter (fun r => Bookings.booking_id r = id)
             (bookings (final (run_call c) db))
     = without_status
         <$> filter (fun r => Bookings.booking_id r = id) (bookings db).
Proof.
  intros Hin Hmod. destruct c as [o | rn ty p st | ty p].
  - simpl run_call. rewrite final_then_ret. by apply run_keeps_rows.
  - simpl run_call. rewrite final_then_ret, update_room_details_bookings.
    by split.
  - change (final (run_call (AddRoom ty p)) db)
      with (final (insert_room
                     (Rooms.mk
                        match max_room_number (rooms db) with
                        | Some m =>
                          if decide (m <> 0) then pretty (m + 1) else "101"
                        | None => "101"
                        end ty p "Available")) db).
    rewrite insert_room_bookings. by split.
Qed.

Lemma run_calls_keep_rows id cs db :
  id ∈ Bookings.booking_id <$> bookings db ->
  Forall (fun c => ~ modifies id c) cs ->
  without_status
    <$> filter (fun r => Bookings.booking_id r = id)
          (bookings (run_calls cs db))
  = without_status
      <$> filter (fun r => Bookings.booking_id r = id) (bookings db).
Proof.
  revert db. induction cs as [|c cs IH]; intros db Hin Hcs; [reflexivity|].
  apply Forall_cons in Hcs as [Hc Hcs].
  destruct (run_call_keeps_rows id c db Hin Hc) as [Hin' Heq].
  change (run_calls (c :: cs) db) with (run_calls cs (final (run_call c) db)).
  by rewrite IH, Heq.
Qed.

(** C9. A successful [update_booking] stores, as the booking's
    [price_per_night], what [get_room_price] returns for the new room at
    that time: the rate of the room's record.  A booking [add_booking]
    creates carries the room's rate of that time, and no later change keeps
    it in step with the room: [update_room_details] leaves the bookings
    table as it is, and check-in, check-out and cancellation leave every
    price as it is.  [update_booking] writes the row of its booking alone:
    every other booking row is as it was.  It succeeds, and stores that
    price, for any existing booking, dates in order and a room no other
    booking blocks; [add_booking] succeeds, and stores the room's rate,
    for dates in order, a room with a record that is free, and a fresh
    identifier.  And through any sequence of calls of the application,
    whatever each returns (bookings created, other bookings modified,
    check-ins, check-outs, cancellations, rooms added, room details and so
    rates edited), in which the booking itself is not modified, the
    booking read back is the booking it was, status apart: its price is
    the one it had. *)
Theorem price_snapshot :
  (forall id rn i o s db msg db' b',
     update_booking id rn i o s db = (Returned (true, msg), db') ->
     result (get_booking_by_id id) db' = Returned (Some b') ->
     result (get_room_price rn) db = Returned (Bookings.price_per_night b')
     /\ forall r, result (get_room_by_number rn) db = Returned (Some r) ->
                  Bookings.price_per_night b' = Rooms.price r)
  /\ (forall draw c rn i o s db msg db',
        add_booking draw c rn i o s db = (Returned (true, msg), db') ->
        exists r b',
          result (get_room_by_number rn) db = Returned (Some r)
          /\ bookings db' = bookings db ++ [b']
          /\ Bookings.price_per_night b' = Rooms.price r)
  /\ (forall rn ty p s db,
        bookings (final (update_room_details rn ty p s) db) = bookings db)
  /\ (forall o db,
        is_transition o = true ->
        Bookings.price_per_night <$> bookings (final (run o) db)
        = Bookings.price_per_night <$> bookings db)
  /\ (forall id rn i o s db msg db',
        update_booking id rn i o s db = (Returned (true, msg), db') ->
        exists p,
          result (get_room_price rn) db = Returned p
          /\ Forall2
               (fun b b' =>
                  b' = if decide (Bookings.booking_id b = id)
                       then set_booking rn i o s p b else b)
               (bookings db) (bookings db'))
  /\ (forall id rn i o s db B,
        store_ok db ->
        result (get_booking_by_id id) db = Returned (Some B) ->
        i < o ->
        (forall x, x ∈ bookings db -> Bookings.booking_id x <> id ->
                   ~ blocks rn i o x) ->
        exists p,
          result (get_room_price rn) db = Returned p
          /\ result (update_booking id rn i o s) db
             = Returned (true, "Booking " +:+ id +:+ " successfully updated.")
          /\ result (get_booking_by_id id)
               (final (update_booking id rn i o s) db)
             = Returned (Some (set_booking rn i o s p B)))
  /\ (forall draw c rn i o s db r,
        i < o ->
        result (get_room_by_number rn) db = Returned (Some r) ->
        result (is_room_available rn i o None) db = Returned true ->
        ("B" +:+ pretty draw ∉ Bookings.booking_id <$> bookings db) ->
        add_booking draw c rn i o s db
        = (Returned (true, "Booking " +:+ ("B" +:+ pretty draw)
                           +:+ " confirmed."),
           mkDB (rooms db)
                (bookings db
                 ++ [Bookings.mk ("B" +:+ pretty draw) c rn i o s
                       (Rooms.price r)])))
  /\ (forall cs db id B,
        result (get_booking_by_id id) db = Returned (Some B) ->
        Forall (fun c => ~ modifies id c) cs ->
        exists B',
          result (get_booking_by_id id) (run_calls cs db)
          = Returned (Some B')
          /\ B' = set_booking_status (Bookings.status B') B
          /\ Bookings.price_per_night B' = Bookings.price_per_night B).
Proof.
  split; [|split; [|split; [|split; [|split; [|split; [|split]]]]]].
  - intros id rn i o s db msg db' b' Hup Hget.
    apply update_booking_success in Hup as (B & _ & _ & _ & _ & Hsel).
    apply get_booking_by_id_Some in Hget.
    rewrite Hsel in Hget. injection Hget as <-. simpl.
    split; [reflexivity|]. intros r Hr.
    rewrite get_room_by_number_eq in Hr. injection Hr as Hr.
    unfold room_price. by rewrite Hr.
  - intros draw c rn i o s db msg db' Hadd.
    apply add_booking_success in Hadd as (r & Hr & _ & _ & _ & ->).
    exists r. eexists. rewrite get_room_by_number_eq, Hr.
    repeat split; reflexivity.
  - intros. apply update_room_details_bookings.
  - exact transition_prices.
  - intros id rn i o s db msg db' Hup.
    apply update_booking_success in Hup as (B & _ & _ & _ & -> & _).
    exists (room_price rn (rooms db)). split; [reflexivity|]. simpl.
    apply Forall2_update_where. intros r _. reflexivity.
  - intros id rn i o s db B Hok HB Hlt Hfree.
    apply get_booking_by_id_Some in HB.
    assert (Hav : overlap_count rn i o (Some id) db = 0)
      by (by apply (overlap_count_others db id B)).
    exists (room_price rn (rooms db)). split; [reflexivity|].
    unfold result, final.
    rewrite (update_booking_available id rn i o s db B HB Hlt Hav). simpl.
    split; [reflexivity|]. f_equal. by apply select_updated.
  - intros draw c rn i o s db r Hlt Hr Hav Hnew.
    rewrite get_room_by_number_eq in Hr. injection Hr as Hr.
    unfold result in Hav. rewrite is_room_available_eq in Hav.
    simpl in Hav. injection Hav as Hav.
    rewrite add_booking_eq, Hr, Hav.
    rewrite decide_False by (clear - Hlt; lia).
    by rewrite decide_False.
  - intros cs db id B HB Hcs. apply get_booking_by_id_Some in HB.
    assert (Hin : id ∈ Bookings.booking_id <$> bookings db).
    { apply select_one_Some in HB as [HB Hid]. rewrite <- Hid.
      by apply list_elem_of_fmap_2. }
    pose proof (run_calls_keep_rows id cs db Hin Hcs) as Heq.
    unfold select_one in HB.
    destruct (filter _ (bookings db)) as [|b0 l]; [discriminate|].
    simpl in HB. injection HB as ->.
    destruct (filter (fun r => Bookings.booking_id r = id)
                (bookings (run_calls cs db))) as [|B' l'] eqn:Hf';
      [discriminate|].
    assert (Hw : without_status B' = without_status B)
      by (rewrite !fmap_cons in Heq; congruence).
    exists B'. split.
    { apply get_booking_by_id_Some. unfold select_one. by rewrite Hf'. }
    assert (HB' : B' = set_booking_status (Bookings.status B') B).
    { clear - Hw. destruct B', B.
      unfold without_status, set_booking_status in *. simpl in *.
      injection Hw as -> -> -> -> -> ->. reflexivity. }
    split; [exact HB'|]. by rewrite HB'.
Qed.

Lemma price_snapshot_witness :
  result (get_room_price "102") db_one = Returned 150%float
  /\ forall r, result (get_room_by_number "102") db_one = Returned (Some r) ->
               150%float = Rooms.price r.
Proof.
  apply (proj1 price_snapshot "B50001" "102" 10 12 "Confirmed" db_one
           "Booking B50001 successfully updated." db_moved
           (Bookings.mk "B50001" "C1000" "102" 10 12 "Confirmed" 150%float)).
  - vm_compute. reflexivity.
  - vm_compute. reflexivity.
Defined.

(** ** Creating a booking *)

(** C5. [add_booking] tests its preconditions in order and a failed test
    leaves the database as it was: check-in on or after check-out is
    refused first, then a room without a record, then a room that is not
    available.  A successful call with the default status appends one
    booking, Confirmed, priced at the room's current rate, and leaves the
    rooms table, so every room status, as it was. *)
Theorem add_booking_contract (draw : Z) (c rn : string) (i o : date)
    (db : DB) :
  (i >= o ->
   add_booking draw c rn i o default_status db
   = (Returned (false, "Check-out date must be after check-in date."), db))
  /\ (i < o ->
      result (get_room_by_number rn) db = Returned None ->
      add_booking draw c rn i o default_status db
      = (Returned (false, "Room not found."), db))
  /\ (i < o ->
      result (get_room_by_number rn) db <> Returned None ->
      result (is_room_available rn i o None) db = Returned false ->
      add_booking draw c rn i o default_status db
      = (Returned (false, "Room " +:+ rn
            +:+ " is already booked or occupied during this period."), db))
  /\ (forall msg db',
        add_booking draw c rn i o default_status db
        = (Returned (true, msg), db') ->
        exists r,
          result (get_room_by_number rn) db = Returned (Some r)
          /\ rooms db' = rooms db
          /\ bookings db'
             = bookings db
               ++ [Bookings.mk ("B" +:+ pretty draw) c rn i o "Confirmed"
                     (Rooms.price r)])
  /\ (i < o ->
      result (get_room_by_number rn) db <> Returned None ->
      result (is_room_available rn i o None) db = Returned true ->
      ("B" +:+ pretty draw ∉ Bookings.booking_id <$> bookings db) ->
      result (add_booking draw c rn i o default_status) db
      = Returned (true, "Booking " +:+ ("B" +:+ pretty draw)
                        +:+ " confirmed.")).
Proof.
  rewrite get_room_by_number_eq. unfold result.
  rewrite is_room_available_eq, add_booking_eq. simpl fst.
  repeat split.
  - intros H. by rewrite decide_True.
  - intros Hlt Hr. rewrite decide_False by lia.
    injection Hr as Hr. by rewrite Hr.
  - intros Hlt Hr Hav. rewrite decide_False by lia.
    destruct (select_one _ (rooms db)); [|congruence].
    injection Hav as Hav. by rewrite Hav.
  - intros msg db' H. method_cases H; try congruence.
    injection H as _ <-. eexists. repeat split; reflexivity.
  - intros Hlt Hr Hav Hfresh. rewrite decide_False by lia.
    destruct (select_one _ (rooms db)); [|congruence].
    injection Hav as Hav. rewrite Hav. by rewrite decide_False.
Qed.

Lemma add_booking_contract_witness :
  add_booking 50002 "C1001" "101" 11 13 default_status db_one
  = (Returned
       (false, "Room 101 is already booked or occupied during this period."),
     db_one).
Proof.
  apply (add_booking_contract 50002 "C1001" "101" 11 13 db_one).
  - lia.
  - vm_compute. discriminate.
  - vm_compute. reflexivity.
Defined.

(** ** The life cycle of a booking *)

(** C6. For an existing booking, [check_in] returns true exactly when its
    status is Confirmed, [check_out] exactly when it is CheckedIn and
    [cancel_booking] exactly when it is Confirmed; a successful call
    writes the new status, and every other call returns false and leaves
    the database, so the status, as it was.  Check-in of a Cancelled
    booking, check-out of a Confirmed one and cancellation of a CheckedIn
    one all return false. *)
Theorem transitions_guarded (db : DB) (id : string) (B : Bookings.row) :
  result (get_booking_by_id id) db = Returned (Some B) ->
  ((result (check_in id) db = Returned true
    <-> Bookings.status B = "Confirmed")
   /\ (Bookings.status B = "Confirmed" ->
       result (get_booking_by_id id) (final (check_in id) db)
       = Returned (Some (set_booking_status "CheckedIn" B)))
   /\ (Bookings.status B <> "Confirmed" ->
       check_in id db = (Returned false, db)))
  /\ ((result (check_out id) db = Returned true
       <-> Bookings.status B = "CheckedIn")
      /\ (Bookings.status B = "CheckedIn" ->
          result (get_booking_by_id id) (final (check_out id) db)
          = Returned (Some (set_booking_status "CheckedOut" B)))
      /\ (Bookings.status B <> "CheckedIn" ->
          check_out id db = (Returned false, db)))
  /\ ((result (cancel_booking id) db = Returned true
       <-> Bookings.status B = "Confirmed")
      /\ (Bookings.status B = "Confirmed" ->
          result (get_booking_by_id id) (final (cancel_booking id) db)
          = Returned (Some (set_booking_status "Cancelled" B)))
      /\ (Bookings.status B <> "Confirmed" ->
          cancel_booking id db = (Returned false, db)))
  /\ (Bookings.status B = "Cancelled" ->
      check_in id db = (Returned false, db))
  /\ (Bookings.status B = "Confirmed" ->
      check_out id db = (Returned false, db))
  /\ (Bookings.status B = "CheckedIn" ->
      cancel_booking id db = (Returned false, db)).
Proof.
  intros Hget. apply get_booking_by_id_Some in Hget.
  unfold result, final.
  rewrite check_in_eq, check_out_eq, cancel_booking_eq, Hget.
  assert (Hupd : forall s,
    get_booking_by_id id
      (mkDB (rooms db) (with_booking_status id s (bookings db)))
    = (Returned (Some (set_booking_status s B)),
       mkDB (rooms db) (with_booking_status id s (bookings db)))).
  { intros s. unfold get_booking_by_id, query, with_booking_status. simpl.
    by rewrite (select_updated id (set_booking_status s) _ B). }
  assert (Hupd' : forall s r,
    fst (get_booking_by_id id
           (mkDB r (with_booking_status id s (bookings db))))
    = Returned (Some (set_booking_status s B))).
  { intros s r. specialize (Hupd s).
    unfold get_booking_by_id, query in *. simpl in *. congruence. }
  repeat split;
    try (intros H; destruct (decide _); simpl in *; congruence);
    try (intros H; rewrite decide_True by exact H; apply Hupd').
Qed.

Lemma transitions_guarded_witness :
  result (get_booking_by_id "B50001") (final (check_in "B50001") db_one)
  = Returned
      (Some (Bookings.mk "B50001" "C1000" "101" 10 12 "CheckedIn" 100%float)).
Proof.
  apply (transitions_guarded db_one "B50001"
           (Bookings.mk "B50001" "C1000" "101" 10 12 "Confirmed" 100%float)).
  - vm_compute. reflexivity.
  - reflexivity.
Defined.

(** An identifier that selects no booking makes all three return false. *)
Lemma transitions_unknown_booking db id :
  result (get_booking_by_id id) db = Returned None ->
  check_in id db = (Returned false, db)
  /\ check_out id db = (Returned false, db)
  /\ cancel_booking id db = (Returned false, db).
Proof.
  intros Hget. unfold result, get_booking_by_id, query in Hget.
  simpl in Hget. injection Hget as Hget.
  by rewrite check_in_eq, check_out_eq, cancel_booking_eq, Hget.
Qed.

(** ** Failure is atomic *)

(** C7. An engine operation that returns failure leaves the database as it
    was before the call: every booking row and every room row. *)
Theorem failure_changes_nothing (o : op) (db db' : DB) :
  fails o db db' -> db' = db.
Proof.
  unfold fails. rewrite run_eq. destruct o.
  - rewrite add_booking_eq. intros H. method_cases H; simpl in H; congruence.
  - rewrite update_booking_eq. intros H.
    method_cases H; simpl in H; congruence.
  - rewrite check_in_eq. intros H. method_cases H; congruence.
  - rewrite check_out_eq. intros H. method_cases H; congruence.
  - rewrite cancel_booking_eq. intros H. method_cases H; congruence.
Qed.

Lemma failure_changes_nothing_witness :
  final (run (CheckOut "B50001")) db_one = db_one.
Proof.
  apply (failure_changes_nothing (CheckOut "B50001") db_one).
  vm_compute. reflexivity.
Defined.

(** ** Room status *)

(** C4, counterexample.  Two guests are checked in to room 101 for adjacent
    stays and the room status matches the bookings; the first checks out
    and the room reads Available while the second is still CheckedIn.
    And a room set to Maintenance by hand reads Occupied after a check-in. *)
Lemma room_status_drifts :
  (run_all ops_two_guests db_one = Some db_two_guests
   /\ room_status_ok db_two_guests
   /\ succeeds (CheckOut "B50001") db_two_guests db_first_out
   /\ result (get_room_by_number "101") db_first_out
      = Returned (Some (Rooms.mk "101" "Standard" 100%float "Available"))
   /\ checked_in_on db_first_out "101"
   /\ ~ room_status_ok db_first_out)
  /\ (result (get_room_by_number "101") db_maintenance
      = Returned (Some (Rooms.mk "101" "Standard" 100%float "Maintenance"))
      /\ room_status_ok db_maintenance
      /\ succeeds (CheckIn "B50001") db_maintenance db_maintenance_in
      /\ result (get_room_by_number "101") db_maintenance_in
         = Returned (Some (Rooms.mk "101" "Standard" 100%float "Occupied"))).
Proof.
  repeat split;
    try (vm_compute; reflexivity);
    apply (bool_decide_unpack _); vm_compute; exact I.
Qed.

Lemma checked_in_on_iff db rn :
  checked_in_on db rn <->
  exists b, b ∈ bookings db /\ Bookings.room_number b = rn
            /\ Bookings.status b = "CheckedIn".
Proof. unfold checked_in_on. rewrite Exists_exists. reflexivity. Qed.

(** Who is checked in on a room: the others, or the selected booking. *)
Lemma checked_in_on_split db id B rn :
  bookings_pk db ->
  select_one (fun r => Bookings.booking_id r = id) (bookings db) = Some B ->
  checked_in_on db rn <->
  others_checked_in db id rn
  \/ (Bookings.status B = "CheckedIn" /\ Bookings.room_number B = rn).
Proof.
  intros Hpk Hsel. rewrite checked_in_on_iff. unfold others_checked_in.
  destruct (select_one_Some _ _ _ Hsel) as [HB Hid]. split.
  - intros (b & Hb & Hr & Hs).
    destruct (decide (Bookings.booking_id b = id)) as [Hb_id|Hne].
    + rewrite (selected_row id db B b Hpk Hsel Hb Hb_id) in *. tauto.
    + left. eauto.
  - intros [(b & Hb & _ & Hr & Hs)|[Hs Hr]]; eauto.
Qed.

(** The same after an [UPDATE] of the selected booking. *)
Lemma checked_in_on_updated db id B rn set r :
  bookings_pk db ->
  select_one (fun x => Bookings.booking_id x = id) (bookings db) = Some B ->
  (forall b, Bookings.booking_id (set b) = Bookings.booking_id b) ->
  checked_in_on
    (mkDB r (update_where (fun x => Bookings.booking_id x = id) set
               (bookings db))) rn <->
  others_checked_in db id rn
  \/ (Bookings.status (set B) = "CheckedIn"
      /\ Bookings.room_number (set B) = rn).
Proof.
  intros Hpk Hsel Hk. rewrite checked_in_on_iff. unfold others_checked_in.
  destruct (select_one_Some _ _ _ Hsel) as [HB Hid]. simpl. split.
  - intros (b' & Hb' & Hr & Hs).
    apply elem_of_update_where in Hb' as (b & Hb & ->).
    destruct (decide (Bookings.booking_id b = id)) as [Hb_id|Hne].
    + rewrite (selected_row id db B b Hpk Hsel Hb Hb_id) in *. tauto.
    + left. eauto.
  - intros [(b & Hb & Hne & Hr & Hs)|[Hs Hr]].
    + exists b. split; [|tauto]. apply elem_of_update_where.
      exists b. by rewrite decide_False.
    + exists (set B). split; [|tauto]. apply elem_of_update_where.
      exists B. by rewrite decide_True.
Qed.

(** The general step: the selected booking leaves a room, or not, and
    enters a room, or not; the room it leaves is set Available, then the
    room it enters Occupied; nobody else stays in the room it leaves. *)
Lemma room_status_ok_transition db db' (others : string -> Prop)
    (old_in new_in : Prop) `{!Decision old_in, !Decision new_in}
    (old_room new_room : string) :
  (forall rn, checked_in_on db rn <-> others rn \/ (old_in /\ old_room = rn)) ->
  (forall rn, checked_in_on db' rn
              <-> others rn \/ (new_in /\ new_room = rn)) ->
  (old_in -> ~ others old_room) ->
  rooms db'
  = (let t1 := if decide old_in
               then with_room_status old_room "Available" (rooms db)
               else rooms db in
     if decide new_in then with_room_status new_room "Occupied" t1 else t1) ->
  room_status_ok db -> room_status_ok db'.
Proof.
  intros Hold Hnew Hsole Hrooms Hok. unfold room_status_ok in *.
  rewrite Forall_forall in Hok. apply Forall_forall. intros r' Hr'.
  rewrite Hrooms in Hr'. clear Hrooms.
  assert (Hsrc : exists r, r ∈ rooms db
    /\ Rooms.room_number r' = Rooms.room_number r
    /\ Rooms.status r'
       = if decide (new_in /\ Rooms.room_number r = new_room) then "Occupied"
         else if decide (old_in /\ Rooms.room_number r = old_room)
              then "Available"
              else Rooms.status r).
  { simpl in Hr'. unfold with_room_status in Hr'.
    destruct (decide new_in) as [Hn|Hn], (decide old_in) as [Ho|Ho];
      repeat (apply elem_of_update_where in Hr' as (? & Hr' & ->));
      eexists; (split; [exact Hr'|]);
      repeat (destruct (decide _); simpl in *; try tauto; try congruence). }
  destruct Hsrc as (r & Hr & Hnum & Hst).
  destruct (Hok r Hr) as [Hiff Hrest]. unfold room_ok.
  rewrite Hnum, Hst, Hnew. rewrite Hold in Hiff.
  destruct (decide (new_in /\ Rooms.room_number r = new_room))
    as [[Hn Heq]|Hn].
  - split; [|congruence]. split; auto.
  - destruct (decide (old_in /\ Rooms.room_number r = old_room))
      as [[Ho Heq]|Ho].
    + split; [|auto]. split; [discriminate|].
      intros [Hoth|[? ?]]; [|destruct Hn; split; congruence].
      subst. destruct (Hsole Ho Hoth).
    + split; [|exact Hrest]. rewrite Hiff. split.
      * intros [?|[? ?]]; [auto|]. destruct Ho. split; congruence.
      * intros [?|[? ?]]; [auto|]. destruct Hn. split; congruence.
Qed.

Lemma sole_guest db id B :
  single_occupancy db ->
  select_one (fun r => Bookings.booking_id r = id) (bookings db) = Some B ->
  Bookings.status B = "CheckedIn" ->
  ~ others_checked_in db id (Bookings.room_number B).
Proof.
  intros Hone Hsel Hs (b & Hb & Hne & Hr & Hsb).
  destruct (select_one_Some _ _ _ Hsel) as [HB Hid].
  apply Hne. rewrite <- Hid. by apply Hone.
Qed.

(** An [UPDATE] of the selected booking with the status writes that go
    with it. *)
Lemma room_status_ok_update db id B set t' :
  bookings_pk db ->
  select_one (fun r => Bookings.booking_id r = id) (bookings db) = Some B ->
  (forall b, Bookings.booking_id (set b) = Bookings.booking_id b) ->
  single_occupancy db ->
  t' = (let t1 := if decide (Bookings.status B = "CheckedIn")
                  then with_room_status (Bookings.room_number B) "Available"
                         (rooms db)
                  else rooms db in
        if decide (Bookings.status (set B) = "CheckedIn")
        then with_room_status (Bookings.room_number (set B)) "Occupied" t1
        else t1) ->
  room_status_ok db ->
  room_status_ok
    (mkDB t' (update_where (fun r => Bookings.booking_id r = id) set
                (bookings db))).
Proof.
  intros Hpk Hsel Hk Hone Ht'.
  apply (room_status_ok_transition db _ (others_checked_in db id)
           (Bookings.status B = "CheckedIn")
           (Bookings.status (set B) = "CheckedIn")
           (Bookings.room_number B) (Bookings.room_number (set B))).
  - intros rn. by apply checked_in_on_split.
  - intros rn. by apply checked_in_on_updated.
  - by apply sole_guest.
  - exact Ht'.
Qed.

Lemma rooms_after_eq o db db' :
  succeeds o db db' -> rooms db' = rooms_after o db.
Proof.
  unfold succeeds, rooms_after. rewrite run_eq. destruct o.
  - rewrite add_booking_eq. intros H.
    method_cases H; simpl in H; try congruence.
    by injection H as <-.
  - rewrite update_booking_eq. intros H.
    method_cases H; simpl in H; try congruence.
    by injection H as <-.
  - rewrite check_in_eq. intros H.
    method_cases H; simpl in H; try congruence.
    by injection H as <-.
  - rewrite check_out_eq. intros H.
    method_cases H; simpl in H; try congruence.
    by injection H as <-.
  - rewrite cancel_booking_eq. intros H.
    method_cases H; simpl in H; try congruence.
    by injection H as <-.
Qed.

(** C4, amended.  A successful operation writes room status from the
    transition alone.  [check_in] sets the booking's room to Occupied and
    [check_out] sets it to Available, whatever the status was, Maintenance
    included; [update_booking] sets the old room Available when the old
    status was CheckedIn and then the new room Occupied when the new status
    is CheckedIn; [add_booking] and [cancel_booking] write no room status.
    So where no room has two CheckedIn bookings, a successful operation
    that does not create a CheckedIn booking keeps every room Occupied
    exactly when one of its bookings is CheckedIn, and Available or
    Maintenance otherwise. *)
Theorem room_status_follows_transitions (o : op) (db db' : DB) :
  succeeds o db db' ->
  rooms db' = rooms_after o db
  /\ (bookings_pk db -> room_status_ok db -> single_occupancy db ->
      creates_checked_in o = false ->
      room_status_ok db').
Proof.
  intros Hrun. split; [by apply rooms_after_eq|].
  intros Hpk Hok Hone Hnew. revert Hrun.
  unfold succeeds. rewrite run_eq. destruct o.
  - rewrite add_booking_eq. intros H.
    method_cases H; simpl in H; try congruence.
    injection H as <-. simpl in Hnew. apply bool_decide_eq_false in Hnew.
    apply (room_status_ok_transition db _ (checked_in_on db) False False
             "" ""); auto; try tauto.
    intros rn. rewrite !checked_in_on_iff. simpl. split.
    + intros (b & Hb & Hr & Hs). apply elem_of_app in Hb as [Hb|Hb].
      * left. eauto.
      * apply list_elem_of_singleton in Hb. subst b. simpl in Hs. congruence.
    + intros [(b & Hb & Hr & Hs)|[[] _]]. exists b.
      split; [apply elem_of_app; auto|auto].
  - rewrite update_booking_eq. intros H.
    method_cases H; simpl in H; try congruence.
    injection H as <-. by apply (room_status_ok_update db _ r).
  - rewrite check_in_eq. intros H.
    method_cases H; simpl in H; try congruence.
    injection H as <-. apply (room_status_ok_update db _ r); auto.
    simpl. repeat case_decide; congruence.
  - rewrite check_out_eq. intros H.
    method_cases H; simpl in H; try congruence.
    injection H as <-. apply (room_status_ok_update db _ r); auto.
    simpl. repeat case_decide; congruence.
  - rewrite cancel_booking_eq. intros H.
    method_cases H; simpl in H; try congruence.
    injection H as <-. apply (room_status_ok_update db _ r); auto.
    simpl. repeat case_decide; congruence.
Qed.

Lemma room_status_follows_transitions_witness : room_status_ok db_checked_out.
Proof.
  apply (room_status_follows_transitions (CheckOut "B50001")
           db_checked_in db_checked_out).
  - vm_compute. reflexivity.
  - apply (bool_decide_unpack _). vm_compute. exact I.
  - apply (bool_decide_unpack _). vm_compute. exact I.
  - intros a b Ha Hb _ _ _. simpl in Ha, Hb.
    apply list_elem_of_singleton in Ha, Hb. congruence.
  - reflexivity.
Defined.

(** ** Reports *)

Lemma report_step_occupied S E r b :
  occupied_nights (report_step S E r b)
  = occupied_nights r
    + (if decide (occupies b) then nights_in_window S E b else 0).
Proof.
  unfold report_step, nights_in_window, occupies.
  destruct (decide (Z.max _ _ < Z.min _ _)) as [Hlt|Hge];
    destruct (decide (Bookings.status b ∈ _)) as [Hs|Hs]; clear Hs;
    repeat case_decide; simpl; lia.
Qed.


Lemma report_loop_occupied S E t r :
  occupied_nights (foldl (report_step S E) r t)
  = occupied_nights r + Zsum (nights_in_window S E <$> filter occupies t).
Proof.
  revert r. induction t as [|x t IH]; intros r.
  - change (occupied_nights r = occupied_nights r + 0). lia.
  - change (foldl (report_step S E) r (x :: t))
      with (foldl (report_step S E) (report_step S E r x) t).
    rewrite IH, report_step_occupied, filter_cons.
    destruct (decide (occupies x)) as [Ho|Ho]; clear Ho.
    + rewrite fmap_cons.
      change (Zsum (?a :: ?l)) with (a + Zsum l). lia.
    + lia.
Qed.







(** * Proofs for the rest of the manager *)

(** ** Availability of a room over ranges of nights *)

Lemma available_result_true rn s e x db :
  result (is_room_available rn s e x) db = Returned true <->
  forall b, b ∈ bookings db -> blocks rn s e b ->
            truthy x = true /\ Some (Bookings.booking_id b) = x.
Proof.
  rewrite <- is_room_available_true, is_room_available_eq.
  unfold result. simpl. split; congruence.
Qed.

Lemma available_result_bool rn s e x db :
  result (is_room_available rn s e x) db
  = Returned (bool_decide (overlap_count rn s e x db = 0)).
Proof. reflexivity. Qed.

Lemma blocks_within rn s e s' e' b :
  s <= s' -> e' <= e -> blocks rn s' e' b -> blocks rn s e b.
Proof.
  intros Hs He (Hrn & Hst & Hout & Hin). repeat split; auto; clear Hst; lia.
Qed.

(** X1. A room that [is_room_available] reports free for a range of nights
    is reported free for every range inside it, with the same booking to
    ignore. *)
Theorem available_within (db : DB) (rn : string) (s e s' e' : date)
    (x : option string) :
  s <= s' -> e' <= e ->
  result (is_room_available rn s e x) db = Returned true ->
  result (is_room_available rn s' e' x) db = Returned true.
Proof.
  intros Hs He. rewrite !available_result_true. intros H b Hb Hbl.
  apply H; [exact Hb|]. by apply (blocks_within rn s e s' e').
Qed.

Lemma available_within_witness :
  result (is_room_available "101" 13 15 None) db_one = Returned true.
Proof.
  apply (available_within db_one "101" 12 20 13 15 None); [lia | lia |].
  vm_compute. reflexivity.
Defined.

(** X2. Where every stored stay ends after it starts, a room free from [s]
    to [m] and free from [m] to [e] is free from [s] to [e]: no booking
    blocks the joined range without blocking one of its parts. *)
Theorem available_adjacent (db : DB) (rn : string) (s m e : date)
    (x : option string) :
  store_ok db ->
  result (is_room_available rn s m x) db = Returned true ->
  result (is_room_available rn m e x) db = Returned true ->
  result (is_room_available rn s e x) db = Returned true.
Proof.
  intros (_ & _ & _ & Hval). rewrite !available_result_true.
  intros H1 H2 b Hb (Hrn & Hst & Hout & Hin).
  rewrite Forall_forall in Hval. pose proof (Hval b Hb) as Hlt.
  destruct (decide (Bookings.check_in_date b < m)) as [Hm|Hm].
  - apply H1; [exact Hb|]. repeat split; auto.
  - apply H2; [exact Hb|]. repeat split; auto. clear Hst Hb. lia.
Qed.

Lemma available_adjacent_witness :
  result (is_room_available "101" 12 20 None) db_one = Returned true.
Proof.
  apply (available_adjacent db_one "101" 12 15 20 None).
  - apply (bool_decide_unpack _). vm_compute. exact I.
  - vm_compute. reflexivity.
  - vm_compute. reflexivity.
Defined.

(** X3. After a successful [add_booking] of room [rn] from [i] to [o], a
    range of nights of a room is free exactly when it was free before and
    the new booking does not block it: the new booking blocks the ranges
    of [rn] that start before [o] and end after [i], when its status is
    Confirmed or CheckedIn, and nothing otherwise. *)
Theorem booked_nights_taken (draw : Z) (c rn : string) (i o : date)
    (s : string) (db : DB) (msg : string) (db' : DB) :
  add_booking draw c rn i o s db = (Returned (true, msg), db') ->
  forall (rn' : string) (s' e' : date),
    result (is_room_available rn' s' e' None) db' = Returned true <->
    result (is_room_available rn' s' e' None) db = Returned true
    /\ ~ (rn' = rn /\ s ∈ ["Confirmed"; "CheckedIn"] /\ s' < o /\ i < e').
Proof.
  intros Hadd rn' s' e'.
  apply add_booking_success in Hadd as (r & _ & _ & _ & _ & ->).
  rewrite !available_result_true. simpl. split.
  - intros H. split.
    + intros b Hb. apply H. apply elem_of_app. by left.
    + intros (-> & Hs & Hlo & Hhi).
      set (new := Bookings.mk ("B" +:+ pretty draw) c rn i o s
                    (Rooms.price r)).
      assert (Hin : new ∈ bookings db ++ [new])
        by (apply elem_of_app; right; by apply list_elem_of_singleton).
      assert (Hbl : blocks rn s' e' new)
        by (repeat split; auto; simpl; clear Hs; lia).
      destruct (H new Hin Hbl) as [Ht _]. discriminate.
  - intros [H Hnew] b Hb Hbl. apply elem_of_app in Hb as [Hb|Hb]; [auto|].
    apply list_elem_of_singleton in Hb. subst b.
    destruct Hbl as (Hrn & Hst & Hout & Hin). simpl in *.
    destruct Hnew. repeat split; auto; clear Hst; lia.
Qed.

Lemma booked_nights_taken_witness :
  result (is_room_available "102" 12 14 None)
    (final (add_booking 50002 "C1000" "102" 10 12 "Confirmed") db_one)
  = Returned true.
Proof.
  apply (booked_nights_taken 50002 "C1000" "102" 10 12 "Confirmed"
           db_one _ _ eq_refl "102" 12 14).
  split; [vm_compute; reflexivity|]. intros (_ & _ & Hlt & _). lia.
Defined.

(** X4. [add_booking] never reads the status of the room: after any
    [update_room_status], to Maintenance or Occupied as well, the call
    returns what it would have returned and stores the same bookings. *)
Theorem add_booking_ignores_room_status (draw : Z) (c rn : string)
    (i o : date) (s rn0 st : string) (db : DB) :
  result (add_booking draw c rn i o s) (final (update_room_status rn0 st) db)
  = result (add_booking draw c rn i o s) db
  /\ bookings (final (add_booking draw c rn i o s)
                 (final (update_room_status rn0 st) db))
     = bookings (final (add_booking draw c rn i o s) db).
Proof.
  change (final (update_room_status rn0 st) db)
    with (mkDB (with_room_status rn0 st (rooms db)) (bookings db)).
  unfold result, final. rewrite !add_booking_eq.
  change (overlap_count rn i o None (mkDB _ (bookings db)))
    with (overlap_count rn i o None db).
  simpl rooms. simpl bookings. unfold with_room_status.
  rewrite (select_one_update_where Rooms.room_number) by reflexivity.
  destruct (decide (i >= o)); [done|].
  destruct (select_one _ (rooms db)) as [r|]; simpl; [|done].
  destruct (bool_decide _); [|done]. destruct (decide (_ ∈ _)); [done|].
  destruct (decide (Rooms.room_number r = rn0)); done.
Qed.

(** X5. [add_booking] raises [IntegrityError] exactly when the dates are
    in order, the room has a record and is free, and the identifier drawn
    for the booking is already stored; the database is then as it was. *)
Theorem add_booking_raises_iff (draw : Z) (c rn : string) (i o : date)
    (s : string) (db : DB) :
  add_booking draw c rn i o s db = (Raised IntegrityError, db) <->
  i < o
  /\ result (get_room_by_number rn) db <> Returned None
  /\ result (is_room_available rn i o None) db = Returned true
  /\ "B" +:+ pretty draw ∈ Bookings.booking_id <$> bookings db.
Proof.
  rewrite add_booking_eq, get_room_by_number_eq, available_result_bool.
  destruct (decide (i >= o)).
  { split; [discriminate | intros [? _]; lia]. }
  destruct (select_one _ (rooms db)) as [r|].
  2: { split; [discriminate | intros (_ & H & _); by destruct H]. }
  destruct (bool_decide _).
  2: { split; [discriminate | intros (_ & _ & H & _); discriminate]. }
  destruct (decide (_ ∈ _)) as [Hin|Hin].
  - split; [|reflexivity]. intros _.
    assert (Hlt : i < o) by (clear Hin; lia).
    split; [exact Hlt|]. split; [discriminate|]. by split.
  - split; [discriminate | intros (_ & _ & _ & H); by destruct Hin].
Qed.

(** ** Availability along the life cycle *)

Lemma release_overlap_count id S db r rn s e :
  truthy (Some id) = true ->
  (S ∉ ["Confirmed"; "CheckedIn"]) ->
  overlap_count rn s e None
    (mkDB r (with_booking_status id S (bookings db))) = 0
  <-> overlap_count rn s e (Some id) db = 0.
Proof.
  intros Hid HS. rewrite !overlap_count_zero. simpl. split.
  - intros H b Hb Hbl. split; [exact Hid|].
    destruct (decide (Bookings.booking_id b = id)) as [->|Hne]; [done|].
    destruct (H b) as [Ht _]; [|exact Hbl|discriminate].
    apply elem_of_update_where. exists b. split; [exact Hb|].
    by rewrite decide_False.
  - intros H b' Hb' Hbl.
    apply elem_of_update_where in Hb' as (b & Hb & ->).
    destruct (decide (Bookings.booking_id b = id)) as [Heq|Hne].
    + destruct Hbl as (_ & Hst & _). by destruct HS.
    + destruct (H b Hb Hbl) as [_ Hx]. congruence.
Qed.

(** X6. Cancelling a booking or checking it out frees its nights: after
    the call, a range of nights of a room is free exactly when it was free
    before with that booking ignored. *)
Theorem release_frees_nights (id : string) (o : op) (db db' : DB) :
  store_ok db ->
  o = CancelBooking id \/ o = CheckOut id ->
  succeeds o db db' ->
  forall (rn : string) (s e : date),
    result (is_room_available rn s e None) db'
    = result (is_room_available rn s e (Some id)) db.
Proof.
  intros Hok Ho Hrun rn s e. rewrite !available_result_bool. f_equal.
  apply bool_decide_ext. unfold succeeds in Hrun. rewrite run_eq in Hrun.
  destruct Ho as [-> | ->].
  - rewrite cancel_booking_eq in Hrun. method_cases Hrun; try congruence.
    injection Hrun as <-. apply release_overlap_count.
    + by eapply truthy_id.
    + rewrite !elem_of_cons, elem_of_nil. intros [|[|[]]]; discriminate.
  - rewrite check_out_eq in Hrun. method_cases Hrun; try congruence.
    injection Hrun as <-. apply release_overlap_count.
    + by eapply truthy_id.
    + rewrite !elem_of_cons, elem_of_nil. intros [|[|[]]]; discriminate.
Qed.

Lemma release_frees_nights_witness :
  result (is_room_available "101" 10 12 None)
    (final (cancel_booking "B50001") db_one)
  = Returned true.
Proof.
  rewrite (release_frees_nights "B50001" (CancelBooking "B50001") db_one
             (final (cancel_booking "B50001") db_one)).
  - vm_compute. reflexivity.
  - apply (bool_decide_unpack _). vm_compute. exact I.
  - by left.
  - vm_compute. reflexivity.
Defined.

(** X7. Checking a booking in changes no availability: the booking blocks
    the same nights as CheckedIn as it did as Confirmed. *)
Theorem check_in_keeps_availability (id : string) (db db' : DB) :
  bookings_pk db ->
  check_in id db = (Returned true, db') ->
  forall (rn : string) (s e : date) (x : option string),
    result (is_room_available rn s e x) db'
    = result (is_room_available rn s e x) db.
Proof.
  intros Hpk Hrun rn s e x. rewrite !available_result_bool. f_equal.
  apply bool_decide_ext. rewrite check_in_eq in Hrun.
  method_cases Hrun; try congruence. injection Hrun as <-.
  rewrite !overlap_count_zero. simpl. split.
  - intros H b Hb (Hrn & Hst & Hout & Hin).
    destruct (decide (Bookings.booking_id b = id)) as [Heq|Hne].
    + destruct (H (set_booking_status "CheckedIn" b)) as [Ht Hx]; [| |done].
      * apply elem_of_update_where. exists b. split; [exact Hb|].
        by rewrite decide_True.
      * repeat split; auto. simpl. apply elem_of_cons. right.
        apply elem_of_cons. by left.
    + apply H; [|by repeat split].
      apply elem_of_update_where. exists b. split; [exact Hb|].
      by rewrite decide_False.
  - intros H b' Hb' Hbl.
    apply elem_of_update_where in Hb' as (b0 & Hb0 & ->).
    destruct (decide (Bookings.booking_id b0 = id)) as [Heq|Hne].
    + assert (b0 = r) as -> by (by eapply selected_row).
      destruct Hbl as (Hrn & _ & Hout & Hin). simpl in *.
      apply (H r Hb0). repeat split; auto.
      rewrite e0. apply elem_of_cons. by left.
    + by apply H.
Qed.

Lemma check_in_keeps_availability_witness :
  result (is_room_available "101" 11 13 None)
    (final (check_in "B50001") db_one)
  = Returned false.
Proof.
  rewrite (check_in_keeps_availability "B50001" db_one
             (final (check_in "B50001") db_one)).
  - vm_compute. reflexivity.
  - apply (bool_decide_unpack _). vm_compute. exact I.
  - vm_compute. reflexivity.
Defined.

(** ** The life cycle over sequences of calls *)

Lemma Forall2_elem_of_l {A B} (Q : A -> B -> Prop) l k x :
  Forall2 Q l k -> x ∈ l -> exists y, y ∈ k /\ Q x y.
Proof.
  induction 1 as [|a b l k Hab _ IH]; intros Hx.
  - by apply elem_of_nil in Hx.
  - apply elem_of_cons in Hx as [->|Hx].
    + exists b. split; [apply elem_of_cons; by left | exact Hab].
    + destruct (IH Hx) as (y & Hy & Hq). exists y.
      split; [apply elem_of_cons; by right | exact Hq].
Qed.

Lemma moved_on_refl b : moved_on b b.
Proof. split; [by destruct b | apply rtc_refl]. Qed.

Lemma moved_on_trans a b c : moved_on a b -> moved_on b c -> moved_on a c.
Proof.
  intros [Hb Hab] [Hc Hbc]. split; [|by etrans].
  rewrite Hc at 1. rewrite Hb. reflexivity.
Qed.

Lemma moved_on_status id s0 s db B :
  bookings_pk db ->
  select_one (fun r => Bookings.booking_id r = id) (bookings db) = Some B ->
  Bookings.status B = s0 ->
  lifecycle_step s0 s ->
  Forall2 moved_on (bookings db) (with_booking_status id s (bookings db)).
Proof.
  intros Hpk Hsel Hs0 Hstep. apply Forall2_update_where. intros r Hr.
  destruct (decide (Bookings.booking_id r = id)) as [Hid|Hid];
    [|apply moved_on_refl].
  assert (r = B) as -> by (by eapply selected_row).
  split; [reflexivity|]. simpl. rewrite Hs0. by apply rtc_once.
Qed.

Lemma moved_on_run o db :
  bookings_pk db -> is_transition o = true ->
  Forall2 moved_on (bookings db) (bookings (final (run o) db)).
Proof.
  intros Hpk Ho.
  assert (Hsame : Forall2 moved_on (bookings db) (bookings db))
    by (apply Forall_Forall2_diag, Forall_forall; intros;
        apply moved_on_refl).
  unfold final. rewrite run_eq. destruct o; try discriminate.
  - rewrite check_in_eq.
    destruct (select_one _ _) as [B|] eqn:Hsel; [|exact Hsame].
    destruct (decide _) as [Hst|]; [|exact Hsame]. simpl.
    eapply moved_on_status; eauto. constructor.
  - rewrite check_out_eq.
    destruct (select_one _ _) as [B|] eqn:Hsel; [|exact Hsame].
    destruct (decide _) as [Hst|]; [|exact Hsame]. simpl.
    eapply moved_on_status; eauto. constructor.
  - rewrite cancel_booking_eq.
    destruct (select_one _ _) as [B|] eqn:Hsel; [|exact Hsame].
    destruct (decide _) as [Hst|]; [|exact Hsame]. simpl.
    eapply moved_on_status; eauto. constructor.
Qed.

Lemma terminal_status s s' :
  s = "CheckedOut" \/ s = "Cancelled" -> rtc lifecycle_step s s' -> s' = s.
Proof.
  intros Hs Hrtc. apply rtc_inv in Hrtc as [->|(y & Hstep & _)]; [done|].
  destruct Hs as [-> | ->]; inversion Hstep.
Qed.

(** X8. Under any sequence of [check_in], [check_out] and
    [cancel_booking] calls, whatever each returns, the bookings table
    keeps its rows in place: each booking keeps every column but its
    status, and its status only moves along Confirmed to CheckedIn to
    CheckedOut, or Confirmed to Cancelled. *)
Theorem lifecycle_only_forward (os : list op) (db : DB) :
  bookings_pk db ->
  Forall (fun o => is_transition o = true) os ->
  Forall2 moved_on (bookings db) (bookings (run_each os db)).
Proof.
  revert db. induction os as [|o os IH]; intros db Hpk Hos.
  - apply Forall_Forall2_diag, Forall_forall. intros. apply moved_on_refl.
  - apply Forall_cons in Hos as [Ho Hos].
    change (run_each (o :: os) db) with (run_each os (final (run o) db)).
    eapply Forall2_trans; [apply moved_on_trans | by apply moved_on_run |].
    apply IH; [by apply bookings_pk_run | exact Hos].
Qed.

Lemma lifecycle_only_forward_witness :
  Forall2 moved_on (bookings db_one)
    (bookings (run_each [CheckIn "B50001"; CancelBooking "B50001";
                         CheckOut "B50001"; CheckIn "B50001"] db_one)).
Proof.
  apply lifecycle_only_forward.
  - apply (bool_decide_unpack _). vm_compute. exact I.
  - repeat constructor.
Defined.

(** X9. A booking that is CheckedOut or Cancelled is final for the three
    transitions: no sequence of [check_in], [check_out] and
    [cancel_booking] calls changes its row. *)
Theorem terminal_bookings_stay (os : list op) (db : DB) (b : Bookings.row) :
  bookings_pk db ->
  Forall (fun o => is_transition o = true) os ->
  b ∈ bookings db ->
  Bookings.status b = "CheckedOut" \/ Bookings.status b = "Cancelled" ->
  b ∈ bookings (run_each os db).
Proof.
  revert db. induction os as [|o os IH]; intros db Hpk Hos Hb Hst;
    [exact Hb|].
  apply Forall_cons in Hos as [Ho Hos].
  change (run_each (o :: os) db) with (run_each os (final (run o) db)).
  apply IH; [by apply bookings_pk_run | exact Hos | | exact Hst].
  destruct (Forall2_elem_of_l _ _ _ b (moved_on_run o db Hpk Ho) Hb)
    as (b' & Hb' & Heq & Hrtc).
  apply (terminal_status _ _ Hst) in Hrtc. rewrite Hrtc in Heq.
  replace b with b'; [exact Hb'|]. rewrite Heq. by destruct b.
Qed.

Lemma terminal_bookings_stay_witness :
  Bookings.mk "B50001" "C1000" "101" 10 12 "Cancelled" 100%float
  ∈ bookings (run_each [CheckIn "B50001"; CheckOut "B50001";
                        CancelBooking "B50001"] db_cancelled).
Proof.
  apply terminal_bookings_stay.
  - apply (bool_decide_unpack _). vm_compute. exact I.
  - repeat constructor.
  - vm_compute. apply elem_of_cons. by left.
  - by right.
Defined.

(** X10. No booking operation, whatever it returns, adds or removes a
    room or changes a room's number, type or price: the engine writes
    only the status column of the rooms table. *)
Theorem engine_keeps_room_records (o : op) (db : DB) :
  room_record <$> rooms (final (run o) db) = room_record <$> rooms db.
Proof.
  assert (Hst : forall rn s t,
    room_record <$> with_room_status rn s t = room_record <$> t)
    by (intros; apply update_where_key; reflexivity).
  unfold final. rewrite run_eq.
  destruct o as [draw c rn i o s | id rn i o s | id | id | id].
  - rewrite add_booking_eq.
    destruct (decide _); [done|]. destruct (select_one _ _); [|done].
    destruct (bool_decide _); [|done]. by destruct (decide _).
  - rewrite update_booking_eq.
    destruct (select_one _ _) as [B|]; [|done].
    destruct (decide _); [done|]. destruct (bool_decide _); [|done].
    simpl. unfold moved_rooms.
    destruct (decide (s = "CheckedIn")) as [Hs|Hs]; clear Hs;
      destruct (decide (Bookings.status B = "CheckedIn")) as [Hb|Hb];
      clear Hb; by rewrite ?Hst.
  - rewrite check_in_eq. destruct (select_one _ _); [|done].
    destruct (decide _); [|done]. simpl. by rewrite Hst.
  - rewrite check_out_eq. destruct (select_one _ _); [|done].
    destruct (decide _); [|done]. simpl. by rewrite Hst.
  - rewrite cancel_booking_eq. destruct (select_one _ _); [|done].
    by destruct (decide _).
Qed.

(** ** Modifying a booking *)

(** X11. For a database the engine built, [update_booking] succeeds
    exactly when the booking exists, the new check-in is before the new
    check-out and no other booking blocks the new room for the new nights:
    neither the new status nor the record or status of the new room is
    looked at. *)
Theorem update_booking_succeeds_iff (id rn : string) (i o : date)
    (s : string) (db : DB) :
  store_ok db ->
  (exists msg db',
     update_booking id rn i o s db = (Returned (true, msg), db'))
  <-> (exists B, result (get_booking_by_id id) db = Returned (Some B))
      /\ i < o
      /\ (forall x, x ∈ bookings db -> Bookings.booking_id x <> id ->
                    ~ blocks rn i o x).
Proof.
  intros Hok. split.
  - intros (msg & db' & Hrun).
    apply update_booking_success in Hrun as (B & Hsel & Hlt & Hav & _).
    split; [exists B; by apply get_booking_by_id_Some|].
    split; [exact Hlt|]. by apply (overlap_count_others db id B).
  - intros ((B & HB) & Hlt & Hfree). apply get_booking_by_id_Some in HB.
    do 2 eexists. apply (update_booking_available id rn i o s db B); auto.
    by apply (overlap_count_others db id B).
Qed.

Lemma update_booking_succeeds_iff_witness :
  exists msg db',
    update_booking "B50001" "102" 10 14 "Cancelled" db_one
    = (Returned (true, msg), db').
Proof.
  apply (update_booking_succeeds_iff "B50001" "102" 10 14 "Cancelled"
           db_one).
  - apply (bool_decide_unpack _). vm_compute. exact I.
  - split; [eexists; vm_compute; reflexivity|]. split; [lia|].
    intros x Hx Hne. simpl in Hx. apply list_elem_of_singleton in Hx.
    subst x. by destruct Hne.
Defined.

(** ** Room records *)

Lemma update_where_none {R} (P : R -> Prop)
    `{Pdec : !forall r, Decision (P r)} (set : R -> R) (t : list R) :
  (forall r, r ∈ t -> ~ P r) -> update_where P set t = t.
Proof.
  unfold update_where. induction t as [|x t IH]; intros H; [reflexivity|].
  rewrite fmap_cons, IH
    by (intros r Hr; apply H; apply elem_of_cons; by right).
  rewrite decide_False; [reflexivity|].
  apply H. apply elem_of_cons. by left.
Qed.

(** X12. [update_room_details] and [update_room_status] on a room number
    without a record return True and leave the database as it was: the
    missing room is not reported. *)
Theorem update_missing_room (rn ty : string) (p : float) (st : string)
    (db : DB) :
  result (get_room_by_number rn) db = Returned None ->
  update_room_details rn ty p st db = (Returned true, db)
  /\ update_room_status rn st db = (Returned true, db).
Proof.
  rewrite get_room_by_number_eq. intros H. injection H as H.
  pose proof (proj1 (select_one_None _ _) H) as Hnone.
  rewrite update_room_details_eq.
  unfold update_room_status, bind, execute, ret.
  rewrite decide_True by (by apply select_count_zero).
  destruct (real_column p); rewrite !update_where_none by exact Hnone;
    by destruct db.
Qed.

Lemma update_missing_room_witness :
  update_room_details "999" "Suite" 250%float "Maintenance" db_one
  = (Returned true, db_one)
  /\ update_room_status "999" "Maintenance" db_one = (Returned true, db_one).
Proof.
  apply update_missing_room. vm_compute. reflexivity.
Defined.

(** X13. On a room with a record, [update_room_details] with a price
    that is a number returns True, after which [get_room_by_number]
    returns the room under the same number with the new type and status
    and the price as the column stores it: the price given, a zero without
    its sign.  Every other room and every booking is as it was, the price
    stored with a booking of the room included.  With NaN as the price
    the call raises [IntegrityError] and the database is as it was. *)
Theorem update_room_details_round_trip (rn ty : string) (p : float)
    (st : string) (db : DB) (r : Rooms.row) :
  result (get_room_by_number rn) db = Returned (Some r) ->
  (PrimFloat.is_nan p = false ->
   result (update_room_details rn ty p st) db = Returned true
   /\ result (get_room_by_number rn)
        (final (update_room_details rn ty p st) db)
      = Returned
          (Some (Rooms.mk rn ty
                   (if PrimFloat.is_zero p then 0%float else p) st))
   /\ (forall rn', rn' <> rn ->
         result (get_room_by_number rn')
           (final (update_room_details rn ty p st) db)
         = result (get_room_by_number rn') db)
   /\ bookings (final (update_room_details rn ty p st) db) = bookings db)
  /\ (PrimFloat.is_nan p = true ->
      update_room_details rn ty p st db = (Raised IntegrityError, db)).
Proof.
  rewrite get_room_by_number_eq. intros H. injection H as H. split.
  - intros Hnan. unfold result, final. rewrite update_room_details_eq.
    assert (Hcol : real_column p
                   = Some (if PrimFloat.is_zero p then 0%float else p))
      by (unfold real_column; rewrite Hnan; by destruct (PrimFloat.is_zero p)).
    rewrite Hcol. simpl. split; [reflexivity|]. split; [|split].
    + unfold get_room_by_number, query. simpl.
      rewrite (select_one_update_where Rooms.room_number) by reflexivity.
      rewrite H. simpl. apply select_one_Some in H as [_ Hrn].
      rewrite decide_True by exact Hrn. unfold set_room_details.
      by rewrite Hrn.
    + intros rn' Hne. unfold get_room_by_number, query. simpl.
      rewrite (select_one_update_where Rooms.room_number) by reflexivity.
      destruct (select_one (fun r0 => Rooms.room_number r0 = rn') (rooms db))
        as [r'|] eqn:Hr'; [simpl|done].
      apply select_one_Some in Hr' as [_ Hrn'].
      rewrite decide_False; [done | congruence].
    + reflexivity.
  - intros Hnan. rewrite update_room_details_eq. unfold real_column.
    rewrite Hnan. rewrite decide_False; [reflexivity|].
    intros Hzero. apply select_one_Some in H as [Hr Hrn].
    by destruct (proj1 (select_count_zero _ _) Hzero r Hr).
Qed.

Lemma update_room_details_round_trip_witness :
  result (update_room_details "101" "Suite" 250%float "Maintenance") db_one
  = Returned true
  /\ result (get_room_by_number "101")
       (final (update_room_details "101" "Suite" 250%float "Maintenance")
          db_one)
     = Returned (Some (Rooms.mk "101" "Suite" 250%float "Maintenance"))
  /\ (forall rn', rn' <> "101" ->
        result (get_room_by_number rn')
          (final (update_room_details "101" "Suite" 250%float "Maintenance")
             db_one)
        = result (get_room_by_number rn') db_one)
  /\ bookings
       (final (update_room_details "101" "Suite" 250%float "Maintenance")
          db_one)
     = bookings db_one.
Proof.
  apply (proj1 (update_room_details_round_trip "101" "Suite" 250%float
                  "Maintenance" db_one
                  (Rooms.mk "101" "Standard" 100%float "Available")
                  eq_refl)).
  reflexivity.
Defined.

(** ** Room numbers *)

Lemma digit_value_char (d : N) :
  (d < 10)%N -> digit_value (pretty_N_char d) = Some (Z.of_N d).
Proof.
  intros Hd.
  assert (d = 0 \/ d = 1 \/ d = 2 \/ d = 3 \/ d = 4 \/ d = 5 \/ d = 6
          \/ d = 7 \/ d = 8 \/ d = 9)%N as Hcases by lia.
  repeat destruct Hcases as [->|Hcases]; try subst d; reflexivity.
Qed.

(** The digits [pretty] writes read back as the number. *)
Lemma digits_prefix_pretty (x : N) :
  forall s, exists m : Z, forall acc,
    digits_prefix acc (pretty_N_go x s)
    = digits_prefix (acc * m + Z.of_N x) s.
Proof.
  induction (N.lt_wf_0 x) as [x _ IH]. intros s.
  destruct (decide (x = 0)%N) as [->|Hx].
  - exists 1. intros acc. rewrite pretty_N_go_0. f_equal. lia.
  - rewrite pretty_N_go_step by lia.
    destruct (IH (x `div` 10)%N) with
      (s := String (pretty_N_char (x `mod` 10)) s) as [m Hm].
    { apply N.div_lt; lia. }
    exists (m * 10). intros acc. rewrite Hm. simpl.
    rewrite digit_value_char by (apply N.mod_lt; lia). f_equal.
    rewrite (N.div_mod x 10) at 3 by lia. lia.
Qed.

Lemma pretty_N_go_starts (x : N) :
  forall s, starts_with_digit s -> starts_with_digit (pretty_N_go x s).
Proof.
  induction (N.lt_wf_0 x) as [x _ IH]. intros s Hs.
  destruct (decide (x = 0)%N) as [->|Hx].
  - by rewrite pretty_N_go_0.
  - rewrite pretty_N_go_step by lia. apply IH; [apply N.div_lt; lia|].
    simpl. exists (x `mod` 10)%N. split; [apply N.mod_lt; lia | done].
Qed.

Lemma pretty_pos_starts (p : positive) :
  starts_with_digit (pretty_N_go (N.pos p) "").
Proof.
  rewrite pretty_N_go_step by lia. apply pretty_N_go_starts. simpl.
  exists (N.pos p `mod` 10)%N. split; [apply N.mod_lt; lia | done].
Qed.

Lemma cast_integer_digits (s : string) :
  starts_with_digit s ->
  cast_integer s
  = Z.max (- 2 ^ 63) (Z.min (digits_prefix 0 s) (2 ^ 63 - 1)).
Proof.
  destruct s as [|c s]; [intros []|]. intros (d & Hd & ->).
  assert (d = 0 \/ d = 1 \/ d = 2 \/ d = 3 \/ d = 4 \/ d = 5 \/ d = 6
          \/ d = 7 \/ d = 8 \/ d = 9)%N as Hcases by lia.
  repeat destruct Hcases as [->|Hcases]; try subst d; reflexivity.
Qed.

Lemma cast_integer_pretty_pos (p : positive) :
  Z.pos p <= 2 ^ 63 - 1 -> cast_integer (pretty (Z.pos p)) = Z.pos p.
Proof.
  intros Hp.
  change (pretty (Z.pos p)) with (pretty_N_go (N.pos p) "").
  rewrite cast_integer_digits by apply pretty_pos_starts.
  destruct (digits_prefix_pretty (N.pos p) "") as [m Hm].
  rewrite Hm. simpl digits_prefix. lia.
Qed.

(** X14. SQLite's cast of a room number to an integer reads back what
    Python's [str] wrote: for every 64-bit integer [n], casting the text
    of [n] gives [n]. *)
Theorem cast_integer_pretty (n : Z) :
  - 2 ^ 63 <= n <= 2 ^ 63 - 1 -> cast_integer (pretty n) = n.
Proof.
  intros Hn. destruct n as [|p|p].
  - reflexivity.
  - apply cast_integer_pretty_pos. lia.
  - change (pretty (Z.neg p)) with (String "-" (pretty_N_go (N.pos p) "")).
    unfold cast_integer.
    change (skip_spaces (String "-" ?s)) with (String "-" s).
    cbv beta iota zeta.
    destruct (digits_prefix_pretty (N.pos p) "") as [m Hm].
    rewrite Hm. simpl digits_prefix. lia.
Qed.

Lemma cast_integer_pretty_witness : cast_integer (pretty 110) = 110.
Proof. apply cast_integer_pretty. lia. Defined.

Lemma foldl_max_spec (ns : list Z) :
  forall n, foldl Z.max n ns ∈ n :: ns
            /\ forall x, x ∈ n :: ns -> x <= foldl Z.max n ns.
Proof.
  induction ns as [|a ns IH]; intros n.
  - simpl. split; [apply elem_of_cons; by left|].
    intros x Hx. apply list_elem_of_singleton in Hx. subst x. lia.
  - change (foldl Z.max n (a :: ns)) with (foldl Z.max (Z.max n a) ns).
    destruct (IH (Z.max n a)) as [Hin Hle]. split.
    + apply elem_of_cons in Hin as [Hin|Hin].
      * rewrite Hin. clear. destruct (Z.max_spec n a) as [[_ ->]|[_ ->]].
        -- apply elem_of_cons. right. apply elem_of_cons. by left.
        -- apply elem_of_cons. by left.
      * apply elem_of_cons. right. apply elem_of_cons. by right.
    + intros x Hx.
      assert (Hmax : Z.max n a <= foldl Z.max (Z.max n a) ns)
        by (apply Hle; apply elem_of_cons; by left).
      apply elem_of_cons in Hx as [->|Hx]; [clear - Hmax; lia|].
      apply elem_of_cons in Hx as [->|Hx]; [clear - Hmax; lia|].
      apply Hle. apply elem_of_cons. by right.
Qed.

Lemma add_room_eq ty p db :
  add_room ty p db
  = insert_room
      (Rooms.mk
         match max_room_number (rooms db) with
         | Some m => if decide (m <> 0) then pretty (m + 1) else "101"
         | None => "101"
         end ty p "Available") db.
Proof. reflexivity. Qed.

Lemma numbered_elem t r :
  numbered t -> r ∈ t ->
  Rooms.room_number r = pretty (cast_integer (Rooms.room_number r))
  /\ 0 < cast_integer (Rooms.room_number r) < 2 ^ 63 - 1.
Proof. unfold numbered. rewrite Forall_forall. auto. Qed.

Lemma numbered_snoc t n ty p st :
  numbered t -> 0 < n < 2 ^ 63 - 1 ->
  numbered (t ++ [Rooms.mk (pretty n) ty p st]).
Proof.
  intros Ht Hn. apply Forall_app. split; [exact Ht|].
  apply Forall_singleton. simpl.
  destruct n as [|q|q]; try lia.
  rewrite cast_integer_pretty_pos by lia. split; [reflexivity | lia].
Qed.

(** X15. On a rooms table whose numbers are numerals of positive
    integers, [add_room] with a price that is a number never raises: it
    appends one room, Available, with the price as the column stores it
    (the price given, a zero without its sign), numbered one more than
    the highest room number, so above every room number there is; on the
    empty table the number is 101.  The table stays so numbered as long
    as the numbers fit in 64 bits.  With NaN as the price the call raises
    [IntegrityError] and the database is as it was. *)
Theorem add_room_next (ty : string) (p : float) (db : DB) :
  numbered (rooms db) ->
  (PrimFloat.is_nan p = true ->
   add_room ty p db = (Raised IntegrityError, db))
  /\ (PrimFloat.is_nan p = false ->
      exists n : Z,
        add_room ty p db
        = (Returned tt,
           mkDB (rooms db
                 ++ [Rooms.mk (pretty n) ty
                       (if PrimFloat.is_zero p then 0%float else p)
                       "Available"])
                (bookings db))
        /\ (forall r, r ∈ rooms db ->
                      cast_integer (Rooms.room_number r) < n)
        /\ (rooms db = [] -> n = 101)
        /\ (rooms db <> [] ->
            exists r, r ∈ rooms db /\ Rooms.room_number r = pretty (n - 1))
        /\ (n < 2 ^ 63 - 1 ->
            numbered
              (rooms db
               ++ [Rooms.mk (pretty n) ty
                     (if PrimFloat.is_zero p then 0%float else p)
                     "Available"]))).
Proof.
  intros Hnum. rewrite add_room_eq. unfold insert_room.
  simpl Rooms.price. simpl Rooms.type. simpl Rooms.status. split.
  { intros Hnan. unfold real_column. by rewrite Hnan. }
  intros Hnan.
  assert (Hcol : real_column p
                 = Some (if PrimFloat.is_zero p then 0%float else p))
    by (unfold real_column; rewrite Hnan; by destruct (PrimFloat.is_zero p)).
  rewrite Hcol. unfold max_room_number.
  destruct (rooms db) as [|r0 t] eqn:Hrooms.
  - exists 101. rewrite !fmap_nil. cbv beta iota.
    rewrite decide_False by apply not_elem_of_nil.
    split; [reflexivity|]. split; [intros r Hr; by apply elem_of_nil in Hr|].
    split; [done|]. split; [done|]. intros _.
    apply (numbered_snoc [] 101); [constructor | lia].
  - rewrite fmap_cons.
    set (c := fun r => cast_integer (Rooms.room_number r)).
    set (m := foldl Z.max (c r0) (c <$> t)).
    destruct (foldl_max_spec (c <$> t) (c r0)) as [Hin Hle].
    fold m in Hin, Hle. rewrite <- fmap_cons in Hin, Hle.
    apply list_elem_of_fmap in Hin as (rm & Hm & Hrm).
    destruct (numbered_elem _ rm Hnum Hrm) as [Hcanon Hpos].
    fold (c rm) in Hcanon, Hpos. rewrite <- Hm in Hcanon, Hpos.
    assert (Hbound : forall r, r ∈ r0 :: t -> c r < m + 1).
    { intros r Hr. assert (c r <= m); [|lia].
      apply Hle. apply list_elem_of_fmap. by exists r. }
    exists (m + 1). simpl Rooms.room_number.
    rewrite (decide_True (P := m <> 0)) by (clear - Hpos; lia).
    rewrite decide_False.
    + split; [reflexivity|]. split; [exact Hbound|].
      split; [discriminate|]. split.
      * intros _. exists rm. split; [exact Hrm|].
        replace (m + 1 - 1) with m by lia. exact Hcanon.
      * intros Hfit. apply numbered_snoc; [exact Hnum|].
        clear - Hpos Hfit. lia.
    + intros Hclash. apply list_elem_of_fmap in Hclash as (r & Hr & Hin).
      destruct (numbered_elem _ r Hnum Hin) as [Hr' _].
      rewrite Hr' in Hr. apply (inj pretty) in Hr.
      pose proof (Hbound r Hin) as Hlt. unfold c in Hlt.
      change (m + 1 = cast_integer (Rooms.room_number r)) in Hr.
      clearbody m. clear - Hr Hlt. lia.
Qed.

Lemma add_room_next_witness :
  exists n : Z,
    add_room "Suite" 250%float db_one
    = (Returned tt,
       mkDB (rooms db_one ++ [Rooms.mk (pretty n) "Suite" 250%float
                                "Available"])
            (bookings db_one))
    /\ (forall r, r ∈ rooms db_one ->
                  cast_integer (Rooms.room_number r) < n)
    /\ (rooms db_one = [] -> n = 101)
    /\ (rooms db_one <> [] ->
        exists r, r ∈ rooms db_one /\ Rooms.room_number r = pretty (n - 1))
    /\ (n < 2 ^ 63 - 1 ->
        numbered (rooms db_one ++ [Rooms.mk (pretty n) "Suite" 250%float
                                     "Available"])).
Proof.
  assert (Hnum : numbered (rooms db_one))
    by (apply (bool_decide_unpack _); vm_compute; exact I).
  apply (proj2 (add_room_next "Suite" 250%float db_one Hnum)).
  reflexivity.
Defined.

Lemma add_room_example :
  result (get_room_by_number "103") (final (add_room "Suite" 250%float) db_one)
  = Returned (Some (Rooms.mk "103" "Suite" 250%float "Available")).
Proof. vm_compute. reflexivity. Qed.

(** ** Start-up *)

Lemma real_column_room_types k :
  real_column (room_types k) = Some (room_types k).
Proof. by destruct k. Qed.

Lemma init_empty pick b :
  __init__ pick (mkDB [] b) = (Returned tt, mkDB (sample_rooms pick) b).
Proof.
  cbv -[real_column room_types key_name].
  repeat (rewrite real_column_room_types;
          cbv -[real_column room_types key_name]).
  reflexivity.
Qed.

Lemma init_populated pick db :
  rooms db <> [] -> __init__ pick db = (Returned tt, db).
Proof.
  intros Hne. unfold __init__, _create_tables, _is_db_populated, bind, ret,
    query, select_count.
  destruct (rooms db) as [|r t]; [done|].
  rewrite filter_cons, decide_True by done. rewrite length_cons.
  rewrite bool_decide_eq_true_2 by lia. reflexivity.
Qed.

(** X16. Opening the manager seeds the rooms table only when it is
    empty: then it inserts the ten rooms 101 to 110, each Available and
    priced by the type drawn for it, and touches no booking; on a table
    with a room it changes nothing.  So opening the manager again, with
    whatever draws, leaves the database of the first opening as it is. *)
Theorem init_seeds_once (pick : Z -> room_type_key) (db : DB) :
  (rooms db = [] ->
   __init__ pick db = (Returned tt, mkDB (sample_rooms pick) (bookings db)))
  /\ (rooms db <> [] -> __init__ pick db = (Returned tt, db))
  /\ (forall pick',
        __init__ pick' (final (__init__ pick) db)
        = (Returned tt, final (__init__ pick) db))
  /\ numbered (sample_rooms pick).
Proof.
  assert (H1 : rooms db = [] ->
    __init__ pick db = (Returned tt, mkDB (sample_rooms pick) (bookings db))).
  { destruct db as [r b]. simpl. intros ->. apply init_empty. }
  split; [exact H1|]. split; [apply init_populated|]. split.
  - intros pick'. apply init_populated. unfold final.
    destruct (rooms db) as [|r t] eqn:Hr.
    + by rewrite H1.
    + rewrite init_populated by (by rewrite Hr). simpl. by rewrite Hr.
  - apply (bool_decide_unpack _). vm_compute. exact I.
Qed.

(** ** The rooms on offer *)

Lemma string_leb_trans (a b c : string) :
  String.leb a b = true -> String.leb b c = true -> String.leb a c = true.
Proof.
  unfold String.leb. revert b c.
  induction a as [|x a IH]; intros [|y b] [|z c]; simpl; try done.
  unfold Ascii.compare.
  destruct (N.compare_spec (N_of_ascii x) (N_of_ascii y)) as [Hxy|Hxy|Hxy];
    try done;
    destruct (N.compare_spec (N_of_ascii y) (N_of_ascii z)) as [Hyz|Hyz|Hyz];
    try done;
    destruct (N.compare_spec (N_of_ascii x) (N_of_ascii z)) as [Hxz|Hxz|Hxz];
    try done; try lia.
  apply IH.
Qed.

#[global] Instance room_order_trans : Transitive room_order.
Proof. intros a b c. apply string_leb_trans. Qed.

#[global] Instance room_order_total : Total room_order.
Proof. intros a b. apply String.leb_total. Qed.

Lemma StronglySorted_filter {A} (R : A -> A -> Prop) (P : A -> Prop)
    `{Pdec : !forall x, Decision (P x)} (l : list A) :
  StronglySorted R l -> StronglySorted R (filter P l).
Proof.
  induction 1 as [|x l Hl IH Hx]; [constructor|].
  rewrite filter_cons. destruct (decide (P x)); [|exact IH].
  constructor; [exact IH|]. rewrite Forall_forall in *.
  intros y Hy. apply Hx. apply list_elem_of_filter in Hy. tauto.
Qed.

Lemma rooms_property_eq db :
  rooms_property db = (Returned (merge_sort room_order (rooms db)), db).
Proof. reflexivity. Qed.

Lemma collect_available_eq i o rs db :
  collect_available i o rs db
  = (Returned
       (filter (fun r => Rooms.status r <> "Maintenance"
                         /\ overlap_count (Rooms.room_number r) i o None db
                            = 0) rs),
     db).
Proof.
  induction rs as [|r rs IH]; [reflexivity|].
  rewrite filter_cons. simpl.
  destruct (decide (Rooms.status r = "Maintenance")) as [Hm|Hm].
  - rewrite IH. rewrite decide_False by tauto. reflexivity.
  - unfold bind. rewrite is_room_available_eq, IH. unfold ret.
    destruct (decide (overlap_count (Rooms.room_number r) i o None db = 0))
      as [Hz|Hz].
    + rewrite bool_decide_eq_true_2 by exact Hz.
      rewrite decide_True by tauto. reflexivity.
    + rewrite bool_decide_eq_false_2 by exact Hz.
      rewrite decide_False by tauto. reflexivity.
Qed.

Lemma no_block_iff rn i o db :
  overlap_count rn i o None db = 0
  <-> forall b, b ∈ bookings db -> ~ blocks rn i o b.
Proof.
  rewrite overlap_count_zero. split.
  - intros H b Hb Hbl. destruct (H b Hb Hbl). discriminate.
  - intros H b Hb Hbl. destruct (H b Hb Hbl).
Qed.

(** X17. [get_available_rooms] returns, ordered by room number, exactly
    the rooms that are not under Maintenance and that no Confirmed or
    CheckedIn booking blocks for the nights asked; an Occupied room whose
    guest leaves in time is on the list.  It changes nothing. *)
Theorem get_available_rooms_spec (i o : date) (db : DB) :
  exists l,
    get_available_rooms i o db = (Returned l, db)
    /\ (forall r, r ∈ l <->
          r ∈ rooms db /\ Rooms.status r <> "Maintenance"
          /\ forall b, b ∈ bookings db ->
                       ~ blocks (Rooms.room_number r) i o b)
    /\ StronglySorted room_order l.
Proof.
  eexists. unfold get_available_rooms, bind.
  rewrite rooms_property_eq, collect_available_eq.
  split; [reflexivity|]. split.
  - intros r. rewrite list_elem_of_filter, no_block_iff.
    rewrite merge_sort_Permutation. tauto.
  - apply StronglySorted_filter. apply StronglySorted_merge_sort; apply _.
Qed.

(** X18. A room [get_available_rooms] lists for nights with check-in
    before check-out can be booked for them: [add_booking] with an
    identifier not yet stored succeeds, whatever the status asked, and
    stores the price the list shows for the room. *)
Theorem offered_room_bookable (i o : date) (db : DB) (l : list Rooms.row)
    (r : Rooms.row) (draw : Z) (c s : string) :
  store_ok db ->
  result (get_available_rooms i o) db = Returned l ->
  r ∈ l ->
  i < o ->
  ("B" +:+ pretty draw ∉ Bookings.booking_id <$> bookings db) ->
  add_booking draw c (Rooms.room_number r) i o s db
  = (Returned (true, "Booking " +:+ ("B" +:+ pretty draw) +:+ " confirmed."),
     mkDB (rooms db)
          (bookings db
           ++ [Bookings.mk ("B" +:+ pretty draw) c (Rooms.room_number r) i o
                 s (Rooms.price r)])).
Proof.
  intros (Hpk & _) Hl Hr Hlt Hfresh. unfold result in Hl.
  unfold get_available_rooms, bind in Hl.
  rewrite rooms_property_eq, collect_available_eq in Hl. simpl in Hl.
  injection Hl as <-. apply list_elem_of_filter in Hr as [[_ Hfree] Hr].
  rewrite merge_sort_Permutation in Hr.
  rewrite add_booking_eq. rewrite decide_False by (clear - Hlt; lia).
  destruct (select_one _ (rooms db)) as [r'|] eqn:Hsel.
  - pose proof (select_one_Some _ _ _ Hsel) as [Hr' Hnum].
    assert (r' = r) as ->
      by (apply (pk_row Rooms.room_number (rooms db)); auto).
    rewrite bool_decide_eq_true_2 by exact Hfree.
    by rewrite decide_False.
  - pose proof (proj1 (select_one_None _ _) Hsel) as Hnone.
    by destruct (Hnone r Hr).
Qed.

Lemma offered_room_bookable_witness :
  add_booking 50002 "C1000" "102" 10 12 "Confirmed" db_one
  = (Returned (true, "Booking B50002 confirmed."),
     mkDB (rooms db_one)
          (bookings db_one
           ++ [Bookings.mk "B50002" "C1000" "102" 10 12 "Confirmed"
                 150%float])).
Proof.
  apply (offered_room_bookable 10 12 db_one
           [Rooms.mk "102" "Deluxe" 150%float "Available"]
           (Rooms.mk "102" "Deluxe" 150%float "Available")
           50002 "C1000" "Confirmed").
  - apply (bool_decide_unpack _). vm_compute. exact I.
  - vm_compute. reflexivity.
  - apply elem_of_cons. by left.
  - lia.
  - apply (bool_decide_unpack _). vm_compute. exact I.
Defined.

(** ** The bookings the action page offers *)

Lemma selects_itself db b :
  bookings_pk db -> b ∈ bookings db ->
  select_one (fun r => Bookings.booking_id r = Bookings.booking_id b)
    (bookings db) = Some b.
Proof.
  intros Hpk Hb.
  destruct (select_one _ (bookings db)) as [b'|] eqn:Hsel.
  - f_equal. symmetry. by eapply selected_row.
  - pose proof (proj1 (select_one_None _ _) Hsel) as Hnone.
    by destruct (Hnone b Hb).
Qed.

(** X19. The action page offers for check-in, for check-out and for
    cancellation exactly the stored bookings on which the call returns
    True: the Confirmed ones for [check_in] and [cancel_booking], the
    CheckedIn ones for [check_out]. *)
Theorem listed_bookings_accepted (db : DB) (b : Bookings.row) :
  bookings_pk db ->
  (exists l, ready_for_check_in db = (Returned l, db)
     /\ (b ∈ l <->
         b ∈ bookings db
         /\ result (check_in (Bookings.booking_id b)) db = Returned true))
  /\ (exists l, ready_for_check_out db = (Returned l, db)
        /\ (b ∈ l <->
            b ∈ bookings db
            /\ result (check_out (Bookings.booking_id b)) db
               = Returned true))
  /\ (exists l, cancelable db = (Returned l, db)
        /\ (b ∈ l <->
            b ∈ bookings db
            /\ result (cancel_booking (Bookings.booking_id b)) db
               = Returned true)).
Proof.
  intros Hpk. unfold result.
  rewrite check_in_eq, check_out_eq, cancel_booking_eq.
  repeat split; eexists; (split; [reflexivity|]);
    rewrite list_elem_of_filter; split.
  all: try (intros [Hst Hb]; split; [exact Hb|];
            rewrite (selects_itself db b Hpk Hb);
            by rewrite decide_True).
  all: intros [Hb Hrun]; split; [|exact Hb];
    rewrite (selects_itself db b Hpk Hb) in Hrun;
    by destruct (decide _).
Qed.

Lemma listed_bookings_accepted_witness :
  exists l, ready_for_check_in db_one = (Returned l, db_one)
    /\ (Bookings.mk "B50001" "C1000" "101" 10 12 "Confirmed" 100%float ∈ l
        <-> Bookings.mk "B50001" "C1000" "101" 10 12 "Confirmed" 100%float
              ∈ bookings db_one
            /\ result (check_in "B50001") db_one = Returned true).
Proof.
  apply (listed_bookings_accepted db_one
           (Bookings.mk "B50001" "C1000" "101" 10 12 "Confirmed" 100%float)).
  apply (bool_decide_unpack _). vm_compute. exact I.
Defined.

(** ** The rooms the modify form offers *)

Lemma free_room_numbers_eq i o id rs db :
  free_room_numbers i o id rs db
  = (Returned
       (Rooms.room_number
          <$> filter (fun r => overlap_count (Rooms.room_number r) i o
                                 (Some id) db = 0) rs),
     db).
Proof.
  induction rs as [|r rs IH]; [reflexivity|].
  rewrite filter_cons. simpl. unfold bind.
  rewrite is_room_available_eq, IH. unfold ret.
  destruct (decide (overlap_count (Rooms.room_number r) i o (Some id) db
                    = 0)) as [Hz|Hz].
  - by rewrite bool_decide_eq_true_2 by exact Hz.
  - by rewrite bool_decide_eq_false_2 by exact Hz.
Qed.

(** X20. The modify form always offers the booking's current room, so its
    room list is never empty; every other room it offers has a record and
    is free for the new nights when the booking itself is ignored, so
    [update_booking] to that room for those nights, when check-in is
    before check-out, succeeds whatever the new status. *)
Theorem offered_room_accepted (id : string) (B : Bookings.row) (i o : date)
    (db : DB) :
  result (get_booking_by_id id) db = Returned (Some B) ->
  exists l,
    available_room_numbers id B i o db = (Returned l, db)
    /\ Bookings.room_number B ∈ l
    /\ forall rn, rn ∈ l -> rn <> Bookings.room_number B ->
         (exists r, r ∈ rooms db /\ Rooms.room_number r = rn)
         /\ (i < o -> forall s,
               update_booking id rn i o s db
               = (Returned
                    (true, "Booking " +:+ id +:+ " successfully updated."),
                  mkDB (moved_rooms B rn s (rooms db))
                       (update_where (fun r => Bookings.booking_id r = id)
                          (set_booking rn i o s (room_price rn (rooms db)))
                          (bookings db)))).
Proof.
  intros HB. apply get_booking_by_id_Some in HB.
  eexists. unfold available_room_numbers, bind.
  rewrite rooms_property_eq, free_room_numbers_eq. unfold ret.
  split; [reflexivity|]. split.
  - destruct (decide (Bookings.room_number B ∈ _)) as [Hin|Hin];
      [exact Hin | apply elem_of_cons; by left].
  - intros rn Hrn Hne.
    assert (Hrn' : rn ∈ Rooms.room_number
              <$> filter (fun r => overlap_count (Rooms.room_number r) i o
                                     (Some id) db = 0)
                    (merge_sort room_order (rooms db))).
    { destruct (decide (Bookings.room_number B ∈ _)); [exact Hrn|].
      apply elem_of_cons in Hrn as [Hrn|Hrn]; [by destruct Hne | exact Hrn]. }
    apply list_elem_of_fmap in Hrn' as (r & -> & Hr).
    apply list_elem_of_filter in Hr as [Hfree Hr].
    rewrite merge_sort_Permutation in Hr.
    split; [by exists r|]. intros Hlt s.
    by apply update_booking_available.
Qed.

Lemma offered_room_accepted_witness :
  exists l,
    available_room_numbers "B50001"
      (Bookings.mk "B50001" "C1000" "101" 10 12 "Confirmed" 100%float)
      10 14 db_one
    = (Returned l, db_one)
    /\ "101" ∈ l
    /\ forall rn, rn ∈ l -> rn <> "101" ->
         (exists r, r ∈ rooms db_one /\ Rooms.room_number r = rn)
         /\ (10 < 14 -> forall s,
               update_booking "B50001" rn 10 14 s db_one
               = (Returned
                    (true,
                     "Booking " +:+ "B50001" +:+ " successfully updated."),
                  mkDB (moved_rooms
                          (Bookings.mk "B50001" "C1000" "101" 10 12
                             "Confirmed" 100%float) rn s (rooms db_one))
                       (update_where
                          (fun r => Bookings.booking_id r = "B50001")
                          (set_booking rn 10 14 s
                             (room_price rn (rooms db_one)))
                          (bookings db_one)))).
Proof.
  apply (offered_room_accepted "B50001"
           (Bookings.mk "B50001" "C1000" "101" 10 12 "Confirmed" 100%float)
           10 14 db_one).
  vm_compute. reflexivity.
Defined.

(** ** Customers *)

Lemma select_one_snoc {R} (P : R -> Prop)
    `{Pdec : !forall r, Decision (P r)} (t : list R) (x : R) :
  select_one P (t ++ [x])
  = match select_one P t with
    | Some r => Some r
    | None => if decide (P x) then Some x else None
    end.
Proof.
  unfold select_one. rewrite filter_app.
  destruct (filter P t) as [|r l]; [|reflexivity].
  simpl. rewrite filter_cons. by destruct (decide (P x)).
Qed.

(** X21. [add_customer] with an identifier not yet stored returns the
    identifier, after which [get_customer_name] of it is the name given
    and every other identifier names whom it named; with an identifier
    already stored it raises [IntegrityError] and the table is as it
    was. *)
Theorem add_customer_round_trip (draw : Z) (name email phone : string)
    (t : list Customers.row) :
  (("C" +:+ pretty draw ∉ Customers.customer_id <$> t) ->
   exists t',
     add_customer draw name email phone t
     = (Returned ("C" +:+ pretty draw), t')
     /\ get_customer_name ("C" +:+ pretty draw) t' = name
     /\ forall id, id <> "C" +:+ pretty draw ->
                   get_customer_name id t' = get_customer_name id t)
  /\ ("C" +:+ pretty draw ∈ Customers.customer_id <$> t ->
      add_customer draw name email phone t = (Raised IntegrityError, t)).
Proof.
  unfold add_customer.
  change (_generate_id "C" draw) with (Some ("C" +:+ pretty draw)).
  unfold insert_customer. simpl Customers.customer_id. split.
  - intros Hnew. rewrite decide_False by exact Hnew. eexists.
    split; [reflexivity|]. unfold get_customer_name. split.
    + rewrite select_one_snoc.
      destruct (select_one _ t) as [c|] eqn:Hsel.
      * apply select_one_Some in Hsel as [Hc Hid]. destruct Hnew.
        rewrite <- Hid. by apply list_elem_of_fmap_2.
      * simpl. by rewrite decide_True.
    + intros id Hne. rewrite select_one_snoc.
      destruct (select_one _ t) as [c|]; [reflexivity|].
      simpl. by rewrite decide_False by congruence.
  - intros Hin. by rewrite decide_True by exact Hin.
Qed.

(** X22. [update_customer] always returns True and keeps every
    identifier.  For a stored identifier, [get_customer_name] then
    returns the new name; for an identifier that is not stored the table
    is as it was and [get_customer_name] returns Unknown.  The name of
    every other identifier is as it was. *)
Theorem update_customer_contract (id new_name new_email new_phone : string)
    (t : list Customers.row) :
  exists t',
    update_customer id new_name new_email new_phone t = (Returned true, t')
    /\ Customers.customer_id <$> t' = Customers.customer_id <$> t
    /\ (id ∈ Customers.customer_id <$> t ->
        get_customer_name id t' = new_name)
    /\ ((id ∉ Customers.customer_id <$> t) ->
        t' = t /\ get_customer_name id t' = "Unknown")
    /\ forall id', id' <> id ->
                   get_customer_name id' t' = get_customer_name id' t.
Proof.
  eexists. split; [reflexivity|]. split; [|split; [|split]].
  - apply update_where_key. reflexivity.
  - intros Hin. unfold get_customer_name.
    rewrite (select_one_update_where Customers.customer_id) by reflexivity.
    destruct (select_one _ t) as [c|] eqn:Hsel.
    + simpl. apply select_one_Some in Hsel as [_ Hid].
      by rewrite decide_True.
    + pose proof (proj1 (select_one_None _ _) Hsel) as Hnone.
      apply list_elem_of_fmap in Hin as (c & Hid & Hc).
      by destruct (Hnone c Hc).
  - intros Hnew.
    assert (Hnone : forall c, c ∈ t -> ~ Customers.customer_id c = id).
    { intros c Hc Hid. destruct Hnew. rewrite <- Hid.
      by apply list_elem_of_fmap_2. }
    rewrite update_where_none by exact Hnone. split; [reflexivity|].
    unfold get_customer_name.
    by rewrite (proj2 (select_one_None _ _) Hnone).
  - intros id' Hne. unfold get_customer_name.
    rewrite (select_one_update_where Customers.customer_id) by reflexivity.
    destruct (select_one _ t) as [c|] eqn:Hsel; [simpl|reflexivity].
    apply select_one_Some in Hsel as [_ Hid].
    by rewrite decide_False by congruence.
Qed.

(** ** Reports over any window *)

Lemma report_step_empty S E r b : S >= E -> report_step S E r b = r.
Proof.
  intros HSE. unfold report_step. rewrite decide_False; [reflexivity|lia].
Qed.

Lemma report_loop_empty S E t r :
  S >= E -> foldl (report_step S E) r t = r.
Proof.
  intros HSE. revert r. induction t as [|b t IH]; intros r; [reflexivity|].
  simpl. by rewrite report_step_empty, IH.
Qed.

(** X23. For a window that does not end after it starts, [get_reports]
    counts nothing: revenue, occupied nights, completed and cancelled
    bookings are all 0 and so is the occupancy rate, whatever is
    stored. *)
Theorem get_reports_empty_window (S E : date) (db : DB) :
  S >= E ->
  result (get_reports S E) db
  = Returned (mkReport (mkTally 0%float 0 0 0)
                (Z.of_nat (length (rooms db)) * (E - S)) 0%float).
Proof.
  intros HSE. unfold result, get_reports, query. simpl.
  rewrite report_loop_empty by exact HSE.
  rewrite decide_False; [reflexivity|]. nia.
Qed.

Lemma get_reports_empty_window_witness :
  result (get_reports 12 10) db_one
  = Returned (mkReport (mkTally 0%float 0 0 0)
                (Z.of_nat (length (rooms db_one)) * (10 - 12)) 0%float).
Proof. apply get_reports_empty_window. lia. Defined.

Lemma get_reports_counters S E db :
  exists r,
    result (get_reports S E) db = Returned r
    /\ counters r
       = foldl (report_step S E) (mkTally 0%float 0 0 0) (bookings db).
Proof.
  unfold result, get_reports, query. simpl.
  destruct (decide _); eexists; split; reflexivity.
Qed.

Lemma nights_in_window_split S M E b :
  S <= M <= E ->
  nights_in_window S E b = nights_in_window S M b + nights_in_window M E b.
Proof. unfold nights_in_window. lia. Qed.

Lemma Zsum_nights_split S M E t :
  S <= M <= E ->
  Zsum (nights_in_window S E <$> t)
  = Zsum (nights_in_window S M <$> t) + Zsum (nights_in_window M E <$> t).
Proof.
  intros H. induction t as [|b t IH]; [reflexivity|].
  rewrite !fmap_cons. change (Zsum (?a :: ?l)) with (a + Zsum l).
  rewrite IH, (nights_in_window_split S M E b) by exact H. lia.
Qed.

(** X24. The occupied nights of a report add up over adjacent windows:
    for [S <= M <= E], the nights counted from [S] to [E] are those
    counted from [S] to [M] plus those counted from [M] to [E]. *)
Theorem occupied_nights_additive (S M E : date) (db : DB) :
  S <= M <= E ->
  exists whole first second,
    result (get_reports S E) db = Returned whole
    /\ result (get_reports S M) db = Returned first
    /\ result (get_reports M E) db = Returned second
    /\ occupied_nights (counters whole)
       = occupied_nights (counters first)
         + occupied_nights (counters second).
Proof.
  intros H.
  destruct (get_reports_counters S E db) as (whole & Hw & Hcw).
  destruct (get_reports_counters S M db) as (first & Hf & Hcf).
  destruct (get_reports_counters M E db) as (second & Hs & Hcs).
  exists whole, first, second. repeat (split; [assumption|]).
  rewrite Hcw, Hcf, Hcs, !report_loop_occupied. simpl.
  by rewrite (Zsum_nights_split S M E).
Qed.

Lemma occupied_nights_additive_witness :
  exists whole first second,
    result (get_reports 5 20) db_one = Returned whole
    /\ result (get_reports 5 11) db_one = Returned first
    /\ result (get_reports 11 20) db_one = Returned second
    /\ occupied_nights (counters whole)
       = occupied_nights (counters first)
         + occupied_nights (counters second).
Proof. apply occupied_nights_additive. lia. Defined.

Lemma report_step_completed S E r b :
  completed_bookings (report_step S E r b)
  = completed_bookings r
    + (if decide (counted_completed S E b) then 1 else 0)
  /\ total_revenue (report_step S E r b)
     = if decide (counted_completed S E b)
       then add_revenue S E (total_revenue r) b
       else total_revenue r.
Proof.
  unfold report_step, counted_completed, add_revenue, nights_in_window.
  destruct (decide (Z.max _ _ < Z.min _ _
                    /\ Bookings.status b = "CheckedOut")) as [[Hlt Hs]|Hn].
  - rewrite (decide_True (P := Z.max _ _ < Z.min _ _)) by exact Hlt.
    rewrite (decide_True (P := Bookings.status b = "CheckedOut"))
      by exact Hs.
    rewrite (Z.max_r 0) by (clear Hs; lia).
    destruct (decide (Bookings.status b ∈ _)) as [Ho|Ho]; clear Ho;
      destruct (decide (Bookings.status b = "Cancelled" /\ _)) as [Hc|Hc];
      clear Hc; simpl; split; reflexivity.
  - destruct (decide (Z.max _ _ < Z.min _ _)) as [Hlt|Hge];
      [|split; [lia | reflexivity]].
    rewrite (decide_False (P := Bookings.status b = "CheckedOut"))
      by tauto.
    destruct (decide (Bookings.status b ∈ _)) as [Ho|Ho]; clear Ho;
      destruct (decide (Bookings.status b = "Cancelled" /\ _)) as [Hc|Hc];
      clear Hc; simpl; split; lia || reflexivity.
Qed.

Lemma report_loop_completed S E t r :
  completed_bookings (foldl (report_step S E) r t)
  = completed_bookings r
    + Z.of_nat (length (filter (counted_completed S E) t))
  /\ total_revenue (foldl (report_step S E) r t)
     = foldl (add_revenue S E) (total_revenue r)
         (filter (counted_completed S E) t).
Proof.
  revert r. induction t as [|b t IH]; intros r.
  - simpl. split; [lia | reflexivity].
  - change (foldl (report_step S E) r (b :: t))
      with (foldl (report_step S E) (report_step S E r b) t).
    destruct (IH (report_step S E r b)) as [-> ->].
    destruct (report_step_completed S E r b) as [-> ->].
    rewrite filter_cons.
    destruct (decide (counted_completed S E b)) as [Hc|Hc]; clear Hc.
    + rewrite length_cons. split; [lia | reflexivity].
    + split; [lia | reflexivity].
Qed.

(** X25. The completed bookings of a report are the CheckedOut bookings
    with a night in the window, and the revenue is added up over these
    bookings alone, in table order: each adds its nights in the window
    times the price stored with it.  Bookings of any other status add
    nothing to either. *)
Theorem get_reports_completed (S E : date) (db : DB) :
  exists r,
    result (get_reports S E) db = Returned r
    /\ completed_bookings (counters r)
       = Z.of_nat (length (filter (counted_completed S E) (bookings db)))
    /\ total_revenue (counters r)
       = foldl (add_revenue S E) 0%float
           (filter (counted_completed S E) (bookings db)).
Proof.
  destruct (get_reports_counters S E db) as (r & Hr & Hc).
  exists r. split; [exact Hr|]. rewrite Hc.
  destruct (report_loop_completed S E (bookings db)
              (mkTally 0%float 0 0 0)) as [-> ->].
  split; [simpl; lia | reflexivity].
Qed.

(** ** The databases of the application *)

Lemma no_double_booking_run o db :
  bookings_pk db -> no_double_booking db ->
  no_double_booking (final (run o) db).
Proof.
  intros Hpk Hinv. unfold final.
  destruct (run o db) as [[[]|e] db'] eqn:Hrun; simpl.
  - by apply (no_double_booking_step o db db').
  - by rewrite (fails_unchanged o db db' Hrun).
  - by rewrite (raised_unchanged o e db db' Hrun).
Qed.

Lemma built_insert_sample_rooms pick numbers db :
  built db -> built (final (insert_sample_rooms pick numbers) db).
Proof.
  revert db. induction numbers as [|i numbers IH]; intros db Hb;
    [exact Hb|].
  unfold final. simpl. unfold bind.
  pose proof (built_insert_room
                (Rooms.mk (pretty i) (key_name (pick i))
                   (room_types (pick i)) "Available") db Hb) as Hb'.
  unfold final in Hb'.
  destruct (insert_room _ db) as [[[]|e] db'] eqn:Hins.
  - apply (IH db' Hb').
  - exact Hb'.
Qed.

Lemma built_init pick db : built db -> built (final (__init__ pick) db).
Proof.
  intros Hb. unfold final, __init__, _create_tables, _is_db_populated,
    bind, ret, query.
  destruct (bool_decide _); simpl; [exact Hb|].
  by apply built_insert_sample_rooms.
Qed.

Lemma managed_built db : managed db -> built db.
Proof.
  induction 1 as [|pick db _ IH|ty p db _ IH|rn ty p st db _ IH|o db _ IH].
  - constructor.
  - by apply built_init.
  - unfold final. rewrite add_room_eq. apply (built_insert_room _ _ IH).
  - by apply built_room_details.
  - by apply built_run.
Qed.

Lemma same_bookings_ok db db' :
  bookings db' = bookings db ->
  bookings_pk db /\ no_double_booking db ->
  bookings_pk db' /\ no_double_booking db'.
Proof.
  unfold bookings_pk, no_double_booking. by intros ->.
Qed.

Lemma built_bookings_ok db :
  built db -> bookings_pk db /\ no_double_booking db.
Proof.
  induction 1 as [|r db Hb IH|rn ty p st db Hb IH|o db Hb [Hpk Hinv]].
  - split; [apply NoDup_nil_2|]. intros a b Ha. by apply elem_of_nil in Ha.
  - apply (same_bookings_ok db); [apply insert_room_bookings | exact IH].
  - apply (same_bookings_ok db);
      [apply update_room_details_bookings | exact IH].
  - split; [by apply bookings_pk_run | by apply no_double_booking_run].
Qed.

(** X26. Every database the application builds from a new file, by
    opening the manager, adding and editing rooms and running booking
    operations, whatever each returns, has unique room numbers and
    booking identifiers, no empty booking identifier, every stay ending
    after it starts, and no two Confirmed or CheckedIn bookings of one
    room that share a night. *)
Theorem managed_invariants (db : DB) :
  managed db -> store_ok db /\ no_double_booking db.
Proof.
  intros Hm. apply managed_built in Hm. split.
  - by apply built_store_ok.
  - by apply built_bookings_ok.
Qed.

Lemma managed_invariants_witness :
  store_ok (final (run (AddBooking 50001 "C1000" "101" 10 12 "Confirmed"))
              (final (add_room "Deluxe" 150%float)
                 (final (__init__ (fun _ => Standard)) (mkDB [] []))))
  /\ no_double_booking
       (final (run (AddBooking 50001 "C1000" "101" 10 12 "Confirmed"))
          (final (add_room "Deluxe" 150%float)
             (final (__init__ (fun _ => Standard)) (mkDB [] [])))).
Proof.
  apply managed_invariants.
  apply (managed_run (AddBooking 50001 "C1000" "101" 10 12 "Confirmed")).
  apply (managed_add_room "Deluxe" 150%float).
  apply (managed_open (fun _ => Standard)).
  apply managed_new.
Defined.

(** ** Date texts and identifiers *)

Lemma lex_eq c1 c2 : lex c1 c2 = Eq -> c1 = Eq /\ c2 = Eq.
Proof. unfold lex. destruct c1; auto; discriminate. Qed.

(** X27. The texts the engine stores for dates order as the dates do: for
    two valid dates, SQLite's comparison of their ISO texts is the
    comparison of the dates, so the text tests of the availability query
    are tests on dates; and two dates with the same text are the same
    date. *)
Theorem iso_text_order (a b : ymd) :
  valid_date a -> valid_date b ->
  String.compare (isoformat a) (isoformat b)
  = Z.compare (toordinal a) (toordinal b)
  /\ (isoformat a = isoformat b -> a = b).
Proof.
  intros Ha Hb. split; [by apply isoformat_compare|].
  intros Heq.
  assert (Hc : String.compare (isoformat a) (isoformat b) = Eq).
  { rewrite Heq. pose proof (String.compare_antisym (isoformat b)
                               (isoformat b)) as Hanti.
    by destruct (String.compare (isoformat b) (isoformat b)). }
  rewrite isoformat_compare, toordinal_compare in Hc by assumption.
  apply lex_eq in Hc as [Hy Hc]. apply lex_eq in Hc as [Hm Hd].
  apply Z.compare_eq in Hy, Hm, Hd.
  destruct a, b. simpl in *. congruence.
Qed.

Lemma iso_text_order_witness :
  String.compare (isoformat (mk_ymd 2024 2 29)) (isoformat (mk_ymd 2024 3 1))
  = Z.compare (toordinal (mk_ymd 2024 2 29)) (toordinal (mk_ymd 2024 3 1))
  /\ (isoformat (mk_ymd 2024 2 29) = isoformat (mk_ymd 2024 3 1) ->
      mk_ymd 2024 2 29 = mk_ymd 2024 3 1).
Proof.
  apply iso_text_order.
  - apply (bool_decide_unpack _). vm_compute. exact I.
  - apply (bool_decide_unpack _). vm_compute. exact I.
Defined.

(** X28. [_generate_id] returns an identifier for the prefixes C, R and
    B and None for any other.  The identifier fixes the draw: two calls
    with one prefix return the same identifier only for the same drawn
    number; and a customer identifier is never a booking identifier. *)
Theorem generated_ids (prefix : string) (draw draw' : Z) :
  (_generate_id prefix draw = None <-> prefix ∉ ["C"; "R"; "B"])
  /\ (prefix ∈ ["C"; "R"; "B"] ->
      _generate_id prefix draw = _generate_id prefix draw' -> draw = draw')
  /\ _generate_id "C" draw <> _generate_id "B" draw'.
Proof.
  split; [|split].
  - unfold _generate_id. rewrite !elem_of_cons, elem_of_nil.
    destruct (decide (prefix = "C")); [split; [discriminate | tauto]|].
    destruct (decide (prefix = "R")); [split; [discriminate | tauto]|].
    destruct (decide (prefix = "B")); [split; [discriminate | tauto]|].
    split; [tauto | reflexivity].
  - unfold _generate_id. rewrite !elem_of_cons, elem_of_nil. intros Hp.
    destruct (decide (prefix = "C")).
    { intros Heq. injection Heq as Heq.
      change (pretty draw = pretty draw') in Heq.
      by apply (inj pretty) in Heq. }
    destruct (decide (prefix = "R")).
    { intros Heq. injection Heq as Heq. by apply (inj pretty) in Heq. }
    destruct (decide (prefix = "B")); [|tauto].
    intros Heq. injection Heq as Heq.
    change (pretty draw = pretty draw') in Heq.
    by apply (inj pretty) in Heq.
  - change (Some (String "C" (pretty draw))
            <> Some (String "B" (pretty draw'))).
    discriminate.
Qed.

(** ** Prices as the columns hold them *)

Lemma real_column_stored p q : real_column p = Some q -> stored q.
Proof.
  unfold stored, real_column.
  destruct (PrimFloat.is_nan p) eqn:Hnan; [discriminate|].
  destruct (PrimFloat.is_zero p) eqn:Hzero; intros H; injection H as <-.
  - reflexivity.
  - by rewrite Hnan, Hzero.
Qed.

Lemma with_room_status_prices rn s t :
  Rooms.price <$> with_room_status rn s t = Rooms.price <$> t.
Proof. apply update_where_key. reflexivity. Qed.

Lemma moved_rooms_prices b rn s t :
  Rooms.price <$> moved_rooms b rn s t = Rooms.price <$> t.
Proof.
  unfold moved_rooms.
  destruct (decide (s = "CheckedIn")),
           (decide (Bookings.status b = "CheckedIn"));
    rewrite ?with_room_status_prices; reflexivity.
Qed.

Lemma room_price_stored rn t :
  Forall stored (Rooms.price <$> t) -> stored (room_price rn t).
Proof.
  intros Ht. unfold room_price.
  destruct (select_one _ t) as [r|] eqn:Hsel; [|reflexivity].
  apply select_one_Some in Hsel as [Hr _].
  rewrite Forall_forall in Ht. apply Ht. by apply list_elem_of_fmap_2.
Qed.

Lemma prices_stored_run o db :
  prices_stored db -> prices_stored (final (run o) db).
Proof.
  intros [Hr Hb]. unfold final. rewrite run_eq.
  destruct o as [draw c rn i o s | id rn i o s | id | id | id].
  - rewrite add_booking_eq.
    destruct (decide _); [done|].
    destruct (select_one _ _) as [r|] eqn:Hsel; [|done].
    destruct (bool_decide _); [|done]. destruct (decide _); [done|].
    split; [exact Hr|]. simpl. rewrite fmap_app. apply Forall_app.
    split; [exact Hb|]. apply Forall_singleton. simpl.
    apply select_one_Some in Hsel as [Hin _].
    rewrite Forall_forall in Hr. apply Hr. by apply list_elem_of_fmap_2.
  - rewrite update_booking_eq.
    destruct (select_one _ _) as [B|]; [|done].
    destruct (decide _); [done|]. destruct (bool_decide _); [|done].
    split; simpl; [by rewrite moved_rooms_prices|].
    apply Forall_fmap, Forall_forall. intros b' Hb'.
    apply elem_of_update_where in Hb' as (b & Hin & ->).
    destruct (decide _); simpl.
    + by apply room_price_stored.
    + rewrite Forall_forall in Hb. apply Hb. by apply list_elem_of_fmap_2.
  - rewrite check_in_eq. destruct (select_one _ _); [|done].
    destruct (decide _); [|done]. split; simpl.
    + by rewrite with_room_status_prices.
    + by rewrite with_booking_status_prices.
  - rewrite check_out_eq. destruct (select_one _ _); [|done].
    destruct (decide _); [|done]. split; simpl.
    + by rewrite with_room_status_prices.
    + by rewrite with_booking_status_prices.
  - rewrite cancel_booking_eq. destruct (select_one _ _); [|done].
    destruct (decide _); [|done]. split; simpl; [exact Hr|].
    by rewrite with_booking_status_prices.
Qed.

Lemma built_prices_stored db : built db -> prices_stored db.
Proof.
  induction 1 as [|r db Hb [Hr Hp]|rn ty p st db Hb [Hr Hp]|o db Hb IH].
  - split; constructor.
  - unfold final, insert_room.
    destruct (real_column (Rooms.price r)) as [q|] eqn:Hq; [|done].
    destruct (decide _); [done|]. split; [|exact Hp]. simpl.
    rewrite fmap_app. apply Forall_app. split; [exact Hr|].
    apply Forall_singleton. simpl. by apply (real_column_stored _ _ Hq).
  - unfold final. rewrite update_room_details_eq.
    destruct (real_column p) as [q|] eqn:Hq; [|by destruct (decide _)].
    split; [|exact Hp]. simpl.
    apply Forall_fmap, Forall_forall. intros r' Hr'.
    apply elem_of_update_where in Hr' as (r & Hin & ->).
    destruct (decide _); simpl.
    + by apply (real_column_stored _ _ Hq).
    + rewrite Forall_forall in Hr. apply Hr. by apply list_elem_of_fmap_2.
  - by apply prices_stored_run.
Qed.

(** X29. Every price in a database the application builds from a new
    file, of a room or stored with a booking, is a number as its [REAL]
    column holds it, never NaN and never a zero with a sign: what the
    methods read back from the database is the float the rows here
    hold. *)
Theorem managed_prices_stored (db : DB) :
  managed db -> prices_stored db.
Proof. intros Hm. by apply built_prices_stored, managed_built. Qed.

Lemma managed_prices_stored_witness :
  prices_stored
    (final (run (AddBooking 50001 "C1000" "101" 10 12 "Confirmed"))
       (final (update_room_details "101" "Suite" (-0)%float "Available")
          (final (__init__ (fun _ => Standard)) (mkDB [] [])))).
Proof.
  apply managed_prices_stored.
  apply (managed_run (AddBooking 50001 "C1000" "101" 10 12 "Confirmed")).
  apply (managed_room_details "101" "Suite" (-0)%float "Available").
  apply (managed_open (fun _ => Standard)).
  apply managed_new.
Defined.
